(** * Sveltia CMS: the Gitea backend and the sign-in flows

    A shallow embedding of [src/lib/services/backends/gitea.js] and
    [src/lib/services/user/auth.js].  Asynchronous functions become state
    transformers over the module-level singletons and Svelte stores they touch;
    an [await] is the sequencing of the monad.  Every request sent through
    [fetchAPI] and every value published to [dataLoadedProgress] is logged in
    the state, so that statements about "how many requests" and "which values
    were published" can be read off the final state. *)

From Stdlib Require Import List String Ascii ZArith QArith Qround Lia Bool.
From Stdlib Require Import Sorted.
From Stdlib Require Import DecimalString DecimalNat.
Import ListNotations.
Local Open Scope list_scope.
Local Open Scope string_scope.

(* ================================================================== *)
(** * JavaScript values and built-ins used by the two files             *)
(* ================================================================== *)

Module Js.

(** [haystack.includes(needle)] *)
Fixpoint includes (needle haystack : string) : bool :=
  prefix needle haystack
  || match haystack with
     | EmptyString => false
     | String _ rest => includes needle rest
     end.

(** [s.split(sep)] for a one-character separator; never returns [[]]. *)
Fixpoint split (sep : ascii) (s : string) : list string :=
  match s with
  | EmptyString => [EmptyString]
  | String c rest =>
      if Ascii.eqb c sep then EmptyString :: split sep rest
      else match split sep rest with
           | [] => [String c EmptyString]
           | hd :: tl => String c hd :: tl
           end
  end.

Fixpoint drop (n : nat) (s : string) : string :=
  match n, s with
  | O, _ => s
  | S _, EmptyString => EmptyString
  | S n', String _ rest => drop n' rest
  end.

(** [s.replace(pat, rep)] with a string pattern: the first occurrence only. *)
Fixpoint replace (pat rep s : string) : string :=
  if prefix pat s then rep ++ drop (String.length pat) s
  else match s with
       | EmptyString => EmptyString
       | String c rest => String c (replace pat rep rest)
       end.

(** A possibly [undefined] string inside a template literal. *)
Definition show (o : option string) : string :=
  match o with Some s => s | None => "undefined" end.

(** Truthiness of a possibly [undefined] string. *)
Definition truthy (o : option string) : bool :=
  match o with
  | Some s => negb (String.eqb s "")
  | None => false
  end.

(** Decimal rendering of a non-negative integer in a template literal. *)
Definition showNat (n : nat) : string :=
  NilEmpty.string_of_uint (Nat.to_uint n).

(** ** Errors

    [new Error(message, { cause })].  Two shapes of [cause] occur: another
    [Error] carrying a localized message, and the API client's
    [{ status, message }]. *)
Record Cause := mkCause { cause_message : string; cause_status : option Z }.

Record Error := mkError { name : string; message : string; cause : option Cause }.

Definition newError (msg localized : string) : Error :=
  mkError "Error" msg (Some (mkCause localized None)).

Definition typeError (msg : string) : Error := mkError "TypeError" msg None.

(** The fate of an asynchronous call.  [Pending] is a promise that never
    settles: the iteration budget given to an unbounded [for (;;)] ran out. *)
Inductive Outcome (A : Type) : Type :=
| Returned (a : A)
| Thrown (e : Error)
| Pending.
Arguments Returned {A} a.
Arguments Thrown {A} e.
Arguments Pending {A}.

(** ** Numbers

    A JavaScript number is a binary64 float.  The embedding keeps the exact
    rational and applies an abstract rounding [rnd : Q -> Q] wherever the
    source performs a floating-point operation; theorems then hold for every
    monotone rounding. *)
Inductive Number := NaN | Finite (q : Q) | Infinity (negative : bool).

Definition roundNumber (rnd : Q -> Q) (n : Number) : Number :=
  match n with Finite q => Finite (rnd q) | _ => n end.

(** [a < b] *)
Definition lessThan (a b : Number) : bool :=
  match a, b with
  | NaN, _ | _, NaN => false
  | Finite x, Finite y => if Qlt_le_dec x y then true else false
  | Finite _, Infinity neg => negb neg
  | Infinity neg, Finite _ => neg
  | Infinity n1, Infinity n2 => n1 && negb n2
  end.

Definition isWhiteSpace (c : ascii) : bool :=
  match nat_of_ascii c with
  | 9 | 10 | 11 | 12 | 13 | 32 => true
  | _ => false
  end%nat.

Fixpoint trimStart (s : string) : string :=
  match s with
  | String c rest => if isWhiteSpace c then trimStart rest else s
  | EmptyString => s
  end.

Definition digitOf (c : ascii) : option Z :=
  let n := nat_of_ascii c in
  if ((48 <=? n) && (n <=? 57))%nat then Some (Z.of_nat (n - 48)) else None.

(** Longest run of decimal digits: accumulated value, digit count, rest. *)
Fixpoint digits (s : string) (acc : Z) (count : nat) : Z * nat * string :=
  match s with
  | String c rest =>
      match digitOf c with
      | Some d => digits rest (10 * acc + d) (S count)
      | None => (acc, count, s)
      end
  | EmptyString => (acc, count, s)
  end.

Definition isExponentMark (c : ascii) : bool :=
  Ascii.eqb c "e" || Ascii.eqb c "E".

(** The exponent part ([e], an optional sign, digits) if one follows, else 0. *)
Definition exponentOf (s : string) : Z :=
  match s with
  | String c rest =>
      if isExponentMark c then
        match rest with
        | String "-" r => let '(e, n, _) := digits r 0 0 in (- e)%Z
        | String "+" r => let '(e, n, _) := digits r 0 0 in e
        | _ => let '(e, n, _) := digits rest 0 0 in e
        end
      else 0%Z
  | EmptyString => 0%Z
  end.

(** [Number.parseFloat(s)] before rounding: the longest prefix of the
    trimmed string that is a decimal literal (ASCII white space only). *)
Definition parseFloat (s : string) : Number :=
  let s0 := trimStart s in
  let '(neg, s1) :=
    match s0 with
    | String "-" r => (true, r)
    | String "+" r => (false, r)
    | _ => (false, s0)
    end in
  if prefix "Infinity" s1 then Infinity neg
  else
    let '(ip, ni, s2) := digits s1 0 0 in
    let '(fp, nf, s3) :=
      match s2 with
      | String "." r => digits r ip 0
      | _ => (ip, O, s2)
      end in
    if (ni + nf =? 0)%nat then NaN
    else
      let m := (inject_Z fp / (10 # 1) ^ Z.of_nat nf * (10 # 1) ^ exponentOf s3)%Q in
      Finite (if neg then Qopp m else m).

(** [a / b] for two array lengths. *)
Definition divideLengths (rnd : Q -> Q) (a b : nat) : Number :=
  if (b =? 0)%nat then (if (a =? 0)%nat then NaN else Infinity false)
  else Finite (rnd (inject_Z (Z.of_nat a) / inject_Z (Z.of_nat b))%Q).

(** [n * k] for a positive literal [k]. *)
Definition timesLiteral (rnd : Q -> Q) (n : Number) (k : Q) : Number :=
  match n with
  | Finite q => Finite (rnd (q * k)%Q)
  | _ => n
  end.

(** [Math.ceil(n)] *)
Definition mathCeil (n : Number) : Number :=
  match n with
  | Finite q => Finite (inject_Z (Qceiling q))
  | _ => n
  end.

(** [Array.prototype.splice(0, count)]: the removed head and what is left. *)
Definition splice {A} (count : Z) (l : list A) : list A * list A :=
  (firstn (Z.to_nat count) l, skipn (Z.to_nat count) l).

(** Destructuring default: [{ key: x = d }]. *)
Definition orDefault {A} (o : option A) (d : A) : A :=
  match o with Some a => a | None => d end.

Fixpoint assign {A} (key : string) (value : A) (obj : list (string * A))
    : list (string * A) :=
  match obj with
  | [] => [(key, value)]
  | (k, v) :: rest =>
      if String.eqb k key then (k, value) :: rest
      else (k, v) :: assign key value rest
  end.

(** [Object.fromEntries(entries)]: a later entry replaces an earlier one
    with the same key. *)
Definition fromEntries {A} (entries : list (string * A)) : list (string * A) :=
  fold_left (fun obj kv => assign (fst kv) (snd kv) obj) entries [].

(** ** The monad of asynchronous functions over a state [S] *)

Definition M (S A : Type) : Type := S -> Outcome A * S.

Definition ret {S A} (a : A) : M S A := fun st => (Returned a, st).

Definition throw {S A} (e : Error) : M S A := fun st => (Thrown e, st).

Definition pending {S A} : M S A := fun st => (Pending, st).

Definition bind {S A B} (m : M S A) (k : A -> M S B) : M S B :=
  fun st =>
    match m st with
    | (Returned a, st') => k a st'
    | (Thrown e, st') => (Thrown e, st')
    | (Pending, st') => (Pending, st')
    end.

(** [try { m } catch (error) { h error }] *)
Definition tryCatch {S A} (m : M S A) (h : Error -> M S A) : M S A :=
  fun st =>
    match m st with
    | (Thrown e, st') => h e st'
    | other => other
    end.

Definition gets {S A} (f : S -> A) : M S A :=
  fun st => (Returned (f st), st).

Definition modify {S} (f : S -> S) : M S unit :=
  fun st => (Returned tt, f st).

Declare Scope js_scope.
Delimit Scope js_scope with js.
Notation "x <- m ;; k" := (bind m (fun x => k))
  (at level 61, m at next level, right associativity) : js_scope.
Notation "m ;;; k" := (bind m (fun _ => k))
  (at level 61, right associativity) : js_scope.

End Js.

(* ================================================================== *)
(** * Base64 text codec ([encodeBase64] / [decodeBase64])               *)
(* ================================================================== *)

(** Modelled from the spec: [encodeBase64] and [decodeBase64] are imported
    from [@sveltia/utils/file], which is not part of the sources.  The spec
    says a file's text travels as base64 of its UTF-8 bytes; this is the
    RFC 4648 alphabet with [=] padding.  A text is represented by its UTF-8
    byte sequence, one [ascii] per byte. *)
Module Base64.

Definition alphabet : string :=
  "ABCDEFGHIJKLMNOPQRSTUVWXYZabcdefghijklmnopqrstuvwxyz0123456789+/".

(** Six bits, most significant first. *)
Definition Sextet : Type := (bool * bool * bool * bool * bool * bool)%type.

Definition bit (b : bool) (weight : nat) : nat := if b then weight else 0.

Definition sextetIndex (s : Sextet) : nat :=
  let '(b5, b4, b3, b2, b1, b0) := s in
  (bit b5 32 + bit b4 16 + bit b3 8 + bit b2 4 + bit b1 2 + bit b0 1)%nat.

Definition indexSextet (n : nat) : Sextet :=
  (Nat.testbit n 5, Nat.testbit n 4, Nat.testbit n 3,
   Nat.testbit n 2, Nat.testbit n 1, Nat.testbit n 0).

Definition pad : ascii := "="%char.

Definition isPad (c : ascii) : bool := Ascii.eqb c pad.

Definition encodeChar (s : Sextet) : ascii :=
  match String.get (sextetIndex s) alphabet with
  | Some c => c
  | None => pad
  end.

Fixpoint indexOf (c : ascii) (s : string) : option nat :=
  match s with
  | EmptyString => None
  | String d rest =>
      if Ascii.eqb c d then Some O else option_map S (indexOf c rest)
  end.

Definition decodeChar (c : ascii) : option Sextet :=
  option_map indexSextet (indexOf c alphabet).

Definition isEmpty (s : string) : bool :=
  match s with EmptyString => true | String _ _ => false end.

(** Three bytes make four sextets; one or two trailing bytes are padded. *)
Fixpoint encode (s : string) : string :=
  match s with
  | EmptyString => EmptyString
  | String (Ascii a0 a1 a2 a3 a4 a5 a6 a7) EmptyString =>
      String (encodeChar (a7, a6, a5, a4, a3, a2))
     (String (encodeChar (a1, a0, false, false, false, false))
     (String pad (String pad EmptyString)))
  | String (Ascii a0 a1 a2 a3 a4 a5 a6 a7)
   (String (Ascii b0 b1 b2 b3 b4 b5 b6 b7) EmptyString) =>
      String (encodeChar (a7, a6, a5, a4, a3, a2))
     (String (encodeChar (a1, a0, b7, b6, b5, b4))
     (String (encodeChar (b3, b2, b1, b0, false, false))
     (String pad EmptyString)))
  | String (Ascii a0 a1 a2 a3 a4 a5 a6 a7)
   (String (Ascii b0 b1 b2 b3 b4 b5 b6 b7)
   (String (Ascii c0 c1 c2 c3 c4 c5 c6 c7) rest)) =>
      String (encodeChar (a7, a6, a5, a4, a3, a2))
     (String (encodeChar (a1, a0, b7, b6, b5, b4))
     (String (encodeChar (b3, b2, b1, b0, c7, c6))
     (String (encodeChar (c5, c4, c3, c2, c1, c0))
     (encode rest))))
  end.

Definition byte1 (s1 s2 : Sextet) : ascii :=
  let '(a7, a6, a5, a4, a3, a2) := s1 in
  let '(a1, a0, _, _, _, _) := s2 in
  Ascii a0 a1 a2 a3 a4 a5 a6 a7.

Definition byte2 (s2 s3 : Sextet) : ascii :=
  let '(_, _, b7, b6, b5, b4) := s2 in
  let '(b3, b2, b1, b0, _, _) := s3 in
  Ascii b0 b1 b2 b3 b4 b5 b6 b7.

Definition byte3 (s3 s4 : Sextet) : ascii :=
  let '(_, _, _, _, c7, c6) := s3 in
  let '(c5, c4, c3, c2, c1, c0) := s4 in
  Ascii c0 c1 c2 c3 c4 c5 c6 c7.

(** [None] stands for the exception thrown on malformed input. *)
Fixpoint decode (s : string) : option string :=
  match s with
  | EmptyString => Some EmptyString
  | String c1 (String c2 (String c3 (String c4 rest))) =>
      match decodeChar c1, decodeChar c2 with
      | Some s1, Some s2 =>
          if isPad c3 then
            if isPad c4 && isEmpty rest
            then Some (String (byte1 s1 s2) EmptyString)
            else None
          else
            match decodeChar c3 with
            | None => None
            | Some s3 =>
                if isPad c4 then
                  if isEmpty rest
                  then Some (String (byte1 s1 s2)
                            (String (byte2 s2 s3) EmptyString))
                  else None
                else
                  match decodeChar c4 with
                  | None => None
                  | Some s4 =>
                      option_map
                        (fun t => String (byte1 s1 s2)
                                 (String (byte2 s2 s3)
                                 (String (byte3 s3 s4) t)))
                        (decode rest)
                  end
            end
      | _, _ => None
      end
  | _ => None
  end.

Definition encodeBase64 (data : string) : string := encode data.

Definition decodeBase64 (str : string) : option string := decode str.

End Base64.

(* ================================================================== *)
(** * The Gitea backend ([src/lib/services/backends/gitea.js])          *)
(* ================================================================== *)

Module Gitea.
Import Js.

(** ** Data *)

Module RepositoryInfo.
Record t := mk {
    service : string;
    label : string;
    owner : string;
    repo : option string;
    branch : option string;
    baseURL : string;
    databaseName : string;
    isSelfHosted : bool;
    treeBaseURL : string;
    blobBaseURL : string }.
End RepositoryInfo.

Module ApiEndpointConfig.
Record t := mk {
    clientId : string;
    authURL : string;
    tokenURL : string;
    origin : string;
    restBaseURL : string }.
End ApiEndpointConfig.

(** The [backend] object of the site configuration; an absent key is [None]. *)
Module BackendConfig.
Record t := mk {
    name : string;
    repo : option string;
    branch : option string;
    base_url : option string;
    auth_endpoint : option string;
    app_id : option string;
    api_root : option string }.
End BackendConfig.

Module User.
Record t := mk {
    name : option string;
    email : option string;
    token : option string;
    refreshToken : option string }.
End User.

(** [@typedef PartialGitEntry] *)
Module PartialGitEntry.
Record t := mk { type : string; path : string; sha : string; size : Z }.
End PartialGitEntry.

(** [BaseFileListItemProps], the result of file listing. *)
Module FileProps.
Record t := mk { path : string; sha : string; size : Z; name : string }.
End FileProps.

(** [BaseFileListItem], the input of content fetch. *)
Module FileItem.
Record t := mk {
    path : string; sha : string; size : option Z; name : string; type : string }.
End FileItem.

(** A non-null [PartialContentsListItem]. *)
Module Contents.
Record t := mk { content : option string; encoding : option string }.
End Contents.

(** One value of the [RepositoryContentsMap]; [meta] is always [{}]. *)
Module FileData.
Record t := mk { sha : string; size : Z; text : string }.
End FileData.

Inductive Action := create | update | delete | move.

Module FileChange.
Record t := mk {
    action : Action;
    path : string;
    previousPath : option string;
    data : option string }.
End FileChange.

(** One element of [files] in the commit request. *)
Module FileOperation.
Record t := mk {
    operation : Action;
    path : string;
    content : string;
    from_path : option string }.
End FileOperation.

Module Identity.
Record t := mk { name : option string; email : option string }.
End Identity.

Module CommitBody.
Record t := mk {
    branch : option string;
    author : Identity.t;
    committer : Identity.t;
    dates : string * string;
    message : string;
    files : list FileOperation.t }.
End CommitBody.

Record CommitChangesOptions := mkCommitOptions { commitType : string }.

(** ** Requests and responses *)

Inductive Method := GET | POST.

Inductive Body :=
| NoBody
| FilesBody (files : list string)
| CommitRequest (body : CommitBody.t).

Module Request.
Record t := mk { path : string; method : Method; body : Body }.
End Request.

(** A request that was sent, and the error it was answered with, if any. *)
Module Exchange.
Record t := mk { request : Request.t; failure : option Error }.
End Exchange.

Module Permissions.
Record t := mk { pull : bool }.
End Permissions.

Module RepoResponse.
Record t := mk {
    permissions : option Permissions.t;
    default_branch : option string }.
End RepoResponse.

Record VersionResponse := mkVersion { version : string }.

Record BranchResponse := mkBranch { commit_id : string; commit_message : string }.

Record TreeResponse :=
  mkTree { tree : list PartialGitEntry.t; truncated : bool }.

Record SettingsResponse := mkSettings { default_paging_num : option Z }.

Record CommitResponse := mkCommitResponse { commit_html_url : string }.

(** What the provider answers to a request, given everything sent before. *)
Definition Api (T : Type) : Type :=
  list Exchange.t -> Request.t -> Error + T.

(** ** State: module-level singletons, stores, and the two logs *)

Record State := mkState {
  siteConfig : option BackendConfig.t;
  devModeEnabled : bool;
  user : option User.t;
  repository : RepositoryInfo.t;
  apiConfig : ApiEndpointConfig.t;
  repositoryResponseCache : option RepoResponse.t;
  dataLoadedProgress : option Number;
  published : list (option Number);
  exchanges : list Exchange.t;
  console : list string }.

Definition setRepository (r : RepositoryInfo.t) (st : State) : State :=
  mkState (siteConfig st) (devModeEnabled st) (user st) r (apiConfig st)
    (repositoryResponseCache st) (dataLoadedProgress st) (published st)
    (exchanges st) (console st).

Definition setApiConfig (a : ApiEndpointConfig.t) (st : State) : State :=
  mkState (siteConfig st) (devModeEnabled st) (user st) (repository st) a
    (repositoryResponseCache st) (dataLoadedProgress st) (published st)
    (exchanges st) (console st).

Definition setCache (c : option RepoResponse.t) (st : State) : State :=
  mkState (siteConfig st) (devModeEnabled st) (user st) (repository st)
    (apiConfig st) c (dataLoadedProgress st) (published st)
    (exchanges st) (console st).

(** [dataLoadedProgress.set(v)]; the value is also appended to [published]. *)
Definition setProgress (v : option Number) (st : State) : State :=
  mkState (siteConfig st) (devModeEnabled st) (user st) (repository st)
    (apiConfig st) (repositoryResponseCache st) v (published st ++ [v])%list
    (exchanges st) (console st).

Definition logExchange (x : Exchange.t) (st : State) : State :=
  mkState (siteConfig st) (devModeEnabled st) (user st) (repository st)
    (apiConfig st) (repositoryResponseCache st) (dataLoadedProgress st)
    (published st) (exchanges st ++ [x])%list (console st).

Definition logConsole (line : string) (st : State) : State :=
  mkState (siteConfig st) (devModeEnabled st) (user st) (repository st)
    (apiConfig st) (repositoryResponseCache st) (dataLoadedProgress st)
    (published st) (exchanges st) (console st ++ [line])%list.

(** ** Asynchronous functions of the backend *)

Definition M (A : Type) : Type := Js.M State A.

Local Open Scope js_scope.

(** Modelled from the spec: [fetchAPIWithAuth] of
    [services/backends/shared/api] is not part of the sources.  Per section
    4.1 it sends the request and either returns the decoded response or
    fails with an error carrying the status code.  The silent token refresh
    only rewrites the [user] store and is left out. *)
Definition fetchAPI {T} (api : Api T) (path : string) (method : Method)
    (body : Body) : M T :=
  fun st =>
    let req := Request.mk path method body in
    match api (exchanges st) req with
    | inl e => (Thrown e, logExchange (Exchange.mk req (Some e)) st)
    | inr r => (Returned r, logExchange (Exchange.mk req None) st)
    end.

(** The callbacks [fetchFiles] hands to the shared synchronizer. *)
Record SyncArgs := mkSyncArgs {
  sync_fetchDefaultBranchName : M string;
  sync_fetchLastCommit : M (string * string);
  sync_fetchFileList : option string -> M (list FileProps.t);
  sync_fetchFileContents :
    list FileItem.t -> M (list (string * FileData.t)) }.

(** Everything outside the two files: the provider behind each endpoint,
    imported helpers, localization, the clock and float rounding. *)
Record Env := mkEnv {
  localize : string -> list (string * string) -> string;
  rnd : Q -> Q;
  stripSlashes : string -> string;
  urlOrigin : string -> option string;
  basename : string -> string;
  now : string;
  createCommitMessage :
    list FileChange.t -> CommitChangesOptions -> string;
  fetchAndParseFiles : SyncArgs -> M unit;
  versionApi : Api VersionResponse;
  repoApi : Api RepoResponse.t;
  branchApi : Api BranchResponse;
  treeApi : Api TreeResponse;
  settingsApi : Api SettingsResponse;
  contentsApi : Api (list (option Contents.t));
  commitApi : Api CommitResponse }.

(** ** The backend functions *)

Definition backendName : string := "gitea".
Definition label : string := "Gitea".
Definition DEFAULT_API_ROOT : string := "https://gitea.com/api/v1".
Definition DEFAULT_AUTH_ROOT : string := "https://gitea.com".
Definition DEFAULT_AUTH_PATH : string := "login/oauth/authorize".
(** The literal [1.24], before rounding. *)
Definition MIN_GITEA_VERSION : Q := 124 # 100.

Section Backend.

Variable E : Env.

(** [(treeBaseURL, blobBaseURL)] *)
Definition getBaseURLs (baseURL : string) (branch : option string)
    : string * string :=
  (if truthy branch then baseURL ++ "/src/branch/" ++ show branch else baseURL,
   if truthy branch then baseURL ++ "/src/branch/" ++ show branch else "").

(** The two [Object.assign] calls of [init] overwrite every field of
    [repository] and every field of [apiConfig].  [siteConfig st = None]
    stands for a configuration without a [backend]. *)
Definition init : M (option RepositoryInfo.t) :=
  config <- gets siteConfig ;;
  match config with
  | None => ret None
  | Some backend =>
      if negb (String.eqb (BackendConfig.name backend) backendName)
      then ret None
      else
        let branch := BackendConfig.branch backend in
        let authRoot :=
          orDefault (BackendConfig.base_url backend) DEFAULT_AUTH_ROOT in
        let authPath :=
          orDefault (BackendConfig.auth_endpoint backend) DEFAULT_AUTH_PATH in
        let clientId := orDefault (BackendConfig.app_id backend) "" in
        let restApiRoot :=
          orDefault (BackendConfig.api_root backend) DEFAULT_API_ROOT in
        let authURL :=
          stripSlashes E authRoot ++ "/" ++ stripSlashes E authPath in
        match urlOrigin E restApiRoot with
        | None => throw (typeError "Invalid URL")
        | Some restApiOrigin =>
            match BackendConfig.repo backend with
            | None => throw (typeError "projectPath is undefined")
            | Some projectPath =>
                let parts := split "/" projectPath in
                let owner := hd "" parts in
                let repo := nth_error parts 1 in
                let baseURL :=
                  restApiOrigin ++ "/" ++ owner ++ "/" ++ show repo in
                let urls := getBaseURLs baseURL branch in
                modify (setRepository
                  (RepositoryInfo.mk backendName label owner repo branch
                     baseURL
                     (backendName ++ ":" ++ owner ++ "/" ++ show repo)
                     (negb (String.eqb restApiRoot DEFAULT_API_ROOT))
                     (fst urls) (snd urls))) ;;;
                modify (setApiConfig
                  (ApiEndpointConfig.mk clientId authURL
                     (replace "/authorize" "/access_token" authURL)
                     restApiOrigin (restApiOrigin ++ "/api/v1"))) ;;;
                dev <- gets devModeEnabled ;;
                (if dev then modify (logConsole "repositoryInfo") else ret tt) ;;;
                r <- gets repository ;;
                ret (Some r)
            end
        end
  end.

Definition checkGiteaVersion : M unit :=
  response <- fetchAPI (versionApi E) "/version" GET NoBody ;;
  let version := version response in
  if includes "+gitea-" version then
    throw (newError "Unsupported Forgejo version"
             (localize E "backend_unsupported_forgejo" []))
  else if lessThan (roundNumber (rnd E) (parseFloat version))
                   (Finite (rnd E MIN_GITEA_VERSION)) then
    throw (newError "Unsupported Gitea version"
             (localize E "backend_unsupported_version"
                [("name", label); ("version", "1.24")]))
  else ret tt.

Definition getRepositoryInfo : M RepoResponse.t :=
  r <- gets repository ;;
  fetchAPI (repoApi E)
    ("/repos/" ++ RepositoryInfo.owner r ++ "/" ++ show (RepositoryInfo.repo r))
    GET NoBody.

(** [repositoryResponseCache ??= await getRepositoryInfo()] *)
Definition cachedRepositoryInfo : M RepoResponse.t :=
  cache <- gets repositoryResponseCache ;;
  match cache with
  | Some response => ret response
  | None =>
      response <- getRepositoryInfo ;;
      modify (setCache (Some response)) ;;;
      ret response
  end.

Definition checkRepositoryAccess : M unit :=
  r <- gets repository ;;
  let repo := show (RepositoryInfo.repo r) in
  tryCatch
    (response <- cachedRepositoryInfo ;;
     let pull :=
       match RepoResponse.permissions response with
       | Some permissions => Permissions.pull permissions
       | None => false
       end in
     if negb pull then
       throw (newError "Not a collaborator of the repository"
                (localize E "repository_no_access" [("repo", repo)]))
     else ret tt)
    (fun error =>
       if includes "Not a collaborator" (message error) then throw error
       else
         throw (newError "Failed to check repository access"
                  (localize E "repository_not_found" [("repo", repo)]))).

Definition withBranch (r : RepositoryInfo.t) (branch : option string)
    (urls : string * string) : RepositoryInfo.t :=
  RepositoryInfo.mk (RepositoryInfo.service r) (RepositoryInfo.label r)
    (RepositoryInfo.owner r) (RepositoryInfo.repo r) branch
    (RepositoryInfo.baseURL r) (RepositoryInfo.databaseName r)
    (RepositoryInfo.isSelfHosted r) (fst urls) (snd urls).

Definition fetchDefaultBranchName : M string :=
  r <- gets repository ;;
  let repo := show (RepositoryInfo.repo r) in
  let baseURL := RepositoryInfo.baseURL r in
  tryCatch
    (response <- cachedRepositoryInfo ;;
     let branch := RepoResponse.default_branch response in
     if negb (truthy branch) then
       throw (newError "Failed to retrieve the default branch name."
                (localize E "repository_empty" [("repo", repo)]))
     else
       modify (fun st =>
         setRepository
           (withBranch (repository st) branch (getBaseURLs baseURL branch)) st) ;;;
       ret (show branch))
    (fun _ =>
       throw (newError "Failed to retrieve the default branch name."
                (localize E "repository_not_found" [("repo", repo)]))).

Definition fetchLastCommit : M (string * string) :=
  r <- gets repository ;;
  let repo := show (RepositoryInfo.repo r) in
  let branch := show (RepositoryInfo.branch r) in
  tryCatch
    (response <- fetchAPI (branchApi E)
       ("/repos/" ++ RepositoryInfo.owner r ++ "/" ++ repo
          ++ "/branches/" ++ branch) GET NoBody ;;
     ret (commit_id response, commit_message response))
    (fun _ =>
       throw (newError "Failed to retrieve the last commit hash."
                (localize E "branch_not_found"
                   [("repo", repo); ("branch", branch)]))).

(** The [for (;;)] of [fetchFileList]; [fuel] bounds the iterations. *)
Fixpoint fetchPages (fuel : nat) (requestPath : string) (page : nat)
    (gitEntries : list PartialGitEntry.t) : M (list PartialGitEntry.t) :=
  match fuel with
  | O => pending
  | S fuel' =>
      result <- fetchAPI (treeApi E)
        (requestPath ++ "&page=" ++ showNat page) GET NoBody ;;
      let gitEntries' := (gitEntries ++ tree result)%list in
      if truncated result
      then fetchPages fuel' requestPath (page + 1) gitEntries'
      else ret gitEntries'
  end.

Definition isBlob (entry : PartialGitEntry.t) : bool :=
  String.eqb (PartialGitEntry.type entry) "blob".

Definition toFileProps (entry : PartialGitEntry.t) : FileProps.t :=
  FileProps.mk (PartialGitEntry.path entry) (PartialGitEntry.sha entry)
    (PartialGitEntry.size entry) (basename E (PartialGitEntry.path entry)).

Definition treeRequestPath (r : RepositoryInfo.t) (lastHash : option string)
    : string :=
  "/repos/" ++ RepositoryInfo.owner r ++ "/" ++ show (RepositoryInfo.repo r)
    ++ "/git/trees/"
    ++ show (match lastHash with
             | Some hash => Some hash
             | None => RepositoryInfo.branch r
             end)
    ++ "?recursive=1".

Definition fetchFileList (fuel : nat) (lastHash : option string)
    : M (list FileProps.t) :=
  r <- gets repository ;;
  gitEntries <- fetchPages fuel (treeRequestPath r lastHash) 1 [] ;;
  ret (map toFileProps (filter isBlob gitEntries)).

(** The text of one fetched file: base64 content is decoded, anything
    else reads as the empty text.  [decodeBase64] throws on malformed input. *)
Definition textOf (fileData : option Contents.t) : M string :=
  match fileData with
  | Some d =>
      if truthy (Contents.content d)
         && String.eqb (show (Contents.encoding d)) "base64"
      then
        match Base64.decodeBase64 (show (Contents.content d)) with
        | Some text => ret text
        | None => throw (mkError "InvalidCharacterError" "Invalid character" None)
        end
      else ret ""
  | None => ret ""
  end.

(** [results[index]]; out of range and [null] both read as no data. *)
Definition resultAt (results : list (option Contents.t)) (index : nat)
    : option Contents.t :=
  match nth_error results index with
  | Some fileData => fileData
  | None => None
  end.

Fixpoint parseEntries (fetchingFiles : list FileItem.t) (index : nat)
    (results : list (option Contents.t)) : M (list (string * FileData.t)) :=
  match fetchingFiles with
  | [] => ret []
  | file :: rest =>
      text <- textOf (resultAt results index) ;;
      entries <- parseEntries rest (S index) results ;;
      ret ((FileItem.path file,
            FileData.mk (FileItem.sha file)
              (orDefault (FileItem.size file) 0%Z) text) :: entries)
  end.

Definition parseFileContents (fetchingFiles : list FileItem.t)
    (results : list (option Contents.t)) : M (list (string * FileData.t)) :=
  entries <- parseEntries fetchingFiles 0 results ;;
  ret (fromEntries entries).

(** [Math.ceil(((allPaths.length - paths.length) / allPaths.length) * 100)] *)
Definition progressAfter (total remaining : nat) : Number :=
  mathCeil
    (timesLiteral (rnd E) (divideLengths (rnd E) (total - remaining) total)
       (100 # 1)).

Definition isNil {A} (l : list A) : bool :=
  match l with [] => true | _ :: _ => false end.

(** The [for (;;)] of [fetchFileContents]; [fuel] bounds the iterations. *)
Fixpoint fetchBatches (fuel : nat) (requestPath : string) (total : nat)
    (perPage : Z) (paths : list string) (results : list (option Contents.t))
    : M (list (option Contents.t)) :=
  match fuel with
  | O => pending
  | S fuel' =>
      let '(files, paths') := splice perPage paths in
      result <- fetchAPI (contentsApi E) requestPath POST (FilesBody files) ;;
      let results' := (results ++ result)%list in
      modify (setProgress (Some (progressAfter total (List.length paths')))) ;;;
      if isNil paths' then ret results'
      else fetchBatches fuel' requestPath total perPage paths' results'
  end.

Definition isAsset (file : FileItem.t) : bool :=
  String.eqb (FileItem.type file) "asset".

Definition contentsRequestPath (r : RepositoryInfo.t) : string :=
  "/repos/" ++ RepositoryInfo.owner r ++ "/" ++ show (RepositoryInfo.repo r)
    ++ "/file-contents?ref=" ++ show (RepositoryInfo.branch r).

Definition nonAssetPaths (fetchingFiles : list FileItem.t) : list string :=
  map FileItem.path (filter (fun file => negb (isAsset file)) fetchingFiles).

Definition fetchFileContents (fuel : nat) (fetchingFiles : list FileItem.t)
    : M (list (string * FileData.t)) :=
  r <- gets repository ;;
  let requestPath := contentsRequestPath r in
  let allPaths := nonAssetPaths fetchingFiles in
  modify (setProgress (Some (Finite 0))) ;;;
  settings <- fetchAPI (settingsApi E) "/settings/api" GET NoBody ;;
  let perPage := orDefault (default_paging_num settings) 30%Z in
  results <- fetchBatches fuel requestPath (List.length allPaths) perPage
               allPaths [] ;;
  modify (setProgress None) ;;;
  parseFileContents fetchingFiles results.

Definition fetchFiles (fuel : nat) : M unit :=
  checkGiteaVersion ;;;
  checkRepositoryAccess ;;;
  fetchAndParseFiles E
    (mkSyncArgs fetchDefaultBranchName fetchLastCommit (fetchFileList fuel)
       (fetchFileContents fuel)).

Definition toFileOperation (change : FileChange.t) : FileOperation.t :=
  FileOperation.mk
    (match FileChange.action change with
     | move => update
     | action => action
     end)
    (FileChange.path change)
    (Base64.encodeBase64 (orDefault (FileChange.data change) ""))
    (FileChange.previousPath change).

Definition commitChanges (changes : list FileChange.t)
    (options : CommitChangesOptions) : M string :=
  r <- gets repository ;;
  let commitMessage := createCommitMessage E changes options in
  current <- gets user ;;
  match current with
  | None => throw (typeError "Cannot destructure the user")
  | Some u =>
      let identity := Identity.mk (User.name u) (User.email u) in
      let date := now E in
      let files := map toFileOperation changes in
      result <- fetchAPI (commitApi E)
        ("/repos/" ++ RepositoryInfo.owner r ++ "/"
           ++ show (RepositoryInfo.repo r) ++ "/contents")
        POST
        (CommitRequest
           (CommitBody.mk (RepositoryInfo.branch r) identity identity
              (date, date) commitMessage files)) ;;
      ret (commit_html_url result)
  end.

End Backend.

(** ** Observations on the logs *)

Definition isBatchRequest (requestPath : string) (x : Exchange.t) : bool :=
  let req := Exchange.request x in
  String.eqb (Request.path req) requestPath
  && match Request.method req, Request.body req with
     | POST, FilesBody _ => true
     | _, _ => false
     end.

(** A request to the tree endpoint of the repository [r], the only kind
    [fetchFileList] sends. *)
Definition isTreeRequest (r : RepositoryInfo.t) (x : Exchange.t) : bool :=
  prefix
    ("/repos/" ++ RepositoryInfo.owner r ++ "/" ++ show (RepositoryInfo.repo r)
       ++ "/git/trees/")
    (Request.path (Exchange.request x)).

Definition failed (x : Exchange.t) : bool :=
  match Exchange.failure x with Some _ => true | None => false end.

(** The entries a run appended to a log that only grows. *)
Definition appended {A} (before after : list A) : list A :=
  skipn (List.length before) after.

(** The ceiling of [a / b] on natural numbers. *)
Definition ceilDiv (a b : nat) : nat := ((a + b - 1) / b)%nat.

(** ** A provider that pages its tree

    The tree endpoint of a provider holding [entries] and returning at most
    [perPage] of them per call: page [k] carries the entries from index
    [(k - 1) * perPage] on and is flagged [truncated] while more follow.
    The page number is read from the last query parameter. *)

Fixpoint afterLast (c : ascii) (s candidate : string) : string :=
  match s with
  | EmptyString => candidate
  | String a rest =>
      if Ascii.eqb a c then afterLast c rest rest
      else afterLast c rest candidate
  end.

Definition pageOf (path : string) : option nat :=
  option_map Nat.of_uint (NilEmpty.uint_of_string (afterLast "=" path path)).

Definition pagedTree (perPage : nat) (entries : list PartialGitEntry.t)
    : Api TreeResponse :=
  fun _ req =>
    match pageOf (Request.path req) with
    | None => inl (mkError "Error" "Bad Request" (Some (mkCause "" (Some 400%Z))))
    | Some page =>
        let start := (perPage * (page - 1))%nat in
        inr (mkTree (firstn perPage (skipn start entries))
               (start + perPage <? List.length entries)%nat)
    end.

(** The integer [progressAfter] publishes once [completed] of [total >= 1]
    paths are fetched. *)
Definition percentOf (rnd : Q -> Q) (completed total : nat) : Z :=
  Qceiling
    (rnd (rnd (inject_Z (Z.of_nat completed) / inject_Z (Z.of_nat total))
          * (100 # 1)))%Q.

(** The exchange logged for a successful request of page [k]. *)
Definition pageExchange (requestPath : string) (k : nat) : Exchange.t :=
  Exchange.mk
    (Request.mk (requestPath ++ "&page=" ++ showNat k) GET NoBody) None.

End Gitea.

(* ================================================================== *)
(** * Sign-in flows ([src/lib/services/user/auth.js])                   *)
(* ================================================================== *)

Module Auth.
Import Js.
Local Open Scope js_scope.

(** ** Untyped values: cached users, QR sign-in data, backend users *)

#[local] Unset Elimination Schemes.
Inductive Value :=
| VUndefined
| VNull
| VBool (b : bool)
| VNumber (z : Z)
| VString (s : string)
| VArray (items : list Value)
| VObject (props : list (string * Value)).
#[local] Set Elimination Schemes.

Definition truthy (v : Value) : bool :=
  match v with
  | VUndefined | VNull => false
  | VBool b => b
  | VNumber z => negb (z =? 0)%Z
  | VString s => negb (String.eqb s "")
  | VArray _ | VObject _ => true
  end.

Fixpoint lookup (key : string) (props : list (string * Value)) : Value :=
  match props with
  | [] => VUndefined
  | (k, v) :: rest => if String.eqb k key then v else lookup key rest
  end.

(** [v.key] on a value already known not to be [null] or [undefined], and
    [v?.key] otherwise. *)
Definition prop (v : Value) (key : string) : Value :=
  match v with
  | VObject props => lookup key props
  | _ => VUndefined
  end.

(** [isObject] of [@sveltia/utils/object]: a non-null, non-array object. *)
Definition isObject (v : Value) : bool :=
  match v with VObject _ => true | _ => false end.

(** [Object.keys(v).length] *)
Definition keyCount (v : Value) : nat :=
  match v with VObject props => List.length props | _ => O end.

(** [v === s] for a string literal [s]. *)
Definition isString (v : Value) (s : string) : bool :=
  match v with VString s' => String.eqb s' s | _ => false end.

(** [typeof v === 'string'] *)
Definition typeofString (v : Value) : bool :=
  match v with VString _ => true | _ => false end.

(** [a || b] *)
Definition orElse (a b : Value) : Value := if truthy a then a else b.

(** ** Backends *)

Record SignInOptions := mkSignInOptions {
  opt_token : Value;
  opt_refreshToken : Value;
  opt_auto : bool }.

(** The operations of a [BackendService] the flows call, acting on the
    backend's own world [W]. *)
Record BackendService (W : Type) := mkBackend {
  signIn : SignInOptions -> W -> Outcome Value * W;
  fetchFiles : W -> Outcome unit * W }.
Arguments mkBackend {W}.
Arguments signIn {W} _ _ _.
Arguments fetchFiles {W} _ _.

Inductive Call :=
| SignInCall (options : SignInOptions)
| FetchFilesCall.

Record SignInError := mkSignInError { error_message : string; canRetry : bool }.

(** ** State: the stores, the browser, and the log of backend calls *)

Record State (W : Type) := mkState {
  signInError : SignInError;
  unauthenticated : bool;
  backendName : option string;
  user : Value;
  prefs : list (string * Value);
  siteConfigBackendName : option string;
  localStorage : list (string * Value);
  locationPath : string;
  console : list (string * option Cause);
  calls : list Call;
  world : W }.
Arguments mkState {W}.
Arguments signInError {W}.
Arguments unauthenticated {W}.
Arguments backendName {W}.
Arguments user {W}.
Arguments prefs {W}.
Arguments siteConfigBackendName {W}.
Arguments localStorage {W}.
Arguments locationPath {W}.
Arguments console {W}.
Arguments calls {W}.
Arguments world {W}.

Section Stores.

Context {W : Type}.

Definition setSignInError (v : SignInError) (st : State W) : State W :=
  mkState v (unauthenticated st) (backendName st) (user st) (prefs st)
    (siteConfigBackendName st) (localStorage st) (locationPath st)
    (console st) (calls st) (world st).

Definition setUnauthenticated (v : bool) (st : State W) : State W :=
  mkState (signInError st) v (backendName st) (user st) (prefs st)
    (siteConfigBackendName st) (localStorage st) (locationPath st)
    (console st) (calls st) (world st).

Definition setBackendName (v : option string) (st : State W) : State W :=
  mkState (signInError st) (unauthenticated st) v (user st) (prefs st)
    (siteConfigBackendName st) (localStorage st) (locationPath st)
    (console st) (calls st) (world st).

Definition setUser (v : Value) (st : State W) : State W :=
  mkState (signInError st) (unauthenticated st) (backendName st) v (prefs st)
    (siteConfigBackendName st) (localStorage st) (locationPath st)
    (console st) (calls st) (world st).

Definition setPrefs (v : list (string * Value)) (st : State W) : State W :=
  mkState (signInError st) (unauthenticated st) (backendName st) (user st) v
    (siteConfigBackendName st) (localStorage st) (locationPath st)
    (console st) (calls st) (world st).

(** [goto(path, { replaceState: true })] *)
Definition goto (path : string) (st : State W) : State W :=
  mkState (signInError st) (unauthenticated st) (backendName st) (user st)
    (prefs st) (siteConfigBackendName st) (localStorage st) path
    (console st) (calls st) (world st).

(** [console.error(message, cause)] *)
Definition consoleError (msg : string) (c : option Cause) (st : State W)
    : State W :=
  mkState (signInError st) (unauthenticated st) (backendName st) (user st)
    (prefs st) (siteConfigBackendName st) (localStorage st) (locationPath st)
    (console st ++ [(msg, c)])%list (calls st) (world st).

Definition logCall (c : Call) (w : W) (st : State W) : State W :=
  mkState (signInError st) (unauthenticated st) (backendName st) (user st)
    (prefs st) (siteConfigBackendName st) (localStorage st) (locationPath st)
    (console st) (calls st ++ [c])%list w.

Definition callSignIn (service : BackendService W) (options : SignInOptions)
    : M (State W) Value :=
  fun st =>
    let '(out, w) := signIn service options (world st) in
    (out, logCall (SignInCall options) w st).

Definition callFetchFiles (service : BackendService W) : M (State W) unit :=
  fun st =>
    let '(out, w) := fetchFiles service (world st) in
    (out, logCall FetchFilesCall w st).

End Stores.

(** Outside the file: localization, the registry behind the [backend]
    store, and [JSON.parse(atob(encodedData))] ([None] when it throws). *)
Record Env (W : Type) := mkEnv {
  localize : string -> string;
  backends : string -> option (BackendService W);
  decodeSignInData : string -> option Value }.
Arguments mkEnv {W}.
Arguments localize {W}.
Arguments backends {W}.
Arguments decodeSignInData {W}.

Section Flows.

Context {W : Type}.
Variable E : Env W.

(** Modelled from the spec: the derived [backend] store of
    [services/backends] is not part of the sources.  Per section 9 it is a
    registry lookup keyed on the current backend name. *)
Definition currentBackend (st : State W) : option (BackendService W) :=
  match backendName st with
  | Some n => backends E n
  | None => None
  end.

Definition logError (ex : Error) : M (State W) unit :=
  local <- gets (fun st =>
    match backendName st with
    | Some n => String.eqb n "local"
    | None => false
    end) ;;
  let causeMessage :=
    match cause ex with Some c => cause_message c | None => "" end in
  let message0 :=
    if negb (String.eqb causeMessage "") then causeMessage
    else localize E "unexpected_error" in
  let '(message1, canRetry1) :=
    if String.eqb (name ex) "NotFoundError"
    then (localize E "sign_in_error.not_project_root", true)
    else (message0, false) in
  let '(message2, canRetry2) :=
    if String.eqb (name ex) "AbortError"
    then (localize E
            (if local then "sign_in_error.picker_dismissed"
             else "sign_in_error.authentication_aborted"), true)
    else (message1, canRetry1) in
  modify (setSignInError (mkSignInError message2 canRetry2)) ;;;
  modify (consoleError (message ex) (cause ex)).

(** [LocalStorage.get(a) || LocalStorage.get(b) || LocalStorage.get(c)] *)
Definition readUserCache (st : State W) : Value :=
  orElse (orElse (lookup "sveltia-cms.user" (localStorage st))
                 (lookup "decap-cms-user" (localStorage st)))
         (lookup "netlify-cms-user" (localStorage st)).

Definition isLineTerminator (c : ascii) : bool :=
  match nat_of_ascii c with 10 | 13 => true | _ => false end%nat.

Fixpoint firstLine (s : string) : string :=
  match s with
  | EmptyString => EmptyString
  | String c rest =>
      if isLineTerminator c then EmptyString else String c (firstLine rest)
  end.

(** The group [encodedData] of [/^\/signin\/(?<encodedData>.+)/], or the
    empty string when the path does not match. *)
Definition encodedDataOf (path : string) : string :=
  if prefix "/signin/" path then firstLine (drop 8 path) else "".

Definition statusOf (ex : Error) : option Z :=
  match cause ex with Some c => cause_status c | None => None end.

(** [[401, 403, 404].includes(ex.cause?.status)] *)
Definition needsReauthentication (ex : Error) : bool :=
  match statusOf ex with
  | Some status => (status =? 401)%Z || (status =? 403)%Z || (status =? 404)%Z
  | None => false
  end.

Definition cachedUserOf (userCache : Value) : Value :=
  if isObject userCache && truthy (prop userCache "backendName")
  then userCache else VUndefined.

Definition usesLocalBackend (_user : Value) : bool :=
  isString (prop _user "backendName") "local"
  || isString (prop _user "backendName") "proxy".

(** The QR-code block: the user and the preferences it yields. *)
Definition readSignInLink : M (State W) (Value * option Value) :=
  path <- gets locationPath ;;
  let encodedData := encodedDataOf path in
  if negb (String.eqb encodedData "") then
    modify (goto "") ;;;
    match decodeSignInData E encodedData with
    | Some data =>
        if isObject data && typeofString (prop data "token") then
          ret (VObject [("token", prop data "token")],
               if isObject (prop data "prefs")
               then Some (prop data "prefs") else None)
        else ret (VUndefined, None)
    | None => ret (VUndefined, None)
    end
  else ret (VUndefined, None).

(** [{ ...currentPrefs, ...copiedPrefs }] *)
Definition mergePrefs (current : list (string * Value)) (copied : Value)
    : list (string * Value) :=
  match copied with
  | VObject props =>
      fold_left (fun obj kv => assign (fst kv) (snd kv) obj) props current
  | _ => current
  end.

Definition noError : SignInError := mkSignInError "" false.

Definition signInAutomatically : M (State W) unit :=
  userCache <- gets readUserCache ;;
  let hasUserCache := isObject userCache in
  if hasUserCache && (keyCount userCache =? 0)%nat then ret tt
  else
    let cached := cachedUserOf userCache in
    _backendName <-
      (if usesLocalBackend cached then ret "local"
       else
         configured <- gets siteConfigBackendName ;;
         match configured with
         | Some n => ret n
         | None => throw (typeError "siteConfig is undefined")
         end) ;;
    modify (setBackendName (Some _backendName)) ;;;
    _backend <- gets currentBackend ;;
    link <-
      (match _backend with
       | Some _ =>
           if negb (truthy cached) then readSignInLink
           else ret (cached, None)
       | None => ret (cached, None)
       end) ;;
    let '(found, copiedPrefs) := link in
    _user <-
      (match _backend with
       | Some service =>
           if truthy found then
             modify (setUser found) ;;;
             tryCatch
               (callSignIn service
                  (mkSignInOptions (prop found "token")
                     (prop found "refreshToken") true))
               (fun _ => modify (setUser VUndefined) ;;; ret VUndefined)
           else ret found
       | None => ret found
       end) ;;
    modify (setUnauthenticated (negb (truthy _user))) ;;;
    match _backend with
    | None => ret tt
    | Some service =>
        if negb (truthy _user) then ret tt
        else
          modify (setUser _user) ;;;
          (match copiedPrefs with
           | Some copied =>
               modify (fun st => setPrefs (mergePrefs (prefs st) copied) st)
           | None => ret tt
           end) ;;;
          tryCatch
            (callFetchFiles service ;;;
             modify (setSignInError noError))
            (fun ex =>
               if needsReauthentication ex
               then modify (setUnauthenticated true)
               else logError ex)
    end.

Definition signInManually (_backendName : string) (token : Value)
    : M (State W) unit :=
  modify (setBackendName (Some _backendName)) ;;;
  _backend <- gets currentBackend ;;
  match _backend with
  | None => ret tt
  | Some service =>
      attempt <-
        tryCatch
          (_user <- callSignIn service (mkSignInOptions token VUndefined false) ;;
           ret (Some _user))
          (fun ex =>
             modify (setUnauthenticated true) ;;;
             logError ex ;;;
             ret None) ;;
      match attempt with
      | None => ret tt
      | Some _user =>
          modify (setUnauthenticated (negb (truthy _user))) ;;;
          if negb (truthy _user) then ret tt
          else
            modify (setUser _user) ;;;
            tryCatch
              (callFetchFiles service ;;;
               modify (setSignInError noError))
              (fun ex => logError ex)
      end
  end.

End Flows.

End Auth.

(* ================================================================== *)
(** * Concrete providers and states                                     *)
(* ================================================================== *)

Module Examples.
Import Js Gitea.

Definition answer {T} (r : T) : Api T := fun _ _ => inr r.

Definition refuse {T} (status : Z) : Api T :=
  fun _ _ =>
    inl (mkError "Error" "Server responded with an error"
           (Some (mkCause "" (Some status)))).

Definition lastSegment (path : string) : string :=
  last (split "/" path) "".

(** A synchronizer that lists the files of the last commit and fetches
    the contents of each. *)
Definition listThenFetch (args : SyncArgs) : M unit :=
  (commit <- sync_fetchLastCommit args ;;
   files <- sync_fetchFileList args (Some (fst commit)) ;;
   sync_fetchFileContents args
     (map (fun f => FileItem.mk (FileProps.path f) (FileProps.sha f)
                      (Some (FileProps.size f)) (FileProps.name f) "entry")
          files) ;;;
   ret tt)%js.

(** Exact arithmetic, untranslated message keys, and the given provider. *)
Definition env (versionApi : Api VersionResponse)
    (repoApi : Api RepoResponse.t) (treeApi : Api TreeResponse)
    (settingsApi : Api SettingsResponse)
    (contentsApi : Api (list (option Contents.t))) : Env :=
  mkEnv (fun key _ => key) (fun q => q) (fun s => s)
    (fun _ => Some "https://gitea.example") lastSegment
    "2026-01-01T00:00:00.000Z" (fun _ _ => "Update files") listThenFetch
    versionApi repoApi (answer (mkBranch "c0ffee" "Initial commit"))
    treeApi settingsApi contentsApi
    (answer (mkCommitResponse "https://gitea.example/o/r/commit/c0ffee")).

Definition config : BackendConfig.t :=
  BackendConfig.mk "gitea" (Some "o/r") (Some "main") None None None
    (Some "https://gitea.example/api/v1").

Definition editor : User.t :=
  User.mk (Some "Ed") (Some "ed@example.org") (Some "t0k3n") None.

(** The state right after [init] on [config]. *)
Definition ready : State :=
  mkState (Some config) false (Some editor)
    (RepositoryInfo.mk "gitea" "Gitea" "o" (Some "r") (Some "main")
       "https://gitea.example/o/r" "gitea:o/r" true
       "https://gitea.example/o/r/src/branch/main"
       "https://gitea.example/o/r/src/branch/main")
    (ApiEndpointConfig.mk "" "https://gitea.com/login/oauth/authorize"
       "https://gitea.com/login/oauth/access_token" "https://gitea.example"
       "https://gitea.example/api/v1")
    None None [] [] [].

Definition entryFile (path : string) : FileItem.t :=
  FileItem.mk path "sha" (Some 1%Z) (lastSegment path) "entry".

Definition noContents : Api (list (option Contents.t)) :=
  fun _ req =>
    match Request.body req with
    | FilesBody files => inr (map (fun _ => None) files)
    | _ => inr []
    end.

Definition forgejoVersion : string := "11.0.1-46-17b3302+gitea-1.22.0".

Definition readOnlyDenied : RepoResponse.t :=
  RepoResponse.mk (Some (Permissions.mk false)) (Some "main").

Definition blob (path : string) : PartialGitEntry.t :=
  PartialGitEntry.mk "blob" path "sha" 1%Z.

Definition directory (path : string) : PartialGitEntry.t :=
  PartialGitEntry.mk "tree" path "sha" 0%Z.

End Examples.

Module AuthExamples.
Import Js Auth.

Definition unauthorized : Error :=
  mkError "Error" "Server responded with an error"
    (Some (mkCause "Unauthorized" (Some 401%Z))).

Definition popupClosed : Error :=
  mkError "AbortError" "Authentication aborted" None.

(** The provider rejects the token on the profile request of [signIn].
    The world counts the calls the backend received. *)
Definition rejectingSignIn (ex : Error) : BackendService nat :=
  mkBackend (fun _ w => (Thrown ex, S w)) (fun w => (Returned tt, S w)).

(** The profile request passes; the requests of [fetchFiles] are rejected. *)
Definition rejectingFetch (ex : Error) : BackendService nat :=
  mkBackend
    (fun options w =>
       (Returned (VObject [("backendName", VString "gitea");
                           ("token", opt_token options)]), S w))
    (fun w => (Thrown ex, S w)).

Definition env (service : BackendService nat) : Env nat :=
  mkEnv (fun key => key)
    (fun n => if String.eqb n "gitea" then Some service else None)
    (fun _ => None).

Definition cachedUser : Value :=
  VObject [("backendName", VString "gitea"); ("token", VString "expired")].

(** A returning visitor: a user is cached and the stores still say
    "authenticated" from an earlier session. *)
Definition returning : State nat :=
  mkState noError false None VUndefined [] (Some "gitea")
    [("sveltia-cms.user", cachedUser)] "/" [] [] O.

End AuthExamples.

(* ================================================================== *)
(** * The rest of the Gitea backend: sign-in, sign-out, assets          *)
(* ================================================================== *)

Module GiteaSession.
Import Js Gitea.
Local Open Scope js_scope.

(** The answer of [GET /user], with the fields [getUserProfile] reads. *)
Record UserResponse := mkUserResponse {
  id : Z;
  full_name : option string;
  login : option string;
  user_email : option string;
  avatar_url : option string;
  html_url : option string }.

(** The [User] record [getUserProfile] returns. *)
Module SignedIn.
Record t := mk {
    backendName : string;
    id : Z;
    name : option string;
    login : option string;
    email : option string;
    avatarURL : option string;
    profileURL : option string;
    token : option string;
    refreshToken : option string }.
End SignedIn.

Module SignInOptions.
Record t := mk {
    token : option string;
    refreshToken : option string;
    auto : bool }.
End SignInOptions.

(** What [signIn] needs from the browser and from
    [services/backends/shared/auth], which is not part of the sources:
    whether this window is the auth popup
    ([window.opener?.origin === origin && window.name === 'auth']), the two
    OAuth helpers, and the provider behind [/user] for a given pair of
    tokens. *)
Record Browser := mkBrowser {
  inPopup : bool;
  handleClientSideAuthPopup : string -> string -> string -> M unit;
  initClientSideAuth :
    string -> string -> string -> string -> M (option string * option string);
  userApi : option string -> option string -> Api UserResponse }.

Definition scope : string := "read:repository,write:repository,read:user".

(** [a !== b] on possibly [undefined] strings. *)
Definition differs (a b : option string) : bool :=
  match a, b with
  | Some x, Some y => negb (String.eqb x y)
  | None, None => false
  | _, _ => true
  end.

Section SignIn.

Variable B : Browser.

Definition getUserProfile (token refreshToken : option string)
    : M SignedIn.t :=
  response <- fetchAPI (userApi B token refreshToken) "/user" GET NoBody ;;
  _user <- gets user ;;
  let renewed :=
    match _user with
    | Some u => truthy (User.token u) && differs (User.token u) token
    | None => false
    end in
  let token' :=
    match _user with
    | Some u => if renewed then User.token u else token
    | None => token
    end in
  let refreshToken' :=
    match _user with
    | Some u => if renewed then User.refreshToken u else refreshToken
    | None => refreshToken
    end in
  ret (SignedIn.mk backendName (id response) (full_name response)
         (login response) (user_email response) (avatar_url response)
         (html_url response) token' refreshToken').

Definition signIn (options : SignInOptions.t) : M (option SignedIn.t) :=
  if negb (truthy (SignInOptions.token options)) then
    config <- gets apiConfig ;;
    (if inPopup B
     then handleClientSideAuthPopup B backendName
            (ApiEndpointConfig.clientId config)
            (ApiEndpointConfig.tokenURL config)
     else ret tt) ;;;
    if inPopup B || SignInOptions.auto options then ret None
    else
      tokens <- initClientSideAuth B backendName
                  (ApiEndpointConfig.clientId config)
                  (ApiEndpointConfig.authURL config) scope ;;
      profile <- getUserProfile (fst tokens) (snd tokens) ;;
      ret (Some profile)
  else
    profile <- getUserProfile (SignInOptions.token options)
                 (SignInOptions.refreshToken options) ;;
    ret (Some profile).

End SignIn.

(** [signOut]: nothing to do. *)
Definition signOut : M unit := ret tt.

(** ** Assets *)

(** The characters [encodeURIComponent] leaves alone. *)
Definition isUnreserved (c : ascii) : bool :=
  let n := nat_of_ascii c in
  ((65 <=? n) && (n <=? 90) || (97 <=? n) && (n <=? 122)
   || (48 <=? n) && (n <=? 57)
   || match n with
      | 33 | 39 | 40 | 41 | 42 | 45 | 46 | 95 | 126 => true
      | _ => false
      end)%nat.

Definition hexDigit (n : nat) : ascii :=
  match String.get n "0123456789ABCDEF" with
  | Some c => c
  | None => "0"%char
  end.

(** The value of an upper-case hexadecimal digit. *)
Definition hexValue (c : ascii) : nat :=
  let n := nat_of_ascii c in
  if (n <=? 57)%nat then (n - 48)%nat else (n - 55)%nat.

Definition escape (c : ascii) : string :=
  String "%"
    (String (hexDigit (nat_of_ascii c / 16))
       (String (hexDigit (nat_of_ascii c mod 16)) EmptyString)).

(** [encodeURIComponent(s)] on the UTF-8 bytes of [s]. *)
Fixpoint encodeURIComponent (s : string) : string :=
  match s with
  | EmptyString => EmptyString
  | String c rest =>
      (if isUnreserved c then String c EmptyString else escape c)
        ++ encodeURIComponent rest
  end.

Definition blobRequestPath (r : RepositoryInfo.t) (assetPath : string)
    : string :=
  "/repos/" ++ RepositoryInfo.owner r ++ "/" ++ show (RepositoryInfo.repo r)
    ++ "/media/" ++ encodeURIComponent assetPath
    ++ "?ref=" ++ orDefault (RepositoryInfo.branch r) "".

(** [fetchBlob(asset)]; [mediaApi] is the provider behind the raw-file
    endpoint, read with [responseType: 'blob']. *)
Definition fetchBlob (mediaApi : Api string) (assetPath : string) : M string :=
  r <- gets repository ;;
  fetchAPI mediaApi (blobRequestPath r assetPath) GET NoBody.

(** ** Helpers for statements *)

Definition setSiteConfig (config : option BackendConfig.t) (st : State)
    : State :=
  mkState config (devModeEnabled st) (user st) (repository st) (apiConfig st)
    (repositoryResponseCache st) (dataLoadedProgress st) (published st)
    (exchanges st) (console st).

Definition withConfiguredBranch (config : BackendConfig.t) (branch : string)
    : BackendConfig.t :=
  BackendConfig.mk (BackendConfig.name config) (BackendConfig.repo config)
    (Some branch) (BackendConfig.base_url config)
    (BackendConfig.auth_endpoint config) (BackendConfig.app_id config)
    (BackendConfig.api_root config).

(** A provider holding the text of every path and answering a bulk request
    with one base64 item per requested path, in order. *)
Definition textProvider (texts : string -> string)
    : Api (list (option Contents.t)) :=
  fun _ req =>
    match Request.body req with
    | FilesBody files =>
        inr (map (fun p => Some (Contents.mk
                                   (Some (Base64.encodeBase64 (texts p)))
                                   (Some "base64")))
               files)
    | _ => inr []
    end.

End GiteaSession.

Module SessionExamples.
Import Js Gitea GiteaSession.

Definition profile : UserResponse :=
  mkUserResponse 7 (Some "Ed") (Some "ed") (Some "ed@example.org") None
    (Some "https://gitea.example/ed").

(** A main window (not the auth popup) whose interactive flow yields a
    fresh token, and a provider that knows the user. *)
Definition mainWindow : Browser :=
  mkBrowser false (fun _ _ _ => ret tt)
    (fun _ _ _ _ => ret (Some "fresh", None))
    (fun _ _ => Examples.answer profile).

End SessionExamples.

(* ================================================================== *)
(** * Sign-out ([signOut] of [auth.js])                                 *)
(* ================================================================== *)

Module AuthSession.
Import Js Auth.
Local Open Scope js_scope.

(** The stores of [auth.js] together with the [dataLoaded] store of
    [services/contents], which only [signOut] writes. *)
Record Session (W : Type) := mkSession {
  stores : State W;
  dataLoaded : bool }.
Arguments mkSession {W}.
Arguments stores {W}.
Arguments dataLoaded {W}.

Section SignOut.

Context {W : Type}.
Variable E : Env W.

(** [signOutOf n] is the [signOut] operation of the backend registered
    under the name [n]. *)
Variable signOutOf : string -> W -> Outcome unit * W.

(** [LocalStorage.set(key, value)] *)
Definition setItem (key : string) (value : Value) (st : State W) : State W :=
  mkState (signInError st) (unauthenticated st) (backendName st) (user st)
    (prefs st) (siteConfigBackendName st)
    (assign key value (localStorage st)) (locationPath st) (console st)
    (calls st) (world st).

Definition setWorld (w : W) (st : State W) : State W :=
  mkState (signInError st) (unauthenticated st) (backendName st) (user st)
    (prefs st) (siteConfigBackendName st) (localStorage st) (locationPath st)
    (console st) (calls st) w.

(** [await get(backend)?.signOut()] *)
Definition callSignOut : M (Session W) unit :=
  fun s =>
    match backendName (stores s) with
    | Some n =>
        match backends E n with
        | Some _ =>
            let '(out, w) := signOutOf n (world (stores s)) in
            (out, mkSession (setWorld w (stores s)) (dataLoaded s))
        | None => (Returned tt, s)
        end
    | None => (Returned tt, s)
    end.

Definition onStores (f : State W -> State W) : M (Session W) unit :=
  modify (fun s => mkSession (f (stores s)) (dataLoaded s)).

Definition signOut : M (Session W) unit :=
  callSignOut ;;;
  onStores (setItem "sveltia-cms.user" (VObject [])) ;;;
  onStores (setBackendName None) ;;;
  onStores (setUser VUndefined) ;;;
  onStores (setUnauthenticated true) ;;;
  modify (fun s => mkSession (stores s) false).

End SignOut.

End AuthSession.

Module FlowExamples.
Import Js Auth.

Definition forbidden : Error :=
  mkError "Error" "Server responded with an error"
    (Some (mkCause "Forbidden" (Some 403%Z))).

Definition serverError : Error :=
  mkError "Error" "Server responded with an error"
    (Some (mkCause "Internal Server Error" (Some 500%Z))).

(** A backend that accepts every token and loads the files. *)
Definition working : BackendService nat :=
  mkBackend
    (fun options w =>
       (Returned (VObject [("backendName", VString "gitea");
                           ("token", opt_token options)]), S w))
    (fun w => (Returned tt, S w)).

(** [JSON.parse(atob(...))] for the one link used in the examples. *)
Definition decodeLink (encodedData : string) : option Value :=
  if String.eqb encodedData "eyJ0b2tlbiI6InFyIiwicHJlZnMiOnsidGhlbWUiOiJkYXJrIn19"
  then Some (VObject [("token", VString "qr");
                      ("prefs", VObject [("theme", VString "dark")])])
  else None.

(** Every key has a translation, here the key in brackets. *)
Definition translate (key : string) : string := "[" ++ key ++ "]".

Definition env (service : BackendService nat) : Env nat :=
  mkEnv translate
    (fun n => if String.eqb n "gitea" then Some service else None)
    decodeLink.

(** A first visit through a sign-in link: nothing is cached. *)
Definition firstVisit (path : string) : State nat :=
  mkState noError true None VUndefined [("theme", VString "light")]
    (Some "gitea") [] path [] [] O.

End FlowExamples.

(* ================================================================== *)
(** * Collection files: the file lookups of a file collection           *)
(* ================================================================== *)

Module CollectionFiles.
Import Js.

(** A file of a file collection as the site configuration lists it. *)
Record FileConfig := mkFileConfig { config_file_name : string }.

Record CollectionConfig := mkCollectionConfig {
  config_name : string;
  config_files : option (list FileConfig) }.

Record SiteConfig := mkSiteConfig { collections : list CollectionConfig }.

(** [InternalCollectionFile]: [name], [_file.fullPath] and
    [_i18n.defaultLocale]. *)
Record InternalCollectionFile := mkCollectionFile {
  file_name : string;
  fullPath : string;
  defaultLocale : string }.

(** [InternalCollection]: [files] is kept only as "present or not", which is
    all [getFilesByEntry] reads of it. *)
Record InternalCollection := mkCollection {
  collection_name : string;
  files : bool;
  _fileMap : option (list (string * InternalCollectionFile)) }.

(** [Entry]: the path of each locale's file. *)
Record Entry := mkEntry {
  entry_id : string;
  locales : list (string * string) }.

Fixpoint pathOf (locale : string) (l : list (string * string))
    : option string :=
  match l with
  | [] => None
  | (k, p) :: rest => if String.eqb k locale then Some p else pathOf locale rest
  end.

(** [array.findIndex(p)] *)
Fixpoint findIndex {A} (p : A -> bool) (l : list A) : Z :=
  match l with
  | [] => (-1)%Z
  | x :: rest =>
      if p x then 0%Z
      else let i := findIndex p rest in
           if (i =? -1)%Z then (-1)%Z else (i + 1)%Z
  end.

Definition getFilesByEntry (collection : InternalCollection) (entry : Entry)
    : list InternalCollectionFile :=
  match (if files collection then _fileMap collection else None) with
  | None => []
  | Some fileMap =>
      filter
        (fun file =>
           match pathOf (defaultLocale file) (locales entry) with
           | Some path => String.eqb (fullPath file) path
           | None => false
           end)
        (map snd fileMap)
  end.

Section Lookups.

(** The [allEntries] store and [getAssociatedCollections] of
    [services/contents]. *)
Variable allEntries : list Entry.
Variable getAssociatedCollections : Entry -> list InternalCollection.

Definition getFile (collectionName fileName : string) : option Entry :=
  find
    (fun entry =>
       existsb
         (fun collection =>
            String.eqb (collection_name collection) collectionName
            && existsb (fun file => String.eqb (file_name file) fileName)
                 (getFilesByEntry collection entry))
         (getAssociatedCollections entry))
    allEntries.

End Lookups.

Definition getFileIndex (siteConfig : option SiteConfig)
    (collectionName fileName : option string) : Z :=
  if truthy collectionName && truthy fileName then
    match siteConfig with
    | None => (-1)%Z
    | Some config =>
        match find (fun c => String.eqb (config_name c) (show collectionName))
                (collections config) with
        | Some c =>
            match config_files c with
            | Some fileList =>
                findIndex
                  (fun f => String.eqb (config_file_name f) (show fileName))
                  fileList
            | None => (-1)%Z
            end
        | None => (-1)%Z
        end
    end
  else (-1)%Z.

End CollectionFiles.

Module CollectionExamples.
Import CollectionFiles.

Definition pages : CollectionConfig :=
  mkCollectionConfig "pages"
    (Some [mkFileConfig "home"; mkFileConfig "about"; mkFileConfig "about"]).

Definition site : SiteConfig :=
  mkSiteConfig [mkCollectionConfig "posts" None; pages;
                mkCollectionConfig "pages" (Some [mkFileConfig "about"])].

Definition aboutFile : InternalCollectionFile :=
  mkCollectionFile "about" "content/about.md" "en".

Definition pagesCollection : InternalCollection :=
  mkCollection "pages" true
    (Some [("home", mkCollectionFile "home" "content/home.md" "en");
           ("about", aboutFile)]).

Definition aboutEntry : Entry :=
  mkEntry "about" [("en", "content/about.md"); ("fr", "content/about.fr.md")].

Definition post : Entry := mkEntry "hello" [("en", "posts/hello.md")].

Definition associated (entry : Entry) : list InternalCollection :=
  if String.eqb (entry_id entry) "hello"
  then [mkCollection "posts" false None]
  else [pagesCollection].

End CollectionExamples.

(* ================================================================== *)
(** * Properties                                                        *)
(* ================================================================== *)

(** ** Base64 *)

Module Base64Facts.
Import Base64.

Lemma decodeChar_encodeChar (s : Sextet) : decodeChar (encodeChar s) = Some s.
Proof.
  destruct s as [[[[[b5 b4] b3] b2] b1] b0].
  destruct b5, b4, b3, b2, b1, b0; reflexivity.
Qed.

Lemma encodeChar_not_pad (s : Sextet) : isPad (encodeChar s) = false.
Proof.
  destruct s as [[[[[b5 b4] b3] b2] b1] b0].
  destruct b5, b4, b3, b2, b1, b0; reflexivity.
Qed.

(** Induction three bytes at a time, the way [encode] recurses. *)
Lemma string_triples (P : string -> Prop) :
  P EmptyString ->
  (forall a, P (String a EmptyString)) ->
  (forall a b, P (String a (String b EmptyString))) ->
  (forall a b c rest, P rest -> P (String a (String b (String c rest)))) ->
  forall s, P s.
Proof.
  intros H0 H1 H2 H3.
  assert (step : forall s, P s /\ (forall a, P (String a s))
                           /\ (forall a b, P (String a (String b s)))).
  { induction s as [|c s [IH0 [IH1 IH2]]].
    - repeat split; auto.
    - repeat split; auto. }
  intro s. apply step.
Qed.

Lemma decode_encode (s : string) : decode (encode s) = Some s.
Proof.
  induction s as [|a|a b|a b c rest IH] using string_triples.
  - reflexivity.
  - destruct a as [a0 a1 a2 a3 a4 a5 a6 a7]. cbn [encode decode].
    rewrite !decodeChar_encodeChar. reflexivity.
  - destruct a as [a0 a1 a2 a3 a4 a5 a6 a7].
    destruct b as [b0 b1 b2 b3 b4 b5 b6 b7]. cbn [encode decode].
    rewrite !decodeChar_encodeChar, !encodeChar_not_pad. reflexivity.
  - destruct a as [a0 a1 a2 a3 a4 a5 a6 a7].
    destruct b as [b0 b1 b2 b3 b4 b5 b6 b7].
    destruct c as [c0 c1 c2 c3 c4 c5 c6 c7]. cbn [encode decode].
    rewrite !decodeChar_encodeChar, !encodeChar_not_pad, IH. reflexivity.
Qed.

Lemma encode_empty_iff (s : string) : encode s = EmptyString <-> s = EmptyString.
Proof.
  split; [|intros ->; reflexivity].
  destruct s as [|[] [|[] [|[] rest]]]; cbn; intro H; try reflexivity;
    discriminate H.
Qed.

End Base64Facts.

(** ** The Gitea backend *)

Module GiteaFacts.
Import Js Gitea.

(** *** The model on concrete inputs *)

Example parseFloat_forgejo :
  parseFloat "11.0.1-46-17b3302+gitea-1.22.0" = Finite (110 # 10).
Proof. vm_compute. reflexivity. Qed.

Example parseFloat_not_a_number : parseFloat "main" = NaN.
Proof. reflexivity. Qed.

Example old_gitea_rejected :
  fst (checkGiteaVersion
         (Examples.env (Examples.answer (mkVersion "1.23.8"))
            (Examples.refuse 500) (Examples.refuse 500) (Examples.refuse 500)
            (Examples.refuse 500)) Examples.ready)
  = Thrown (newError "Unsupported Gitea version" "backend_unsupported_version").
Proof. reflexivity. Qed.

Example init_example :
  let E := Examples.env (Examples.refuse 500) (Examples.refuse 500)
             (Examples.refuse 500) (Examples.refuse 500) (Examples.refuse 500) in
  let blank :=
    mkState (Some Examples.config) false (Some Examples.editor)
      (RepositoryInfo.mk "" "" "" None None "" "" false "" "")
      (ApiEndpointConfig.mk "" "" "" "" "") None None [] [] [] in
  init E blank = (Returned (Some (repository Examples.ready)), Examples.ready).
Proof. reflexivity. Qed.

Example base64_hello : Base64.encode "Hello" = "SGVsbG8=".
Proof. reflexivity. Qed.

(** *** Initialization *)

(** C8. Calling [init] twice in a row on an unchanged site configuration:
    the second call returns what the first returned, and leaves
    [repository] and [apiConfig] exactly as the first call left them.  When
    the first call returns a record, it is the [repository] singleton. *)
Theorem init_twice (E : Env) (st : State) :
  let first := init E st in
  let second := init E (snd first) in
  fst second = fst first
  /\ repository (snd second) = repository (snd first)
  /\ apiConfig (snd second) = apiConfig (snd first)
  /\ (forall r, fst first = Returned (Some r) -> r = repository (snd first)).
Proof.
  unfold init, bind, gets, modify, ret, throw.
  destruct (siteConfig st) as [backend|] eqn:Hcfg.
  2: { cbn. rewrite Hcfg. cbn. repeat split; intros; discriminate. }
  destruct (negb (String.eqb (BackendConfig.name backend) backendName)) eqn:Hname.
  { cbn. rewrite Hcfg, Hname. cbn. repeat split; intros; discriminate. }
  destruct (urlOrigin E _) as [restApiOrigin|] eqn:Hurl.
  2: { cbn. rewrite Hcfg, Hname, Hurl. cbn. repeat split; intros; discriminate. }
  destruct (BackendConfig.repo backend) as [projectPath|] eqn:Hrepo.
  2: { cbn. rewrite Hcfg, Hname, Hurl, Hrepo. cbn.
       repeat split; intros; discriminate. }
  destruct (devModeEnabled st) eqn:Hdev;
    repeat (progress (cbn; rewrite ?Hcfg, ?Hname, ?Hurl, ?Hrepo, ?Hdev));
    repeat split; intros r H; injection H as <-; reflexivity.
Qed.

Lemma init_twice_witness :
  let E := Examples.env (Examples.refuse 500) (Examples.refuse 500)
             (Examples.refuse 500) (Examples.refuse 500) (Examples.refuse 500) in
  fst (init E (snd (init E Examples.ready))) = fst (init E Examples.ready)
  /\ repository (snd (init E (snd (init E Examples.ready))))
     = repository Examples.ready
  /\ apiConfig (snd (init E (snd (init E Examples.ready))))
     = apiConfig Examples.ready.
Proof.
  intro E. destruct (init_twice E Examples.ready) as [H1 [H2 [H3 _]]].
  split; [exact H1|]. split; [rewrite H2|rewrite H3]; reflexivity.
Defined.

(** *** Version gate *)

(** C5. Whenever the version endpoint answers with a string containing
    [+gitea-], [checkGiteaVersion] rejects with the Forgejo error, and so
    does [fetchFiles], whatever number the string starts with: the marker
    is tested before the number is parsed. *)
Theorem forgejo_marker_rejected (E : Env) (fuel : nat) (st : State)
    (v : string) :
  versionApi E (exchanges st) (Request.mk "/version" GET NoBody)
    = inr (mkVersion v) ->
  includes "+gitea-" v = true ->
  let rejected :=
    (Thrown (newError "Unsupported Forgejo version"
               (localize E "backend_unsupported_forgejo" [])),
     logExchange (Exchange.mk (Request.mk "/version" GET NoBody) None) st) in
  checkGiteaVersion E st = rejected /\ fetchFiles E fuel st = rejected.
Proof.
  intros Hversion Hmarker rejected.
  assert (Hcheck : checkGiteaVersion E st = rejected).
  { unfold checkGiteaVersion, bind, fetchAPI. rewrite Hversion. cbn [version].
    rewrite Hmarker. reflexivity. }
  split; [exact Hcheck|].
  unfold fetchFiles, bind. rewrite Hcheck. reflexivity.
Qed.

Lemma forgejo_marker_rejected_witness :
  let E := Examples.env (Examples.answer (mkVersion Examples.forgejoVersion))
             (Examples.refuse 500) (Examples.refuse 500) (Examples.refuse 500)
             (Examples.refuse 500) in
  lessThan (roundNumber (rnd E) (parseFloat Examples.forgejoVersion))
           (Finite (rnd E MIN_GITEA_VERSION)) = false
  /\ fst (checkGiteaVersion E Examples.ready)
     = Thrown (newError "Unsupported Forgejo version" "backend_unsupported_forgejo")
  /\ fst (fetchFiles E 1 Examples.ready)
     = Thrown (newError "Unsupported Forgejo version" "backend_unsupported_forgejo").
Proof.
  intro E. split; [vm_compute; reflexivity|].
  destruct (forgejo_marker_rejected E 1 Examples.ready Examples.forgejoVersion)
    as [H1 H2]; [reflexivity | reflexivity |].
  rewrite H1, H2. split; reflexivity.
Defined.

(** *** Access check *)

Lemma prefix_length (a b : string) :
  prefix a b = true -> (String.length a <= String.length b)%nat.
Proof.
  revert b. induction a as [|c a IH]; intros [|d b] H; cbn in *;
    try lia; try discriminate.
  destruct (Ascii.ascii_dec c d); [|discriminate].
  apply IH in H. lia.
Qed.

Lemma length_append (a b : string) :
  String.length (a ++ b) = (String.length a + String.length b)%nat.
Proof. induction a; cbn; auto. Qed.

Lemma append_assoc (a b c : string) : (a ++ b) ++ c = a ++ (b ++ c).
Proof. induction a; cbn; congruence. Qed.

Lemma prefix_append_longer (a b : string) :
  b <> EmptyString -> prefix (a ++ b) a = false.
Proof.
  intro Hb. destruct (prefix (a ++ b) a) eqn:H; [|reflexivity].
  apply prefix_length in H. rewrite length_append in H.
  destruct b; [congruence|]. cbn in H. lia.
Qed.

(** C3. If the version check passes and the repository information (cached
    or just fetched) has no [permissions.pull], [fetchFiles] rejects with
    the "Not a collaborator" error carrying [repository_no_access], which
    differs from the "Failed to check repository access" error used when
    the repository cannot be resolved.  By then only the version request
    and at most the repository request were sent: no tree request. *)
Theorem no_pull_permission_denied (E : Env) (fuel : nat)
    (st st1 st2 : State) (response : RepoResponse.t) :
  checkGiteaVersion E st = (Returned tt, st1) ->
  cachedRepositoryInfo E st1 = (Returned response, st2) ->
  match RepoResponse.permissions response with
  | Some permissions => Permissions.pull permissions
  | None => false
  end = false ->
  let r := repository st in
  let repo := show (RepositoryInfo.repo r) in
  let denied :=
    newError "Not a collaborator of the repository"
      (localize E "repository_no_access" [("repo", repo)]) in
  let notFound :=
    newError "Failed to check repository access"
      (localize E "repository_not_found" [("repo", repo)]) in
  let sent :=
    Exchange.mk (Request.mk "/version" GET NoBody) None
    :: match repositoryResponseCache st with
       | Some _ => []
       | None =>
           [Exchange.mk
              (Request.mk ("/repos/" ++ RepositoryInfo.owner r ++ "/" ++ repo)
                 GET NoBody) None]
       end in
  fetchFiles E fuel st = (Thrown denied, st2)
  /\ message denied <> message notFound
  /\ exchanges st2 = (exchanges st ++ sent)%list
  /\ forallb (fun x => negb (isTreeRequest r x)) sent = true.
Proof.
  intros Hversion Hinfo Hpull r repo denied notFound sent.
  assert (Hst1 : st1 = logExchange
                   (Exchange.mk (Request.mk "/version" GET NoBody) None) st).
  { revert Hversion. unfold checkGiteaVersion, bind, fetchAPI.
    destruct (versionApi E _ _) as [e|resp]; [discriminate|].
    destruct (includes _ _); [discriminate|].
    destruct (lessThan _ _); [discriminate|].
    unfold ret. congruence. }
  assert (Hst2 : exchanges st2 = (exchanges st ++ sent)%list
                 /\ repository st2 = repository st).
  { revert Hinfo. subst st1. unfold cachedRepositoryInfo, getRepositoryInfo,
      bind, gets, modify, ret, fetchAPI, sent. cbn.
    destruct (repositoryResponseCache st) as [cached|].
    - intro H. injection H as _ <-. cbn. split; reflexivity.
    - destruct (repoApi E _ _) as [e|resp]; [discriminate|].
      intro H. injection H as _ <-. cbn. rewrite <- app_assoc. split; reflexivity. }
  destruct Hst2 as [Hlog Hrepo].
  repeat split.
  - unfold fetchFiles, bind at 1. rewrite Hversion.
    unfold bind at 1.
    assert (Haccess : checkRepositoryAccess E st1 = (Thrown denied, st2)).
    { unfold checkRepositoryAccess, bind at 1, gets, tryCatch, bind.
      rewrite Hinfo, Hpull. cbn. subst st1. reflexivity. }
    rewrite Haccess. reflexivity.
  - cbn. discriminate.
  - exact Hlog.
  - unfold sent, isTreeRequest. cbn [forallb Exchange.request Request.path].
    apply andb_true_iff. split; [reflexivity|].
    destruct (repositoryResponseCache st); [reflexivity|].
    cbn [forallb Exchange.request Request.path]. rewrite andb_true_r.
    fold r repo.
    replace ("/repos/" ++ RepositoryInfo.owner r ++ "/" ++ repo ++ "/git/trees/")
      with (("/repos/" ++ RepositoryInfo.owner r ++ "/" ++ repo) ++ "/git/trees/").
    + rewrite prefix_append_longer; [reflexivity|discriminate].
    + rewrite !append_assoc. reflexivity.
Qed.

Lemma no_pull_permission_denied_witness :
  let E := Examples.env (Examples.answer (mkVersion "1.24.0"))
             (Examples.answer Examples.readOnlyDenied) (Examples.refuse 500)
             (Examples.refuse 500) (Examples.refuse 500) in
  fst (fetchFiles E 5 Examples.ready)
  = Thrown (newError "Not a collaborator of the repository" "repository_no_access")
  /\ map (fun x => Request.path (Exchange.request x))
         (exchanges (snd (fetchFiles E 5 Examples.ready)))
     = ["/version"; "/repos/o/r"].
Proof.
  intro E.
  destruct (no_pull_permission_denied E 5 Examples.ready
              (snd (checkGiteaVersion E Examples.ready))
              (snd (cachedRepositoryInfo E
                      (snd (checkGiteaVersion E Examples.ready))))
              Examples.readOnlyDenied)
    as [Hrun _]; [reflexivity | reflexivity | reflexivity |].
  rewrite Hrun. split; reflexivity.
Defined.

(** The other category: a repository request that fails is reported as
    "Failed to check repository access" with [repository_not_found]. *)
Lemma unresolved_repository_not_found (E : Env) (st : State) (e : Error) :
  repositoryResponseCache st = None ->
  repoApi E (exchanges st)
    (Request.mk
       ("/repos/" ++ RepositoryInfo.owner (repository st) ++ "/"
          ++ show (RepositoryInfo.repo (repository st))) GET NoBody)
    = inl e ->
  includes "Not a collaborator" (message e) = false ->
  fst (checkRepositoryAccess E st)
  = Thrown (newError "Failed to check repository access"
              (localize E "repository_not_found"
                 [("repo", show (RepositoryInfo.repo (repository st)))])).
Proof.
  intros Hcache Hrepo Hmessage.
  unfold checkRepositoryAccess, cachedRepositoryInfo, getRepositoryInfo,
    tryCatch, bind, gets, modify, fetchAPI.
  rewrite Hcache, Hrepo, Hmessage. reflexivity.
Qed.

(** *** Commit *)

(** C7. A change with action [move], path [p] and previous path [q],
    at position [i] of the changes, is submitted in the commit request as
    the [i]-th file operation with operation [update], path [p] and
    [from_path] [q]. *)
Theorem move_submitted_as_update (E : Env) (st : State) (u : User.t)
    (changes : list FileChange.t) (options : CommitChangesOptions)
    (i : nat) (change : FileChange.t) (p q : string) :
  user st = Some u ->
  nth_error changes i = Some change ->
  FileChange.action change = move ->
  FileChange.path change = p ->
  FileChange.previousPath change = Some q ->
  exists body failure op,
    exchanges (snd (commitChanges E changes options st))
    = (exchanges st
         ++ [Exchange.mk
               (Request.mk
                  ("/repos/" ++ RepositoryInfo.owner (repository st) ++ "/"
                     ++ show (RepositoryInfo.repo (repository st))
                     ++ "/contents")
                  POST (CommitRequest body))
               failure])%list
    /\ nth_error (CommitBody.files body) i = Some op
    /\ FileOperation.operation op = update
    /\ FileOperation.path op = p
    /\ FileOperation.from_path op = Some q.
Proof.
  intros Huser Hnth Haction Hpath Hprevious.
  unfold commitChanges, bind, gets, fetchAPI. cbn. rewrite Huser. cbn.
  match goal with
  | |- context [commitApi E ?h (Request.mk ?path POST (CommitRequest ?b))] =>
      exists b;
      destruct (commitApi E h (Request.mk path POST (CommitRequest b)))
        as [e|response]
  end.
  - exists (Some e), (toFileOperation change). cbn.
    split; [reflexivity|]. split; [apply map_nth_error; exact Hnth|].
    unfold toFileOperation. cbn. rewrite Haction, Hpath, Hprevious. auto.
  - exists None, (toFileOperation change). cbn.
    split; [reflexivity|]. split; [apply map_nth_error; exact Hnth|].
    unfold toFileOperation. cbn. rewrite Haction, Hpath, Hprevious. auto.
Qed.

Lemma move_submitted_as_update_witness :
  let E := Examples.env (Examples.refuse 500) (Examples.refuse 500)
             (Examples.refuse 500) (Examples.refuse 500) (Examples.refuse 500) in
  let change := FileChange.mk move "/b.md" (Some "/a.md") (Some "hello") in
  exists body failure,
    exchanges (snd (commitChanges E [change] (mkCommitOptions "update")
                      Examples.ready))
    = [Exchange.mk (Request.mk "/repos/o/r/contents" POST (CommitRequest body))
         failure]
    /\ CommitBody.files body
       = [FileOperation.mk update "/b.md" "aGVsbG8=" (Some "/a.md")].
Proof.
  intros E change.
  destruct (move_submitted_as_update E Examples.ready Examples.editor [change]
              (mkCommitOptions "update") 0 change "/b.md" "/a.md")
    as [body [failure [op [Hlog _]]]]; try reflexivity.
  exists body, failure. split; [exact Hlog|].
  cbn in Hlog. injection Hlog as <- _. reflexivity.
Defined.

Lemma ceilDiv_small (a p : nat) :
  (1 <= p)%nat -> (a <= p)%nat -> Nat.max 1 (ceilDiv a p) = 1%nat.
Proof.
  intros Hp Ha. unfold ceilDiv.
  assert ((a + p - 1) / p < 2)%nat by (apply Nat.Div0.div_lt_upper_bound; lia).
  lia.
Qed.

Lemma ceilDiv_step (a p : nat) :
  (1 <= p)%nat -> (p < a)%nat ->
  ceilDiv a p = S (ceilDiv (a - p) p) /\ (1 <= ceilDiv (a - p) p)%nat.
Proof.
  intros Hp Ha. unfold ceilDiv. split.
  - replace (a + p - 1)%nat with ((a - p + p - 1) + 1 * p)%nat by lia.
    rewrite Nat.div_add by lia. lia.
  - apply Nat.div_le_lower_bound; lia.
Qed.

Lemma ceilDiv_positive (a p : nat) :
  (1 <= p)%nat -> (1 <= a)%nat -> Nat.max 1 (ceilDiv a p) = ceilDiv a p.
Proof.
  intros Hp Ha. unfold ceilDiv.
  assert (1 <= (a + p - 1) / p)%nat by (apply Nat.div_le_lower_bound; lia).
  lia.
Qed.

(** *** File listing *)

Lemma afterLast_digits (d : Decimal.uint) (candidate : string) :
  afterLast "=" (NilEmpty.string_of_uint d) candidate = candidate.
Proof. induction d; cbn; auto. Qed.

Lemma afterLast_page (requestPath : string) (k : nat) (candidate : string) :
  afterLast "=" (requestPath ++ "&page=" ++ showNat k) candidate = showNat k.
Proof.
  revert candidate. induction requestPath as [|c rest IH]; intro candidate.
  - cbn. apply afterLast_digits.
  - cbn [append afterLast]. destruct (Ascii.eqb c "="); apply IH.
Qed.

Lemma pageOf_page (requestPath : string) (k : nat) :
  pageOf (requestPath ++ "&page=" ++ showNat k) = Some k.
Proof.
  unfold pageOf. rewrite afterLast_page. unfold showNat.
  rewrite NilEmpty.usu. cbn. now rewrite Unsigned.of_to.
Qed.

Lemma fetchPages_paged (E : Env) (p : nat) (entries : list PartialGitEntry.t)
    (requestPath : string) :
  treeApi E = pagedTree p entries ->
  (1 <= p)%nat ->
  forall fuel k acc st,
    (1 <= k)%nat ->
    (List.length entries - p * (k - 1) < fuel)%nat ->
    exists st',
      fetchPages E fuel requestPath k acc st
      = (Returned (acc ++ skipn (p * (k - 1)) entries)%list, st')
      /\ exchanges st'
         = (exchanges st
              ++ map (pageExchange requestPath)
                   (seq k (Nat.max 1
                             (ceilDiv (List.length entries - p * (k - 1)) p))))%list.
Proof.
  intros Hapi Hp. induction fuel as [|fuel IH]; intros k acc st Hk Hfuel; [lia|].
  cbn [fetchPages]. unfold bind at 1, fetchAPI. rewrite Hapi. unfold pagedTree.
  cbn [Request.path]. rewrite pageOf_page. cbn [tree truncated].
  set (start := (p * (k - 1))%nat) in *.
  destruct (start + p <? List.length entries)%nat eqn:Hmore.
  - apply Nat.ltb_lt in Hmore.
    destruct (IH (k + 1)%nat (acc ++ firstn p (skipn start entries))%list
                (logExchange (pageExchange requestPath k) st))
      as [st' [Hrun Hlog]]; [lia | |].
    { replace (k + 1 - 1)%nat with (S (k - 1)) by lia. unfold start in *. nia. }
    exists st'. split.
    + unfold pageExchange in Hrun. rewrite Hrun.
      f_equal. f_equal. rewrite <- app_assoc. f_equal.
      replace (p * (k + 1 - 1))%nat with (p + start)%nat by (unfold start; nia).
      rewrite <- skipn_skipn. apply firstn_skipn.
    + rewrite Hlog. cbn [exchanges logExchange].
      replace (p * (k + 1 - 1))%nat with (start + p)%nat by (unfold start; nia).
      destruct (ceilDiv_step (List.length entries - start) p) as [Hstep Hpos];
        [lia | lia |].
      rewrite Hstep.
      replace (List.length entries - (start + p))%nat
        with (List.length entries - start - p)%nat by lia.
      rewrite (Nat.max_r 1 (S _)) by lia.
      rewrite (Nat.max_r 1 (ceilDiv _ _)) by lia.
      rewrite <- app_assoc. cbn [seq map app].
      replace (k + 1)%nat with (S k) by lia. reflexivity.
  - apply Nat.ltb_ge in Hmore.
    eexists. split.
    + unfold ret. f_equal. f_equal. f_equal.
      apply firstn_all2. rewrite length_skipn. lia.
    + cbn [exchanges logExchange]. rewrite ceilDiv_small by lia. reflexivity.
Qed.

(** C4, amended.  Against a provider that pages a tree of [N] entries by
    [p >= 1], [fetchFileList] sends the requests for pages
    [1 .. max 1 (ceil (N / p))], which is [ceil (N / p)] requests when
    [N >= 1] and one request when the tree is empty, and returns the blob
    entries of the tree, in tree order, each projected to
    [{path, sha, size, name}]: as many as the tree has blobs. *)
Theorem fetchFileList_paged (E : Env) (p : nat)
    (entries : list PartialGitEntry.t) (lastHash : option string)
    (fuel : nat) (st : State) :
  treeApi E = pagedTree p entries ->
  (1 <= p)%nat ->
  (List.length entries < fuel)%nat ->
  let requestPath := treeRequestPath (repository st) lastHash in
  let pages := Nat.max 1 (ceilDiv (List.length entries) p) in
  let files := map (toFileProps E) (filter isBlob entries) in
  exists st',
    fetchFileList E fuel lastHash st = (Returned files, st')
    /\ exchanges st'
       = (exchanges st ++ map (pageExchange requestPath) (seq 1 pages))%list
    /\ (1 <= List.length entries -> pages = ceilDiv (List.length entries) p)%nat
    /\ List.length files = List.length (filter isBlob entries)
    /\ (List.length files <= List.length entries)%nat.
Proof.
  intros Hapi Hp Hfuel requestPath pages files.
  destruct (fetchPages_paged E p entries requestPath Hapi Hp fuel 1 [] st)
    as [st' [Hrun Hlog]]; [lia | cbn; lia |].
  rewrite Nat.mul_0_r, Nat.sub_0_r in *. cbn [skipn app] in Hrun.
  exists st'. repeat split.
  - unfold fetchFileList, bind at 1, gets. fold requestPath.
    unfold bind. rewrite Hrun. reflexivity.
  - exact Hlog.
  - intro Hn. apply ceilDiv_positive; assumption.
  - unfold files. apply length_map.
  - unfold files. rewrite length_map. apply filter_length_le.
Qed.

Lemma fetchFileList_paged_witness :
  let tree := [Examples.directory "docs"; Examples.blob "docs/a.md";
               Examples.blob "docs/b.md"; Examples.blob "README.md";
               Examples.blob "LICENSE"] in
  let E := Examples.env (Examples.refuse 500) (Examples.refuse 500)
             (pagedTree 2 tree) (Examples.refuse 500) (Examples.refuse 500) in
  exists st',
    fetchFileList E 6 None Examples.ready
    = (Returned [FileProps.mk "docs/a.md" "sha" 1 "a.md";
                 FileProps.mk "docs/b.md" "sha" 1 "b.md";
                 FileProps.mk "README.md" "sha" 1 "README.md";
                 FileProps.mk "LICENSE" "sha" 1 "LICENSE"], st')
    /\ map (fun x => Request.path (Exchange.request x)) (exchanges st')
       = ["/repos/o/r/git/trees/main?recursive=1&page=1";
          "/repos/o/r/git/trees/main?recursive=1&page=2";
          "/repos/o/r/git/trees/main?recursive=1&page=3"].
Proof.
  intros tree E.
  destruct (fetchFileList_paged E 2 tree None 6 Examples.ready)
    as [st' [Hrun [Hlog _]]]; [reflexivity | lia | cbn; lia |].
  exists st'. split; [exact Hrun|]. rewrite Hlog. reflexivity.
Defined.

(** C4 as stated fails twice over.  For the empty tree one page request
    is sent, not [ceil (0 / 2) = 0].  For a tree of two entries of which one
    is a directory, one file is returned, not two. *)
Lemma fetchFileList_counterexample :
  let empty := Examples.env (Examples.refuse 500) (Examples.refuse 500)
                 (pagedTree 2 []) (Examples.refuse 500) (Examples.refuse 500) in
  let tree := [Examples.directory "docs"; Examples.blob "docs/a.md"] in
  let mixed := Examples.env (Examples.refuse 500) (Examples.refuse 500)
                 (pagedTree 2 tree) (Examples.refuse 500) (Examples.refuse 500) in
  (List.length (exchanges (snd (fetchFileList empty 1 None Examples.ready))) = 1
   /\ ceilDiv 0 2 = 0)%nat
  /\ (fst (fetchFileList mixed 3 None Examples.ready)
      = Returned [FileProps.mk "docs/a.md" "sha" 1 "a.md"]
      /\ List.length tree = 2%nat).
Proof. repeat split. Qed.

(** *** Bulk content fetch *)

Lemma isNil_length {A} (l : list A) : isNil l = true <-> List.length l = 0%nat.
Proof. destruct l; cbn; split; intro H; try reflexivity; discriminate. Qed.

Section Batches.

Variable E : Env.
Variable requestPath : string.
Variable total : nat.
Variable perPage : Z.

Hypothesis answered : forall h r, exists result, contentsApi E h r = inr result.
Hypothesis positive : (1 <= Z.to_nat perPage)%nat.

(** The loop sends [max 1 (ceil (m / perPage))] batch requests for [m] paths
    and publishes one value after each; the remaining counts it publishes
    for decrease to 0. *)
Lemma fetchBatches_run :
  forall fuel paths results st,
    (1 <= fuel)%nat -> (List.length paths <= fuel)%nat ->
    exists out st' sent remaining,
      fetchBatches E fuel requestPath total perPage paths results st
      = (Returned out, st')
      /\ exchanges st' = (exchanges st ++ sent)%list
      /\ forallb (isBatchRequest requestPath) sent = true
      /\ List.length sent
         = Nat.max 1 (ceilDiv (List.length paths) (Z.to_nat perPage))
      /\ published st'
         = (published st
              ++ map (fun r => Some (progressAfter E total r)) remaining)%list
      /\ List.length remaining = List.length sent
      /\ Forall (fun r => r <= List.length paths)%nat remaining
      /\ StronglySorted ge remaining
      /\ last remaining 1%nat = 0%nat.
Proof.
  induction fuel as [|fuel IH]; intros paths results st Hfuel Hlen; [lia|].
  cbn [fetchBatches]. unfold splice.
  set (b := Z.to_nat perPage) in *.
  assert (Hb : (1 <= b)%nat) by exact positive.
  set (rest := skipn b paths).
  assert (Hrest : List.length rest = (List.length paths - b)%nat)
    by apply length_skipn.
  unfold bind at 1, fetchAPI.
  destruct (answered (exchanges st)
              (Request.mk requestPath POST (FilesBody (firstn b paths))))
    as [result Hresult].
  rewrite Hresult. unfold bind at 1, modify.
  set (x := Exchange.mk _ None).
  assert (Hx : isBatchRequest requestPath x = true).
  { unfold isBatchRequest, x. cbn. now rewrite String.eqb_refl. }
  destruct (isNil rest) eqn:Hnil.
  - apply isNil_length in Hnil.
    exists (results ++ result)%list. eexists. exists [x], [List.length rest].
    repeat split.
    + cbn. now rewrite Hx.
    + cbn [List.length]. rewrite ceilDiv_small; [reflexivity|lia|lia].
    + repeat constructor. lia.
    + repeat constructor.
    + cbn. exact Hnil.
  - assert (Hmore : (b < List.length paths)%nat).
    { destruct (Nat.le_gt_cases (List.length paths) b) as [Hle|]; [|assumption].
      assert (List.length rest = 0%nat) by lia.
      apply isNil_length in H. congruence. }
    destruct (IH rest (results ++ result)%list
                (setProgress (Some (progressAfter E total (List.length rest)))
                   (logExchange x st)))
      as [out [st' [sent [remaining
           [Hrun [Hlog [Hbatch [Hcount [Hpub [Hsame [Hbound [Hsorted Hlast]]]]]]]]]]]];
      [lia | lia |].
    exists out, st', (x :: sent), (List.length rest :: remaining).
    repeat split.
    + exact Hrun.
    + rewrite Hlog. cbn. now rewrite <- app_assoc.
    + cbn. now rewrite Hx, Hbatch.
    + cbn [List.length]. rewrite Hcount, Hrest.
      destruct (ceilDiv_step (List.length paths) b Hb Hmore) as [Hstep Hpos].
      rewrite Hstep, (Nat.max_r 1 (S _)) by (apply le_n_S, Nat.le_0_l).
      now rewrite Nat.max_r by exact Hpos.
    + rewrite Hpub. cbn. now rewrite <- app_assoc.
    + cbn. now rewrite Hsame.
    + constructor; [lia|]. eapply Forall_impl; [|exact Hbound].
      cbn. intros. lia.
    + constructor; [exact Hsorted|]. eapply Forall_impl; [|exact Hbound].
      cbn. intros. lia.
    + destruct remaining as [|r remaining']; [|exact Hlast].
      cbn in Hsame. destruct sent; [|discriminate].
      cbn [List.length] in Hcount. exfalso.
      pose proof (Nat.le_max_l 1 (ceilDiv (List.length rest) b)). lia.
Qed.

End Batches.

Section Rounding.

Variable rnd : Q -> Q.
Hypothesis monotone : forall x y, (x <= y)%Q -> (rnd x <= rnd y)%Q.
Hypothesis one : (rnd 1 == 1)%Q.
Hypothesis hundred : (rnd (100 # 1) == 100 # 1)%Q.

Lemma rnd_compat (x y : Q) : (x == y)%Q -> (rnd x == rnd y)%Q.
Proof.
  intro H. apply Qle_antisym; apply monotone; rewrite H; apply Qle_refl.
Qed.

Lemma percentOf_monotone (c1 c2 total : nat) :
  (1 <= total)%nat -> (c1 <= c2)%nat ->
  (percentOf rnd c1 total <= percentOf rnd c2 total)%Z.
Proof.
  intros Htotal Hle. unfold percentOf.
  apply Qceiling_resp_le, monotone, Qmult_le_compat_r; [|discriminate].
  apply monotone. unfold Qdiv. apply Qmult_le_compat_r.
  - rewrite <- Zle_Qle. lia.
  - apply Qinv_le_0_compat. replace 0%Q with (inject_Z 0) by reflexivity.
    rewrite <- Zle_Qle. lia.
Qed.

Lemma percentOf_complete (total : nat) :
  (1 <= total)%nat -> percentOf rnd total total = 100%Z.
Proof.
  intro Htotal. unfold percentOf.
  assert (Hq : (inject_Z (Z.of_nat total) / inject_Z (Z.of_nat total) == 1)%Q).
  { apply Qmult_inv_r. replace 0%Q with (inject_Z 0) by reflexivity.
    rewrite inject_Z_injective. lia. }
  rewrite (Qceiling_comp _ (100 # 1)); [reflexivity|].
  rewrite (rnd_compat _ (100 # 1)); [exact hundred|].
  rewrite (rnd_compat _ 1 Hq), one. reflexivity.
Qed.

End Rounding.

Lemma progressAfter_percent (E : Env) (total remaining : nat) :
  (1 <= total)%nat ->
  progressAfter E total remaining
  = Finite (inject_Z (percentOf (rnd E) (total - remaining) total)).
Proof.
  intro Htotal. unfold progressAfter, divideLengths, percentOf.
  destruct total; [lia|]. reflexivity.
Qed.

Lemma StronglySorted_map {A B} (R : A -> A -> Prop) (R' : B -> B -> Prop)
    (f : A -> B) (l : list A) :
  (forall x y, R x y -> R' (f x) (f y)) ->
  StronglySorted R l -> StronglySorted R' (map f l).
Proof.
  intros Hf. induction 1 as [|a l Hl IH Ha]; cbn; constructor; auto.
  apply Forall_map. eapply Forall_impl; [|exact Ha]. auto.
Qed.

Lemma last_map {A B} (f : A -> B) (l : list A) (d : A) (d' : B) :
  l <> [] -> last (map f l) d' = f (last l d).
Proof.
  induction l as [|a [|b l] IH]; intro Hne; [congruence|reflexivity|].
  cbn [map last] in *. apply IH. discriminate.
Qed.

Lemma filter_all {A} (f : A -> bool) (l : list A) :
  forallb f l = true -> filter f l = l.
Proof.
  induction l as [|a l IH]; cbn; [reflexivity|].
  intro H. apply andb_true_iff in H as [-> H]. now rewrite IH.
Qed.

Lemma appended_app {A} (l new : list A) : appended l (l ++ new)%list = new.
Proof.
  unfold appended. rewrite skipn_app, skipn_all, Nat.sub_diag. reflexivity.
Qed.

Lemma textOf_pure (fileData : option Contents.t) (st : State) :
  exists out, textOf fileData st = (out, st) /\ out <> Pending.
Proof.
  unfold textOf, ret, throw.
  destruct fileData as [d|]; [|eexists; split; [reflexivity|discriminate]].
  destruct (_ && _); [|eexists; split; [reflexivity|discriminate]].
  destruct (Base64.decodeBase64 _); eexists; split; try reflexivity; discriminate.
Qed.

Lemma parseEntries_pure (files : list FileItem.t) :
  forall index results st,
    exists out, parseEntries files index results st = (out, st) /\ out <> Pending.
Proof.
  induction files as [|file rest IH]; intros index results st; cbn [parseEntries].
  - eexists. split; [reflexivity|discriminate].
  - unfold bind at 1.
    destruct (textOf_pure (resultAt results index) st) as [out [-> Hout]].
    destruct out as [text|e|]; [| |congruence].
    + unfold bind at 1.
      destruct (IH (S index) results st) as [out' [-> Hout']].
      destruct out' as [entries|e|]; [| |congruence];
        eexists; (split; [reflexivity|discriminate]).
    + eexists. split; [reflexivity|discriminate].
Qed.

Lemma parseFileContents_pure (files : list FileItem.t)
    (results : list (option Contents.t)) (st : State) :
  exists out, parseFileContents files results st = (out, st) /\ out <> Pending.
Proof.
  unfold parseFileContents, bind.
  destruct (parseEntries_pure files 0 results st) as [out [-> Hout]].
  destruct out; [| |congruence]; eexists; (split; [reflexivity|discriminate]).
Qed.

(** C1, amended.  For [M >= 1] non-asset paths and a batch limit
    [B >= 1] (the [default_paging_num] of the settings response, or 30 when
    the response has none), with every batch request answered,
    [fetchFileContents] settles after exactly [ceil (M / B)] batch
    requests; it publishes 0, then one percentage after each batch, then
    [undefined]; the percentages are non-decreasing and the last one is
    100.  This holds for every monotone rounding that is exact at 1 and 100. *)
Theorem fetchFileContents_batches (E : Env) (files : list FileItem.t)
    (limit : option Z) (fuel : nat) (st : State) :
  (forall x y, (x <= y)%Q -> (rnd E x <= rnd E y)%Q) ->
  (rnd E 1 == 1)%Q ->
  (rnd E (100 # 1) == 100 # 1)%Q ->
  settingsApi E (exchanges st) (Request.mk "/settings/api" GET NoBody)
    = inr (mkSettings limit) ->
  (forall h r, exists result, contentsApi E h r = inr result) ->
  let total := List.length (nonAssetPaths files) in
  let perPage := Z.to_nat (orDefault limit 30%Z) in
  (1 <= total)%nat ->
  (1 <= perPage)%nat ->
  (total <= fuel)%nat ->
  exists out st' percents,
    fetchFileContents E fuel files st = (out, st')
    /\ out <> Pending
    /\ List.length
         (filter (isBatchRequest (contentsRequestPath (repository st)))
            (appended (exchanges st) (exchanges st')))
       = ceilDiv total perPage
    /\ appended (published st) (published st')
       = (Some (Finite 0)
            :: map (fun z => Some (Finite (inject_Z z))) percents ++ [None])%list
    /\ List.length percents = ceilDiv total perPage
    /\ StronglySorted Z.le percents
    /\ last percents 0%Z = 100%Z.
Proof.
  intros Hmono Hone Hhundred Hsettings Hcontents total perPage Htotal Hpage Hfuel.
  unfold fetchFileContents, bind at 1, gets.
  unfold bind at 1, modify. unfold bind at 1, fetchAPI.
  cbn [exchanges setProgress]. rewrite Hsettings. cbn [default_paging_num].
  set (requestPath := contentsRequestPath (repository st)).
  set (st0 := logExchange _ (setProgress _ st)).
  destruct (fetchBatches_run E requestPath total (orDefault limit 30%Z)
              Hcontents Hpage fuel (nonAssetPaths files) [] st0)
    as [results [st1 [sent [remaining
         [Hrun [Hlog [Hbatch [Hcount [Hpub [Hsame [Hbound [Hsorted Hlast]]]]]]]]]]]];
    [lia | exact Hfuel |].
  fold total in Hcount, Hbound. fold perPage in Hcount.
  rewrite ceilDiv_positive in Hcount by assumption.
  unfold bind at 1. fold total. rewrite Hrun.
  unfold bind at 1, modify.
  destruct (parseFileContents_pure files results (setProgress None st1))
    as [out [Hparse Hout]].
  exists out, (setProgress None st1),
    (map (fun r => percentOf (rnd E) (total - r) total) remaining).
  assert (Hne : remaining <> []).
  { intros ->. cbn in Hsame. rewrite <- Hsame in Hcount.
    pose proof (ceilDiv_positive total perPage Hpage Htotal). cbn in Hcount. lia. }
  repeat split.
  - exact Hparse.
  - exact Hout.
  - cbn [exchanges setProgress]. rewrite Hlog. unfold st0.
    cbn [exchanges setProgress logExchange].
    rewrite <- app_assoc, appended_app. cbn [app filter].
    replace (isBatchRequest requestPath _) with false
      by (unfold isBatchRequest;
          cbn [Exchange.request Request.path Request.method Request.body];
          symmetry; apply andb_false_r).
    rewrite filter_all by exact Hbatch. exact Hcount.
  - cbn [published setProgress]. rewrite Hpub. unfold st0.
    cbn [published setProgress logExchange].
    rewrite <- !app_assoc, appended_app. cbn [app]. f_equal. f_equal.
    rewrite map_map. apply map_ext_in. intros r _.
    now rewrite progressAfter_percent.
  - rewrite length_map. congruence.
  - apply (StronglySorted_map ge); [|exact Hsorted].
    intros x y Hxy. apply percentOf_monotone; auto. unfold ge in Hxy. lia.
  - rewrite (last_map _ _ 1%nat) by exact Hne. rewrite Hlast, Nat.sub_0_r.
    apply percentOf_complete; assumption.
Qed.

Lemma fetchFileContents_batches_witness :
  let E := Examples.env (Examples.refuse 500) (Examples.refuse 500)
             (Examples.refuse 500) (Examples.answer (mkSettings (Some 2%Z)))
             Examples.noContents in
  let files := map Examples.entryFile ["a.md"; "b.md"; "c.md"; "d.md"; "e.md"] in
  exists out st',
    fetchFileContents E 5 files Examples.ready = (out, st')
    /\ map (fun x => Request.body (Exchange.request x)) (exchanges st')
       = [NoBody; FilesBody ["a.md"; "b.md"]; FilesBody ["c.md"; "d.md"];
          FilesBody ["e.md"]]
    /\ published st'
       = [Some (Finite 0); Some (Finite (40 # 1)); Some (Finite (80 # 1));
          Some (Finite (100 # 1)); None].
Proof.
  intros E files.
  destruct (fetchFileContents_batches E files (Some 2%Z) 5 Examples.ready)
    as [out [st' [percents [Hrun _]]]].
  - intros x y H. exact H.
  - reflexivity.
  - reflexivity.
  - reflexivity.
  - intros h r. unfold E, Examples.env, Examples.noContents. cbn.
    destruct (Request.body r); eexists; reflexivity.
  - cbn. lia.
  - cbn. lia.
  - cbn. lia.
  - exists out, st'. split; [exact Hrun|].
    vm_compute in Hrun. injection Hrun as _ <-. split; reflexivity.
Defined.

Example default_limit_is_thirty :
  let E := Examples.env (Examples.refuse 500) (Examples.refuse 500)
             (Examples.refuse 500) (Examples.answer (mkSettings None))
             Examples.noContents in
  let files := map (fun k => Examples.entryFile (showNat k)) (seq 1 31) in
  map (fun x =>
         match Request.body (Exchange.request x) with
         | FilesBody paths => List.length paths
         | _ => O
         end)
      (exchanges (snd (fetchFileContents E 31 files Examples.ready)))
  = [0; 30; 1]%nat.
Proof. vm_compute. reflexivity. Qed.

(** C1 as stated fails when there is nothing to fetch: with no non-asset
    path the loop still sends one batch request, where [ceil (0 / 30) = 0],
    and the value published after it is [NaN], not 100. *)
Lemma fetchFileContents_counterexample :
  let E := Examples.env (Examples.refuse 500) (Examples.refuse 500)
             (Examples.refuse 500) (Examples.answer (mkSettings None))
             Examples.noContents in
  let run := fetchFileContents E 1 [] Examples.ready in
  List.length (nonAssetPaths []) = 0%nat
  /\ List.length
       (filter (isBatchRequest (contentsRequestPath (repository Examples.ready)))
          (exchanges (snd run))) = 1%nat
  /\ ceilDiv 0 30 = 0%nat
  /\ published (snd run) = [Some (Finite 0); Some NaN; None].
Proof. repeat split. Qed.

(** A batch limit of zero removes nothing from the path list: the loop
    never ends. *)
Lemma zero_limit_never_settles (E : Env) (requestPath : string) (total : nat) :
  (forall h r, exists result, contentsApi E h r = inr result) ->
  forall fuel paths results st,
    paths <> [] ->
    fst (fetchBatches E fuel requestPath total 0 paths results st) = Pending.
Proof.
  intros Hcontents. induction fuel as [|fuel IH]; intros paths results st Hne;
    [reflexivity|].
  cbn [fetchBatches]. unfold splice. cbn [Z.to_nat firstn skipn].
  unfold bind at 1, fetchAPI.
  destruct (Hcontents (exchanges st) (Request.mk requestPath POST (FilesBody [])))
    as [result ->].
  unfold bind at 1, modify.
  destruct paths as [|path paths]; [congruence|]. cbn [isNil].
  apply IH. discriminate.
Qed.

Lemma fetchBatches_failures (E : Env) (requestPath : string) (total : nat)
    (perPage : Z) :
  forall fuel paths results st out st',
    fetchBatches E fuel requestPath total perPage paths results st = (out, st') ->
    dataLoadedProgress st <> None ->
    exists sent,
      exchanges st' = (exchanges st ++ sent)%list
      /\ match out with
         | Returned _ => existsb failed sent = false
         | Thrown _ =>
             existsb failed sent = true /\ dataLoadedProgress st' <> None
         | Pending => True
         end.
Proof.
  induction fuel as [|fuel IH]; intros paths results st out st' Hrun Hprogress.
  - cbn in Hrun. injection Hrun as <- <-. exists []. rewrite app_nil_r. auto.
  - cbn [fetchBatches] in Hrun. unfold splice, bind at 1, fetchAPI in Hrun.
    destruct (contentsApi E _ _) as [e|result].
    + injection Hrun as <- <-. eexists. split; [reflexivity|]. cbn. auto.
    + unfold bind at 1, modify in Hrun.
      destruct (isNil _).
      * injection Hrun as <- <-. eexists. split; [reflexivity|]. reflexivity.
      * apply IH in Hrun; [|discriminate].
        destruct Hrun as [sent [Hlog Hout]].
        eexists. split.
        -- rewrite Hlog. cbn [exchanges setProgress logExchange].
           rewrite <- app_assoc. reflexivity.
        -- cbn [app existsb failed Exchange.failure orb]. exact Hout.
Qed.




(** *** Text round trip *)

(** C9. The content [commitChanges] puts into a file operation for a
    change whose data is [text] (the empty text when the change has no
    data) decodes back to [text], both through [decodeBase64] alone and
    through the decoding [parseFileContents] applies to a fetched file that
    carries this content with the [base64] encoding tag. *)
Theorem text_round_trip (change : FileChange.t) (text : string) (st : State) :
  orDefault (FileChange.data change) "" = text ->
  let content := FileOperation.content (toFileOperation change) in
  Base64.decodeBase64 content = Some text
  /\ textOf (Some (Contents.mk (Some content) (Some "base64"))) st
     = (Returned text, st).
Proof.
  intros Hdata content.
  assert (Hcontent : content = Base64.encode text).
  { unfold content, toFileOperation. cbn. now rewrite Hdata. }
  rewrite Hcontent. split; [apply Base64Facts.decode_encode|].
  unfold textOf. cbn [Contents.content Contents.encoding show truthy].
  destruct (String.eqb (Base64.encode text) "") eqn:Hempty.
  - apply String.eqb_eq in Hempty.
    rewrite (proj1 (Base64Facts.encode_empty_iff text) Hempty). reflexivity.
  - cbn. unfold Base64.decodeBase64. now rewrite Base64Facts.decode_encode.
Qed.

Lemma text_round_trip_witness :
  textOf
    (Some (Contents.mk
             (Some (FileOperation.content
                      (toFileOperation
                         (FileChange.mk update "a.md" None (Some "Hello")))))
             (Some "base64"))) Examples.ready
  = (Returned "Hello", Examples.ready)
  /\ textOf
       (Some (Contents.mk
                (Some (FileOperation.content
                         (toFileOperation (FileChange.mk create "b.md" None None))))
                (Some "base64"))) Examples.ready
     = (Returned "", Examples.ready).
Proof.
  split.
  - apply (text_round_trip (FileChange.mk update "a.md" None (Some "Hello"))
             "Hello" Examples.ready). reflexivity.
  - apply (text_round_trip (FileChange.mk create "b.md" None None)
             "" Examples.ready). reflexivity.
Defined.

End GiteaFacts.

(** ** The sign-in flows *)

Module AuthFacts.
Import Js Auth.

Lemma object_with_property_has_keys (v : Value) (key : string) :
  truthy (prop v key) = true -> (keyCount v =? 0)%nat = false.
Proof.
  destruct v as [| | | | | |props]; try discriminate.
  destruct props; [discriminate|reflexivity].
Qed.

Lemma object_truthy (v : Value) : isObject v = true -> truthy v = true.
Proof. destruct v; try discriminate; reflexivity. Qed.

Ltac run_flow :=
  unfold bind, gets, modify, ret, throw, tryCatch, callSignIn, callFetchFiles,
    currentBackend;
  cbn [backendName setBackendName setUser setUnauthenticated setSignInError
       setPrefs logCall world unauthenticated siteConfigBackendName calls
       signInError user negb fst snd].



(** C10. If the selected backend's [signIn] throws during manual sign-in,
    [signInManually] returns normally with [unauthenticated] set to [true]
    and [signInError] holding a message for the user: the localized
    abort or not-project-root message for those two error names, else the
    cause's message, else the localized "unexpected error" (the first two
    can be retried).  The error is written to the console, and the only
    backend call made is that [signIn]: [fetchFiles] is not attempted. *)
Theorem failed_manual_sign_in_is_reported {W : Type} (E : Env W)
    (st : State W) (service : BackendService W) (selected : string)
    (token : Value) (ex : Error) (w : W) :
  let options := mkSignInOptions token VUndefined false in
  backends E selected = Some service ->
  signIn service options (world st) = (Thrown ex, w) ->
  exists st',
    signInManually E selected token st = (Returned tt, st')
    /\ unauthenticated st' = true
    /\ error_message (signInError st')
       = (if String.eqb (name ex) "AbortError" then
            localize E (if String.eqb selected "local"
                        then "sign_in_error.picker_dismissed"
                        else "sign_in_error.authentication_aborted")
          else if String.eqb (name ex) "NotFoundError" then
            localize E "sign_in_error.not_project_root"
          else
            match cause ex with
            | Some c =>
                if String.eqb (cause_message c) ""
                then localize E "unexpected_error"
                else cause_message c
            | None => localize E "unexpected_error"
            end)
    /\ canRetry (signInError st')
       = (String.eqb (name ex) "AbortError"
          || String.eqb (name ex) "NotFoundError")
    /\ console st' = (console st ++ [(message ex, cause ex)])%list
    /\ calls st' = (calls st ++ [SignInCall options])%list
    /\ world st' = w.
Proof.
  intros options Hbackend Hsign.
  unfold signInManually, logError. run_flow. rewrite Hbackend. run_flow.
  fold options. rewrite Hsign. run_flow.
  destruct (String.eqb (name ex) "AbortError") eqn:Habort;
    destruct (String.eqb (name ex) "NotFoundError") eqn:Hnotfound;
    destruct (cause ex) as [c|]; try destruct (String.eqb (cause_message c) "");
    cbn; eexists; repeat split.
Qed.

Lemma failed_manual_sign_in_is_reported_witness :
  exists st',
    signInManually
      (AuthExamples.env (AuthExamples.rejectingSignIn AuthExamples.popupClosed))
      "gitea" VUndefined AuthExamples.returning = (Returned tt, st')
    /\ unauthenticated st' = true
    /\ signInError st'
       = mkSignInError "sign_in_error.authentication_aborted" true
    /\ calls st' = [SignInCall (mkSignInOptions VUndefined VUndefined false)].
Proof.
  destruct (failed_manual_sign_in_is_reported
              (AuthExamples.env (AuthExamples.rejectingSignIn AuthExamples.popupClosed))
              AuthExamples.returning
              (AuthExamples.rejectingSignIn AuthExamples.popupClosed)
              "gitea" VUndefined AuthExamples.popupClosed 1%nat)
    as [st' [Hrun [Hunauth [_ [_ [_ [Hcalls _]]]]]]]; try reflexivity.
  exists st'. split; [exact Hrun|]. split; [exact Hunauth|].
  split; [|exact Hcalls].
  cbn in Hrun. injection Hrun as <-. reflexivity.
Defined.

End AuthFacts.

(* ================================================================== *)
(** * Further properties of the Gitea backend                           *)
(* ================================================================== *)

Module GiteaMore.
Import Js Gitea GiteaSession.

(** *** Initialization *)

(** What [init] does, case by case. *)
Lemma init_cases (E : Env) (st : State) :
  (init E st = (Returned None, st)
   /\ forall st', siteConfig st' = siteConfig st ->
                  init E st' = (Returned None, st'))
  \/ (exists e,
        init E st = (Thrown e, st)
        /\ forall st', siteConfig st' = siteConfig st ->
                       init E st' = (Thrown e, st'))
  \/ (exists r a,
        RepositoryInfo.service r = backendName
        /\ forall st', siteConfig st' = siteConfig st ->
             fst (init E st') = Returned (Some r)
             /\ repository (snd (init E st')) = r
             /\ apiConfig (snd (init E st')) = a
             /\ siteConfig (snd (init E st')) = siteConfig st'
             /\ user (snd (init E st')) = user st'
             /\ repositoryResponseCache (snd (init E st'))
                = repositoryResponseCache st'
             /\ dataLoadedProgress (snd (init E st')) = dataLoadedProgress st'
             /\ published (snd (init E st')) = published st'
             /\ exchanges (snd (init E st')) = exchanges st').
Proof.
  destruct (siteConfig st) as [backend|] eqn:Hcfg.
  2: { left. unfold init, bind, gets, modify, ret, throw. rewrite Hcfg.
       split; [reflexivity|]. intros st' ->. reflexivity. }
  destruct (negb (String.eqb (BackendConfig.name backend) backendName))
    eqn:Hname.
  { left. unfold init, bind, gets, modify, ret, throw. rewrite Hcfg, Hname.
    split; [reflexivity|]. intros st' ->. rewrite Hname. reflexivity. }
  destruct (urlOrigin E
              (orDefault (BackendConfig.api_root backend) DEFAULT_API_ROOT))
    as [restApiOrigin|] eqn:Hurl.
  2: { right. left. unfold init, bind, gets, modify, ret, throw.
       rewrite Hcfg, Hname, Hurl. eexists. split; [reflexivity|].
       intros st' ->. rewrite Hname, Hurl. reflexivity. }
  destruct (BackendConfig.repo backend) as [projectPath|] eqn:Hrepo.
  2: { right. left. unfold init, bind, gets, modify, ret, throw.
       rewrite Hcfg, Hname, Hurl, Hrepo. eexists. split; [reflexivity|].
       intros st' ->. rewrite Hname, Hurl, Hrepo. reflexivity. }
  right. right.
  exists (repository (snd (init E st))), (apiConfig (snd (init E st))).
  unfold init, bind, gets, modify, ret, throw.
  rewrite Hcfg, Hname, Hurl, Hrepo.
  split.
  - destruct (devModeEnabled st) eqn:Hdev; cbn; rewrite Hdev; reflexivity.
  - intros st' Hst'. rewrite Hst', Hname, Hurl, Hrepo.
    destruct (devModeEnabled st) eqn:Hdev;
      destruct (devModeEnabled st') eqn:Hdev'; cbn; rewrite Hdev, Hdev'; cbn;
      rewrite ?Hst'; repeat split; reflexivity.
Qed.

(** X1 ([init]).  [init] reads nothing but the site configuration: from two
    states with the same configuration it settles the same way, and when it
    returns a repository, the [repository] and [apiConfig] singletons end up
    the same whatever they held before. *)
Theorem init_depends_only_on_config (E : Env) (st1 st2 : State) :
  siteConfig st1 = siteConfig st2 ->
  fst (init E st1) = fst (init E st2)
  /\ (forall r, fst (init E st1) = Returned (Some r) ->
        repository (snd (init E st1)) = repository (snd (init E st2))
        /\ apiConfig (snd (init E st1)) = apiConfig (snd (init E st2))).
Proof.
  intro Hcfg.
  destruct (init_cases E st1)
    as [[H1 Hall] | [[e [H1 Hall]] | [r [a [_ Hall]]]]].
  - rewrite H1, (Hall st2 (eq_sym Hcfg)). split; [reflexivity|].
    intros r H. discriminate H.
  - rewrite H1, (Hall st2 (eq_sym Hcfg)). split; [reflexivity|].
    intros r H. discriminate H.
  - destruct (Hall st1 eq_refl) as [Ha [Hb [Hc _]]].
    destruct (Hall st2 (eq_sym Hcfg)) as [Ha' [Hb' [Hc' _]]].
    split; [congruence|]. intros _ _. split; congruence.
Qed.

(** X2 ([init]).  [init] is all or nothing.  When it returns a repository,
    that value is the new [repository] singleton, its service is ["gitea"],
    and neither a request is sent nor the repository cache touched; when it
    returns [undefined] or throws, the whole state is as before.  It never
    stays pending. *)
Theorem init_all_or_nothing (E : Env) (st : State) :
  match fst (init E st) with
  | Returned (Some r) =>
      r = repository (snd (init E st))
      /\ RepositoryInfo.service r = "gitea"
      /\ exchanges (snd (init E st)) = exchanges st
      /\ repositoryResponseCache (snd (init E st)) = repositoryResponseCache st
  | Returned None | Thrown _ => snd (init E st) = st
  | Pending => False
  end.
Proof.
  destruct (init_cases E st)
    as [[H1 _] | [[e [H1 _]] | [r [a [Hservice Hall]]]]].
  - rewrite H1. reflexivity.
  - rewrite H1. reflexivity.
  - destruct (Hall st eq_refl) as [Ha [Hb [_ [_ [_ [Hcache [_ [_ Hlog]]]]]]]].
    rewrite Ha. repeat split; auto.
Qed.

Lemma init_depends_only_on_config_witness :
  let E := Examples.env (Examples.refuse 500) (Examples.refuse 500)
             (Examples.refuse 500) (Examples.refuse 500) (Examples.refuse 500) in
  let stale :=
    setRepository
      (RepositoryInfo.mk "gitea" "Gitea" "x" (Some "y") (Some "old") "" "" false
         "" "")
      Examples.ready in
  repository (snd (init E stale)) = repository Examples.ready.
Proof.
  intros E stale.
  destruct (init_depends_only_on_config E stale Examples.ready eq_refl)
    as [_ Hsame].
  destruct (Hsame (repository Examples.ready) eq_refl) as [-> _]. reflexivity.
Defined.

(** *** Default branch *)

Lemma cachedRepositoryInfo_keeps_repository (E : Env) (st : State) :
  repository (snd (cachedRepositoryInfo E st)) = repository st
  /\ fst (cachedRepositoryInfo E st) <> Pending.
Proof.
  unfold cachedRepositoryInfo, getRepositoryInfo, bind, gets, modify, ret,
    fetchAPI.
  destruct (repositoryResponseCache st); [split; [reflexivity|discriminate]|].
  destruct (repoApi E _ _); split; try reflexivity; discriminate.
Qed.

Lemma fetchDefaultBranchName_rejection (E : Env) (st st' : State)
    (e : Error) :
  fetchDefaultBranchName E st = (Thrown e, st') ->
  e = newError "Failed to retrieve the default branch name."
        (localize E "repository_not_found"
           [("repo", show (RepositoryInfo.repo (repository st)))])
  /\ repository st' = repository st.
Proof.
  unfold fetchDefaultBranchName, bind at 1, gets at 1, tryCatch, bind at 1.
  pose proof (cachedRepositoryInfo_keeps_repository E st) as [Hrepo _].
  destruct (cachedRepositoryInfo E st) as [[response|e0|] st0]; cbn in Hrepo.
  - destruct (negb (truthy (RepoResponse.default_branch response))).
    + unfold throw. intro H. injection H as <- <-. auto.
    + unfold bind, modify, ret. discriminate.
  - unfold throw. intro H. injection H as <- <-. auto.
  - discriminate.
Qed.

(** X4 ([fetchDefaultBranchName]).  Every rejection of
    [fetchDefaultBranchName] is the same error, "Failed to retrieve the
    default branch name." with the localized [repository_not_found] as its
    cause, whether the repository request failed or the repository is empty
    and has no default branch; the [repository] singleton is then
    unchanged. *)
Theorem default_branch_failure_is_not_found (E : Env) (st st' : State)
    (e : Error) :
  fetchDefaultBranchName E st = (Thrown e, st') ->
  e = newError "Failed to retrieve the default branch name."
        (localize E "repository_not_found"
           [("repo", show (RepositoryInfo.repo (repository st)))])
  /\ repository st' = repository st.
Proof. apply fetchDefaultBranchName_rejection. Qed.

Lemma default_branch_failure_is_not_found_witness :
  let E := Examples.env (Examples.refuse 500)
             (Examples.answer
                (RepoResponse.mk (Some (Permissions.mk true)) None))
             (Examples.refuse 500) (Examples.refuse 500) (Examples.refuse 500) in
  fst (fetchDefaultBranchName E Examples.ready)
  = Thrown (newError "Failed to retrieve the default branch name."
              "repository_not_found").
Proof.
  intro E.
  destruct (default_branch_failure_is_not_found E Examples.ready
              (snd (fetchDefaultBranchName E Examples.ready))
              (newError "Failed to retrieve the default branch name."
                 "repository_not_found") eq_refl) as [_ _].
  reflexivity.
Defined.

(** X3 ([init], [fetchDefaultBranchName]).  When the configuration names no
    branch, [init] followed by [fetchDefaultBranchName] leaves the same
    [repository] singleton as [init] alone would with the provider's default
    branch written in the configuration: the branch and the tree and blob
    base URLs are all brought up to date. *)
Theorem resolved_branch_as_if_configured (E : Env) (st st1 st2 : State)
    (config : BackendConfig.t) (r : RepositoryInfo.t)
    (response : RepoResponse.t) (b : string) :
  siteConfig st = Some config ->
  BackendConfig.branch config = None ->
  init E st = (Returned (Some r), st1) ->
  cachedRepositoryInfo E st1 = (Returned response, st2) ->
  RepoResponse.default_branch response = Some b ->
  b <> "" ->
  exists st3,
    fetchDefaultBranchName E st1 = (Returned b, st3)
    /\ repository st3
       = repository
           (snd (init E (setSiteConfig
                           (Some (withConfiguredBranch config b)) st))).
Proof.
  intros Hcfg Hbranch Hinit Hinfo Hdefault Hne.
  assert (Hb : String.eqb b "" = false)
    by (destruct (String.eqb_spec b ""); [congruence|reflexivity]).
  assert (Htruthy : truthy (Some b) = true) by (cbn; now rewrite Hb).
  pose proof (cachedRepositoryInfo_keeps_repository E st1) as [Hkeep _].
  rewrite Hinfo in Hkeep. cbn in Hkeep.
  unfold fetchDefaultBranchName, bind at 1, gets at 1, tryCatch, bind at 1.
  rewrite Hinfo, Hdefault, Htruthy. cbn [negb].
  unfold bind, modify, ret. eexists. split; [reflexivity|].
  cbn [repository setRepository]. rewrite Hkeep.
  revert Hinit. unfold init, bind, gets, modify, ret, throw.
  cbn [siteConfig setSiteConfig]. rewrite Hcfg.
  cbn [withConfiguredBranch BackendConfig.name BackendConfig.repo
       BackendConfig.branch BackendConfig.base_url BackendConfig.auth_endpoint
       BackendConfig.app_id BackendConfig.api_root].
  destruct (negb _); [discriminate|].
  destruct (urlOrigin E _); [|discriminate].
  destruct (BackendConfig.repo config); [|discriminate].
  rewrite Hbranch.
  destruct (devModeEnabled st) eqn:Hdev; cbn; rewrite Hdev; cbn;
    intro H; injection H as _ <-; cbn; unfold withBranch, getBaseURLs; cbn;
    rewrite Hb; reflexivity.
Qed.

Lemma resolved_branch_as_if_configured_witness :
  let E := Examples.env (Examples.refuse 500)
             (Examples.answer
                (RepoResponse.mk (Some (Permissions.mk true)) (Some "main")))
             (Examples.refuse 500) (Examples.refuse 500) (Examples.refuse 500) in
  let config :=
    BackendConfig.mk "gitea" (Some "o/r") None None None None
      (Some "https://gitea.example/api/v1") in
  let st := setSiteConfig (Some config) Examples.ready in
  exists st3,
    fetchDefaultBranchName E (snd (init E st)) = (Returned "main", st3)
    /\ repository st3 = repository Examples.ready.
Proof.
  intros E config st.
  destruct (resolved_branch_as_if_configured E st (snd (init E st))
              (snd (cachedRepositoryInfo E (snd (init E st)))) config
              (repository (snd (init E st)))
              (RepoResponse.mk (Some (Permissions.mk true)) (Some "main"))
              "main")
    as [st3 [Hrun Hrepo]]; try reflexivity; [discriminate|].
  exists st3. split; [exact Hrun|]. rewrite Hrepo. reflexivity.
Defined.

(** *** Repository information cache *)

Lemma cached_info_sends_nothing (E : Env) (st : State)
    (response : RepoResponse.t) :
  repositoryResponseCache st = Some response ->
  cachedRepositoryInfo E st = (Returned response, st).
Proof.
  intro H. unfold cachedRepositoryInfo, bind, gets. rewrite H. reflexivity.
Qed.

(** X5 ([getRepositoryInfo], [checkRepositoryAccess],
    [fetchDefaultBranchName]).  The repository information is fetched at
    most once: after a successful [checkRepositoryAccess] the response is
    cached, the check itself sent at most one request, and a following
    [fetchDefaultBranchName] or a second [checkRepositoryAccess] sends none
    and leaves the cache as it is. *)
Theorem repository_info_fetched_once (E : Env) (st st1 : State) :
  checkRepositoryAccess E st = (Returned tt, st1) ->
  exists response,
    repositoryResponseCache st1 = Some response
    /\ (List.length (exchanges st1) <= S (List.length (exchanges st)))%nat
    /\ exchanges (snd (fetchDefaultBranchName E st1)) = exchanges st1
    /\ exchanges (snd (checkRepositoryAccess E st1)) = exchanges st1
    /\ repositoryResponseCache (snd (fetchDefaultBranchName E st1))
       = Some response.
Proof.
  unfold checkRepositoryAccess at 1, bind at 1, gets at 1, tryCatch, bind at 1.
  destruct (cachedRepositoryInfo E st) as [[response|e|] st0] eqn:Hinfo.
  - destruct (negb _) eqn:Hpull.
    + unfold throw. destruct (includes _ _); discriminate.
    + unfold ret. intro H. injection H as <-.
      assert (Hcache : repositoryResponseCache st0 = Some response
                       /\ (List.length (exchanges st0)
                           <= S (List.length (exchanges st)))%nat).
      { revert Hinfo. unfold cachedRepositoryInfo, getRepositoryInfo, bind,
          gets, modify, ret, fetchAPI.
        destruct (repositoryResponseCache st) eqn:Hc.
        - intro H. injection H as <- <-. split; [exact Hc|lia].
        - destruct (repoApi E _ _); [discriminate|].
          intro H. injection H as <- <-. cbn. split; [reflexivity|].
          rewrite length_app. cbn. lia. }
      destruct Hcache as [Hcache Hlen].
      exists response. split; [exact Hcache|]. split; [exact Hlen|].
      pose proof (cached_info_sends_nothing E st0 response Hcache) as Hhit.
      repeat split.
      * unfold fetchDefaultBranchName, tryCatch, bind, gets, modify, ret, throw.
        rewrite Hhit. destruct (negb (truthy _)); reflexivity.
      * unfold checkRepositoryAccess, tryCatch, bind, gets, ret, throw.
        rewrite Hhit, Hpull. reflexivity.
      * unfold fetchDefaultBranchName, tryCatch, bind, gets, modify, ret, throw.
        rewrite Hhit. destruct (negb (truthy _)); exact Hcache.
  - destruct (includes _ _); discriminate.
  - discriminate.
Qed.

Lemma repository_info_fetched_once_witness :
  let E := Examples.env (Examples.answer (mkVersion "1.24.0"))
             (Examples.answer
                (RepoResponse.mk (Some (Permissions.mk true)) (Some "main")))
             (Examples.refuse 500) (Examples.refuse 500) (Examples.refuse 500) in
  let st1 := snd (checkRepositoryAccess E Examples.ready) in
  map (fun x => Request.path (Exchange.request x))
      (exchanges (snd (fetchDefaultBranchName E st1)))
  = ["/repos/o/r"].
Proof.
  intros E st1.
  destruct (repository_info_fetched_once E Examples.ready st1 eq_refl)
    as [response [_ [_ [Hlog _]]]].
  rewrite Hlog. reflexivity.
Defined.

(** *** Version gate *)



(** *** Last commit *)

Lemma fetchLastCommit_one_request (E : Env) (st : State) :
  let r := repository st in
  let repo := show (RepositoryInfo.repo r) in
  let branch := show (RepositoryInfo.branch r) in
  let req :=
    Request.mk
      ("/repos/" ++ RepositoryInfo.owner r ++ "/" ++ repo ++ "/branches/"
         ++ branch) GET NoBody in
  match branchApi E (exchanges st) req with
  | inr response =>
      fetchLastCommit E st
      = (Returned (commit_id response, commit_message response),
         logExchange (Exchange.mk req None) st)
  | inl e =>
      fetchLastCommit E st
      = (Thrown (newError "Failed to retrieve the last commit hash."
                   (localize E "branch_not_found"
                      [("repo", repo); ("branch", branch)])),
         logExchange (Exchange.mk req (Some e)) st)
  end.
Proof.
  cbv zeta. unfold fetchLastCommit, bind, gets, tryCatch, fetchAPI, ret, throw.
  destruct (branchApi E _ _); reflexivity.
Qed.

(** X7 ([fetchDefaultBranchName], [fetchLastCommit],
    [checkRepositoryAccess]).  The errors these functions throw, for
    [checkRepositoryAccess] those it does not rethrow as they came, are built
    with [new Error(message, { cause: new Error(localized) })], so the HTTP
    status of the failed request is gone: the status test of
    [signInAutomatically] never takes them for an authentication error. *)
Theorem wrapped_errors_lose_status (E : Env) (st st' : State) (e : Error) :
  fetchDefaultBranchName E st = (Thrown e, st')
  \/ fetchLastCommit E st = (Thrown e, st')
  \/ (checkRepositoryAccess E st = (Thrown e, st')
      /\ includes "Not a collaborator" (message e) = false) ->
  (exists msg localized, e = newError msg localized)
  /\ Auth.needsReauthentication e = false.
Proof.
  intros [H | [H | [H Hraw]]].
  - apply fetchDefaultBranchName_rejection in H as [-> _].
    split; [eauto|reflexivity].
  - pose proof (fetchLastCommit_one_request E st) as Hrun. cbv zeta in Hrun.
    destruct (branchApi E _ _); rewrite Hrun in H; [|discriminate].
    injection H as <- _. split; [eauto|reflexivity].
  - revert H. unfold checkRepositoryAccess, bind at 1, gets at 1, tryCatch,
      bind at 1.
    destruct (cachedRepositoryInfo E st) as [[response|e0|] st0].
    + destruct (negb _); [|discriminate]. unfold throw at 1.
      cbn [message newError]. cbn [includes prefix]. cbn.
      intro H. injection H as <- _. split; [eauto|reflexivity].
    + destruct (includes "Not a collaborator" (message e0)) eqn:Hinc.
      * unfold throw. intro H. injection H as <- _. congruence.
      * unfold throw. intro H. injection H as <- _. split; [eauto|reflexivity].
    + discriminate.
Qed.

Lemma wrapped_errors_lose_status_witness :
  let E := Examples.env (Examples.refuse 401) (Examples.refuse 401)
             (Examples.refuse 401) (Examples.refuse 401) (Examples.refuse 401) in
  Auth.needsReauthentication
    (mkError "Error" "Server responded with an error"
       (Some (mkCause "" (Some 401%Z)))) = true
  /\ Auth.needsReauthentication
       (newError "Failed to check repository access" "repository_not_found")
     = false.
Proof.
  intro E. split; [reflexivity|].
  apply (wrapped_errors_lose_status E Examples.ready
           (snd (checkRepositoryAccess E Examples.ready))
           (newError "Failed to check repository access" "repository_not_found")).
  right. right. split; reflexivity.
Defined.

(** *** Bulk content fetch against a provider that holds the texts *)

Lemma textOf_encoded (text : string) (st : State) :
  textOf (Some (Contents.mk (Some (Base64.encodeBase64 text)) (Some "base64")))
    st
  = (Returned text, st).
Proof.
  unfold textOf, Base64.encodeBase64.
  cbn [Contents.content Contents.encoding show truthy].
  destruct (String.eqb (Base64.encode text) "") eqn:Hempty.
  - apply String.eqb_eq in Hempty.
    rewrite (proj1 (Base64Facts.encode_empty_iff text) Hempty). reflexivity.
  - cbn. unfold Base64.decodeBase64. now rewrite Base64Facts.decode_encode.
Qed.

Section TextProvider.

Variable E : Env.
Variable texts : string -> string.
Hypothesis provider : contentsApi E = textProvider texts.

Let item (p : string) : option Contents.t :=
  Some (Contents.mk (Some (Base64.encodeBase64 (texts p))) (Some "base64")).

Let entry (file : FileItem.t) : string * FileData.t :=
  (FileItem.path file,
   FileData.mk (FileItem.sha file) (orDefault (FileItem.size file) 0%Z)
     (texts (FileItem.path file))).

Lemma fetchBatches_collects (requestPath : string) (total : nat) (perPage : Z) :
  (1 <= Z.to_nat perPage)%nat ->
  forall fuel paths results st,
    (1 <= fuel)%nat -> (List.length paths <= fuel)%nat ->
    fst (fetchBatches E fuel requestPath total perPage paths results st)
    = Returned (results ++ map item paths)%list.
Proof.
  intros Hpage. induction fuel as [|fuel IH]; intros paths results st Hfuel Hlen;
    [lia|].
  cbn [fetchBatches]. unfold splice.
  set (b := Z.to_nat perPage) in *.
  assert (Hb : (1 <= b)%nat) by exact Hpage.
  unfold bind at 1, fetchAPI. rewrite provider. unfold textProvider at 1.
  cbn [Request.body]. unfold bind at 1, modify.
  fold item.
  destruct (skipn b paths) as [|p rest] eqn:Hskip; cbn [isNil].
  - cbn. f_equal.
    rewrite <- (firstn_skipn b paths) at 2. now rewrite Hskip, app_nil_r.
  - assert (Hrest : (List.length (p :: rest) < List.length paths)%nat).
    { rewrite <- Hskip, length_skipn.
      destruct paths; [rewrite skipn_nil in Hskip; discriminate|].
      cbn [List.length]. lia. }
    clearbody b. cbn [List.length] in Hrest.
    rewrite IH by (cbn [List.length]; lia).
    f_equal. rewrite <- app_assoc, <- map_app, <- Hskip, firstn_skipn.
    reflexivity.
Qed.

Let blank (file : FileItem.t) : string * FileData.t :=
  (FileItem.path file,
   FileData.mk (FileItem.sha file) (orDefault (FileItem.size file) 0%Z) "").

Lemma parseEntries_beyond (files : list FileItem.t) :
  forall index (results : list (option Contents.t)) st,
    (List.length results <= index)%nat ->
    parseEntries files index results st = (Returned (map blank files), st).
Proof.
  induction files as [|file rest IH]; intros index results st Hlen;
    [reflexivity|].
  cbn [parseEntries map]. unfold bind at 1, resultAt.
  rewrite (proj2 (nth_error_None results index) Hlen). cbn [textOf].
  unfold ret at 1. unfold bind at 1. rewrite IH by lia. reflexivity.
Qed.

Lemma parseEntries_aligned (entries assets : list FileItem.t) :
  forall (before : list (option Contents.t)) st,
    parseEntries (entries ++ assets) (List.length before)
      (before ++ map item (map FileItem.path entries))%list st
    = (Returned (map entry entries ++ map blank assets)%list, st).
Proof.
  induction entries as [|file rest IH]; intros before st.
  - cbn [map app]. rewrite app_nil_r. apply parseEntries_beyond. lia.
  - cbn [parseEntries map app]. unfold bind at 1.
    assert (Hat : resultAt (before ++ item (FileItem.path file)
                              :: map item (map FileItem.path rest))%list
                    (List.length before)
                  = item (FileItem.path file)).
    { unfold resultAt. rewrite nth_error_app2, Nat.sub_diag by lia.
      reflexivity. }
    rewrite Hat. unfold item at 1. rewrite textOf_encoded.
    unfold bind at 1.
    replace (before ++ item (FileItem.path file)
               :: map item (map FileItem.path rest))%list
      with ((before ++ [item (FileItem.path file)])
              ++ map item (map FileItem.path rest))%list
      by (rewrite <- app_assoc; reflexivity).
    replace (S (List.length before))
      with (List.length (before ++ [item (FileItem.path file)])%list)
      by (rewrite length_app; cbn; lia).
    rewrite IH. reflexivity.
Qed.

Lemma filter_none {A} (f : A -> bool) (l : list A) :
  forallb f l = true -> filter (fun x => negb (f x)) l = [].
Proof.
  induction l as [|a l IH]; cbn; [reflexivity|].
  intro H. apply andb_true_iff in H as [-> H]. cbn. auto.
Qed.

Lemma assign_fresh {A} (key : string) (value : A) (obj : list (string * A)) :
  ~ In key (map fst obj) -> assign key value obj = (obj ++ [(key, value)])%list.
Proof.
  induction obj as [|[k v] obj IH]; cbn; [reflexivity|].
  intro Hfresh. destruct (String.eqb_spec k key) as [->|_].
  - exfalso. apply Hfresh. now left.
  - f_equal. apply IH. intro Hin. apply Hfresh. now right.
Qed.

Lemma fromEntries_distinct {A} (entries : list (string * A)) :
  NoDup (map fst entries) -> fromEntries entries = entries.
Proof.
  unfold fromEntries.
  assert (Hgen : forall done,
            NoDup (map fst (done ++ entries)) ->
            fold_left (fun obj kv => assign (fst kv) (snd kv) obj) entries done
            = (done ++ entries)%list).
  { induction entries as [|[k v] rest IH]; intros done Hnodup; cbn.
    - now rewrite app_nil_r.
    - rewrite assign_fresh.
      + rewrite IH; rewrite <- app_assoc; [reflexivity|exact Hnodup].
      + rewrite map_app in Hnodup. cbn in Hnodup.
        apply NoDup_remove_2 in Hnodup. intro Hin. apply Hnodup.
        apply in_or_app. now left. }
  intro Hnodup. apply (Hgen [] Hnodup).
Qed.


End TextProvider.


(** *** Commit *)

Lemma toFileOperation_never_move (change : FileChange.t) :
  FileOperation.operation (toFileOperation change) <> move.
Proof.
  unfold toFileOperation. cbn. destruct (FileChange.action change); discriminate.
Qed.

(** X9 ([commitChanges]).  Without a signed-in user [commitChanges] throws
    before any request.  Otherwise it sends exactly one
    [POST /repos/{owner}/{repo}/contents] on the current branch, with the
    user as both author and committer, one date for both, one file
    operation per change in order with its path and previous path, and no
    operation called [move]; the provider's answer or error is passed
    through. *)
Theorem commit_request_shape (E : Env) (st : State)
    (changes : list FileChange.t) (options : CommitChangesOptions) :
  match user st with
  | None =>
      exists e, commitChanges E changes options st = (Thrown e, st)
  | Some u =>
      exists body,
        let req :=
          Request.mk
            ("/repos/" ++ RepositoryInfo.owner (repository st) ++ "/"
               ++ show (RepositoryInfo.repo (repository st)) ++ "/contents")
            POST (CommitRequest body) in
        commitChanges E changes options st
        = match commitApi E (exchanges st) req with
          | inr response =>
              (Returned (commit_html_url response),
               logExchange (Exchange.mk req None) st)
          | inl e => (Thrown e, logExchange (Exchange.mk req (Some e)) st)
          end
        /\ CommitBody.branch body = RepositoryInfo.branch (repository st)
        /\ CommitBody.author body = CommitBody.committer body
        /\ Identity.name (CommitBody.author body) = User.name u
        /\ Identity.email (CommitBody.author body) = User.email u
        /\ fst (CommitBody.dates body) = snd (CommitBody.dates body)
        /\ map FileOperation.path (CommitBody.files body)
           = map FileChange.path changes
        /\ map FileOperation.from_path (CommitBody.files body)
           = map FileChange.previousPath changes
        /\ Forall (fun op => FileOperation.operation op <> move)
             (CommitBody.files body)
  end.
Proof.
  destruct (user st) as [u|] eqn:Huser.
  - unfold commitChanges, bind, gets, fetchAPI, ret. rewrite Huser. cbv zeta.
    match goal with
    | |- context [commitApi E _ (Request.mk _ POST (CommitRequest ?b))] =>
        exists b
    end.
    split.
    + destruct (commitApi E _ _); reflexivity.
    + cbn. repeat split; try reflexivity.
      * rewrite map_map. reflexivity.
      * rewrite map_map. reflexivity.
      * apply Forall_map, Forall_forall. intros change _.
        apply toFileOperation_never_move.
  - unfold commitChanges, bind, gets, throw. rewrite Huser. eauto.
Qed.

(** *** Sign-in *)

(** X10 ([signIn]).  With a token, [signIn] never touches the OAuth helpers:
    two browsers with the same [/user] provider behave alike.  Without a
    token, an automatic sign-in outside the popup returns [undefined] and
    changes nothing, and inside the popup only the popup handler runs and
    [undefined] is returned. *)
Theorem signIn_interactive_only_on_request (B B' : Browser)
    (options : SignInOptions.t) (st : State) :
  (truthy (SignInOptions.token options) = true ->
   userApi B = userApi B' ->
   signIn B options st = signIn B' options st)
  /\ (truthy (SignInOptions.token options) = false ->
      SignInOptions.auto options = true ->
      inPopup B = false ->
      signIn B options st = (Returned None, st))
  /\ (truthy (SignInOptions.token options) = false ->
      inPopup B = true ->
      signIn B options st
      = match handleClientSideAuthPopup B backendName
                (ApiEndpointConfig.clientId (apiConfig st))
                (ApiEndpointConfig.tokenURL (apiConfig st)) st with
        | (Returned _, st') => (Returned None, st')
        | (Thrown e, st') => (Thrown e, st')
        | (Pending, st') => (Pending, st')
        end).
Proof.
  unfold signIn. repeat split.
  - intros -> Hapi. cbn [negb]. unfold getUserProfile. rewrite Hapi. reflexivity.
  - intros -> -> ->. reflexivity.
  - intros -> ->. cbn [negb orb]. unfold bind, gets, ret.
    destruct (handleClientSideAuthPopup B _ _ _ st) as [[[]|e|] st'];
      reflexivity.
Qed.

Lemma signIn_interactive_only_on_request_witness :
  signIn SessionExamples.mainWindow (SignInOptions.mk None None true)
    Examples.ready
  = (Returned None, Examples.ready).
Proof.
  exact (proj1 (proj2 (signIn_interactive_only_on_request
                         SessionExamples.mainWindow SessionExamples.mainWindow
                         (SignInOptions.mk None None true) Examples.ready))
           eq_refl eq_refl eq_refl).
Defined.



(** *** Assets *)

Lemma hexDigit_unreserved (n : nat) : isUnreserved (hexDigit n) = true.
Proof. do 16 (destruct n as [|n]; [reflexivity|]). reflexivity. Qed.

Lemma hexValue_hexDigit (n : nat) : (n < 16)%nat -> hexValue (hexDigit n) = n.
Proof.
  intro H. do 16 (destruct n as [|n]; [reflexivity|]). lia.
Qed.

Lemma includes_char_cons (c d : ascii) (s : string) :
  includes (String c EmptyString) (String d s)
  = Ascii.eqb c d || includes (String c EmptyString) s.
Proof.
  cbn [includes prefix]. destruct (Ascii.ascii_dec c d) as [->|Hne].
  - rewrite Ascii.eqb_refl. destruct s; reflexivity.
  - apply Ascii.eqb_neq in Hne. rewrite Hne. reflexivity.
Qed.

Lemma includes_char_append (c : ascii) (a b : string) :
  includes (String c EmptyString) (a ++ b)
  = includes (String c EmptyString) a || includes (String c EmptyString) b.
Proof.
  induction a as [|d a IH].
  - cbn [append]. destruct b; reflexivity.
  - cbn [append]. rewrite !includes_char_cons, IH. apply orb_assoc.
Qed.

(** X12 ([fetchBlob]).  The encoded asset path consists of unreserved
    characters and percent escapes only: no other character, such as [/],
    [?], [#] or [&], occurs in [encodeURIComponent(path)], so the asset path
    cannot alter the structure of the request URL. *)
Theorem encoded_asset_path_is_inert (assetPath : string) (c : ascii) :
  isUnreserved c = false ->
  c <> "%"%char ->
  includes (String c EmptyString) (encodeURIComponent assetPath) = false.
Proof.
  intros Hc Hpercent.
  assert (Hsafe : forall d, isUnreserved d = true -> Ascii.eqb c d = false).
  { intros d Hd. apply Ascii.eqb_neq. intros ->. congruence. }
  induction assetPath as [|d rest IH]; [reflexivity|].
  cbn [encodeURIComponent]. rewrite includes_char_append, IH, orb_false_r.
  destruct (isUnreserved d) eqn:Hd.
  - rewrite includes_char_cons, (Hsafe d Hd). reflexivity.
  - unfold escape. rewrite !includes_char_cons.
    rewrite (Hsafe (hexDigit (nat_of_ascii d / 16)) (hexDigit_unreserved _)).
    rewrite (Hsafe (hexDigit (nat_of_ascii d mod 16)) (hexDigit_unreserved _)).
    apply Ascii.eqb_neq in Hpercent. rewrite Hpercent. reflexivity.
Qed.

Lemma encoded_asset_path_is_inert_witness :
  Forall (fun c => includes (String c EmptyString)
                     (encodeURIComponent "img/a b?x=1&y#z.png") = false)
    ["/"; "?"; "&"; "#"; "="; " "]%char.
Proof.
  repeat (apply Forall_cons;
          [apply encoded_asset_path_is_inert; [reflexivity|discriminate]|]).
  apply Forall_nil.
Defined.

Lemma escape_injective (a b : ascii) : escape a = escape b -> a = b.
Proof.
  unfold escape. intro H. injection H as Hhi Hlo.
  pose proof (nat_ascii_bounded a) as Ha.
  pose proof (nat_ascii_bounded b) as Hb.
  assert (Hhi' : hexValue (hexDigit (nat_of_ascii a / 16))
                 = hexValue (hexDigit (nat_of_ascii b / 16)))
    by (f_equal; exact Hhi).
  assert (Hlo' : hexValue (hexDigit (nat_of_ascii a mod 16))
                 = hexValue (hexDigit (nat_of_ascii b mod 16)))
    by (f_equal; exact Hlo).
  rewrite !hexValue_hexDigit in Hhi'
    by (apply Nat.Div0.div_lt_upper_bound; lia).
  rewrite !hexValue_hexDigit in Hlo' by (apply Nat.mod_upper_bound; lia).
  rewrite <- (ascii_nat_embedding a), <- (ascii_nat_embedding b).
  f_equal.
  rewrite (Nat.div_mod_eq (nat_of_ascii a) 16),
    (Nat.div_mod_eq (nat_of_ascii b) 16).
  congruence.
Qed.

Lemma encodeURIComponent_injective (a : string) :
  forall b, encodeURIComponent a = encodeURIComponent b -> a = b.
Proof.
  induction a as [|c a IH]; intros [|d b]; cbn [encodeURIComponent].
  - reflexivity.
  - destruct (isUnreserved d); discriminate.
  - destruct (isUnreserved c); discriminate.
  - destruct (isUnreserved c) eqn:Hc, (isUnreserved d) eqn:Hd.
    + cbn [append]. intro H. injection H as -> H. f_equal. auto.
    + cbn [append escape]. intro H. injection H as -> _. discriminate Hc.
    + cbn [append escape]. intro H. injection H as <- _. discriminate Hd.
    + unfold escape.
      set (c1 := hexDigit (nat_of_ascii c / 16)).
      set (c2 := hexDigit (nat_of_ascii c mod 16)).
      set (d1 := hexDigit (nat_of_ascii d / 16)).
      set (d2 := hexDigit (nat_of_ascii d mod 16)).
      cbn [append]. intro H. injection H as H1 H2 H.
      f_equal; [|auto].
      apply escape_injective. unfold escape. fold c1 c2 d1 d2. congruence.
Qed.

Lemma append_cancel_l (p a b : string) : p ++ a = p ++ b -> a = b.
Proof. induction p; cbn; intro H; [assumption|]. injection H as H. auto. Qed.

Lemma append_cancel_r (s a : string) :
  forall b, a ++ s = b ++ s -> a = b.
Proof.
  induction a as [|c a IH]; intros [|d b] H.
  - reflexivity.
  - exfalso. apply (f_equal String.length) in H.
    cbn [append String.length] in H.
    rewrite GiteaFacts.length_append in H. lia.
  - exfalso. apply (f_equal String.length) in H.
    cbn [append String.length] in H.
    rewrite GiteaFacts.length_append in H. lia.
  - cbn in H. injection H as -> H. f_equal. auto.
Qed.

(** X13 ([fetchBlob]).  [fetchBlob] sends exactly one request, a [GET] of
    the media endpoint with the encoded path and the branch as [ref], and
    logs its failure if any; two assets of one repository with different
    paths are never fetched from the same URL. *)
Theorem fetchBlob_one_url_per_asset (mediaApi : Api string) (st : State)
    (a b : string) :
  a <> b ->
  let path x := blobRequestPath (repository st) x in
  exchanges (snd (fetchBlob mediaApi a st))
  = (exchanges st
       ++ [Exchange.mk (Request.mk (path a) GET NoBody)
             match mediaApi (exchanges st) (Request.mk (path a) GET NoBody) with
             | inl e => Some e
             | inr _ => None
             end])%list
  /\ path a <> path b.
Proof.
  intro Hab. cbv zeta. split.
  - unfold fetchBlob, bind, gets, fetchAPI.
    destruct (mediaApi _ _); reflexivity.
  - unfold blobRequestPath. intro H. apply Hab.
    repeat (apply append_cancel_l in H).
    apply append_cancel_r in H. now apply encodeURIComponent_injective.
Qed.

Lemma fetchBlob_one_url_per_asset_witness :
  blobRequestPath (repository Examples.ready) "images/a b.png"
  <> blobRequestPath (repository Examples.ready) "images/a%20b.png".
Proof.
  exact (proj2 (fetchBlob_one_url_per_asset (Examples.answer "")
                  Examples.ready "images/a b.png" "images/a%20b.png"
                  ltac:(discriminate))).
Defined.

End GiteaMore.

(* ================================================================== *)
(** * Further properties of the sign-in flows                           *)
(* ================================================================== *)

Module AuthMore.
Import Js Auth AuthSession.

Ltac step_flow :=
  unfold bind, gets, modify, ret, throw, tryCatch, callSignIn, callFetchFiles,
    currentBackend, onStores;
  cbn [backendName setBackendName setUser setUnauthenticated setSignInError
       setPrefs logCall goto consoleError setItem setWorld world
       unauthenticated siteConfigBackendName calls signInError user prefs
       localStorage locationPath console negb fst snd stores dataLoaded].

(** *** The signed-out sentinel *)

(** X14 ([signInAutomatically]).  When the [sveltia-cms.user] item is the
    empty object, [signInAutomatically] returns at once and changes nothing,
    even if a Decap or Netlify CMS user is cached. *)
Theorem signed_out_sentinel_stops_auto_sign_in {W : Type} (E : Env W)
    (st : State W) :
  lookup "sveltia-cms.user" (localStorage st) = VObject [] ->
  signInAutomatically E st = (Returned tt, st).
Proof.
  intro Hsentinel.
  unfold signInAutomatically, bind at 1, gets at 1, readUserCache.
  rewrite Hsentinel. reflexivity.
Qed.

Lemma signed_out_sentinel_stops_auto_sign_in_witness :
  let st :=
    mkState noError true None VUndefined [] (Some "gitea")
      [("decap-cms-user", AuthExamples.cachedUser);
       ("sveltia-cms.user", VObject [])] "/" [] [] O in
  signInAutomatically
    (AuthExamples.env (AuthExamples.rejectingFetch AuthExamples.unauthorized))
    st = (Returned tt, st).
Proof.
  intro st. apply signed_out_sentinel_stops_auto_sign_in. reflexivity.
Defined.

Lemma lookup_assign_same (key : string) (value : Value)
    (obj : list (string * Value)) :
  lookup key (assign key value obj) = value.
Proof.
  induction obj as [|[k v] obj IH]; cbn.
  - now rewrite String.eqb_refl.
  - destruct (String.eqb k key) eqn:Hk; cbn; rewrite Hk; auto.
Qed.

(** X15 ([signOut], [signInAutomatically]).  After a [signOut] whose
    backend sign-out succeeded, the backend name and the user are cleared,
    [unauthenticated] is [true], [dataLoaded] is [false], and a following
    [signInAutomatically] does nothing.  If the backend's sign-out throws,
    [signOut] rejects with that error and none of the stores, nor the local
    storage, is changed. *)
Theorem signOut_then_auto_sign_in_is_idle {W : Type} (E : Env W)
    (signOutOf : string -> W -> Outcome unit * W) (s : Session W) :
  match fst (callSignOut E signOutOf s) with
  | Returned _ =>
      let s' := snd (signOut E signOutOf s) in
      fst (signOut E signOutOf s) = Returned tt
      /\ backendName (stores s') = None
      /\ user (stores s') = VUndefined
      /\ unauthenticated (stores s') = true
      /\ dataLoaded s' = false
      /\ signInAutomatically E (stores s') = (Returned tt, stores s')
  | Thrown e =>
      let s' := snd (signOut E signOutOf s) in
      fst (signOut E signOutOf s) = Thrown e
      /\ backendName (stores s') = backendName (stores s)
      /\ user (stores s') = user (stores s)
      /\ unauthenticated (stores s') = unauthenticated (stores s)
      /\ localStorage (stores s') = localStorage (stores s)
      /\ dataLoaded s' = dataLoaded s
  | Pending => fst (signOut E signOutOf s) = Pending
  end.
Proof.
  destruct (callSignOut E signOutOf s) as [[[]|e|] s0] eqn:Hcall; cbn [fst].
  - assert (Hrun : signOut E signOutOf s
                   = (Returned tt,
                      mkSession
                        (setUnauthenticated true
                           (setUser VUndefined
                              (setBackendName None
                                 (setItem "sveltia-cms.user" (VObject [])
                                    (stores s0)))))
                        false)).
    { unfold signOut, bind at 1. rewrite Hcall. reflexivity. }
    rewrite Hrun. cbn [fst snd stores dataLoaded]. repeat split.
    unfold signInAutomatically, bind at 1, gets at 1, readUserCache.
    cbn [localStorage setUnauthenticated setUser setBackendName setItem].
    rewrite lookup_assign_same. reflexivity.
  - assert (Hrun : signOut E signOutOf s = (Thrown e, s0)).
    { unfold signOut, bind at 1. rewrite Hcall. reflexivity. }
    rewrite Hrun. cbn [fst snd].
    revert Hcall. unfold callSignOut.
    destruct (backendName (stores s)) as [n|] eqn:Hn; [|discriminate].
    destruct (backends E n); [|discriminate].
    destruct (signOutOf n _) as [out w]. intro H. injection H as -> <-.
    cbn. repeat split. exact Hn.
  - unfold signOut, bind at 1. rewrite Hcall. reflexivity.
Qed.

(** *** Automatic sign-in with a cached user *)

Lemma cached_object_has_keys (v : Value) (key : string) :
  truthy (prop v key) = true -> (keyCount v =? 0)%nat = false.
Proof.
  destruct v as [| | | | | |props]; try discriminate.
  destruct props; [discriminate|reflexivity].
Qed.

Lemma cached_object_truthy (v : Value) : isObject v = true -> truthy v = true.
Proof. destruct v; try discriminate; reflexivity. Qed.

(** X16 ([signInAutomatically]).  With a cached user accepted by the
    backend, a failing [fetchFiles] never makes [signInAutomatically]
    reject.  The user stays set and both backend calls were made; if the
    error's status is 401, 403 or 404 only [unauthenticated] becomes
    [true], without an error message or a console line; for every other
    error the user stays authenticated and the error is shown and logged by
    [logError]. *)
Theorem auto_sign_in_fetch_failure {W : Type} (E : Env W) (st : State W)
    (service : BackendService W) (configured : string) (ex : Error)
    (u : Value) (w w' : W) :
  let userCache := readUserCache st in
  let options :=
    mkSignInOptions (prop userCache "token") (prop userCache "refreshToken")
      true in
  let selected := if usesLocalBackend userCache then "local" else configured in
  isObject userCache = true ->
  truthy (prop userCache "backendName") = true ->
  siteConfigBackendName st = Some configured ->
  backends E selected = Some service ->
  signIn service options (world st) = (Returned u, w) ->
  truthy u = true ->
  fetchFiles service w = (Thrown ex, w') ->
  exists st',
    signInAutomatically E st = (Returned tt, st')
    /\ user st' = u
    /\ calls st' = (calls st ++ [SignInCall options; FetchFilesCall])%list
    /\ (if needsReauthentication ex
        then unauthenticated st' = true
             /\ signInError st' = signInError st
             /\ console st' = console st
        else unauthenticated st' = false
             /\ signInError st'
                = signInError (snd (logError E ex (setBackendName (Some selected) st)))
             /\ console st' = (console st ++ [(message ex, cause ex)])%list).
Proof.
  intros userCache options selected Hobject Hname Hconfig Hbackend Hsign Hu
    Hfetch.
  pose proof (cached_object_has_keys _ _ Hname) as Hkeys.
  pose proof (cached_object_truthy _ Hobject) as Htruthy.
  unfold signInAutomatically, cachedUserOf. unfold bind at 1, gets at 1.
  fold userCache. unfold options, selected in *. clearbody userCache.
  rewrite Hobject, Hkeys, Hname. cbn [andb].
  destruct (usesLocalBackend userCache); step_flow;
    rewrite ?Hconfig, Hbackend, Htruthy; step_flow; rewrite ?Htruthy;
    step_flow; rewrite Hsign; step_flow; rewrite Hu; step_flow;
    rewrite Hfetch; step_flow.
  all: destruct (needsReauthentication ex); step_flow.
  all: try (eexists; repeat split; cbn; rewrite <- ?app_assoc; reflexivity).
  all: unfold logError; step_flow;
    destruct (String.eqb (name ex) "NotFoundError"),
      (String.eqb (name ex) "AbortError");
    eexists; repeat split; cbn; rewrite <- ?app_assoc; reflexivity.
Qed.

Lemma auto_sign_in_fetch_failure_witness :
  (exists st',
     signInAutomatically
       (AuthExamples.env (AuthExamples.rejectingFetch FlowExamples.forbidden))
       AuthExamples.returning = (Returned tt, st')
     /\ unauthenticated st' = true
     /\ signInError st' = noError)
  /\ (exists st',
        signInAutomatically
          (AuthExamples.env
             (AuthExamples.rejectingFetch FlowExamples.serverError))
          AuthExamples.returning = (Returned tt, st')
        /\ unauthenticated st' = false
        /\ signInError st' = mkSignInError "Internal Server Error" false).
Proof.
  split.
  - destruct (auto_sign_in_fetch_failure
                (AuthExamples.env
                   (AuthExamples.rejectingFetch FlowExamples.forbidden))
                AuthExamples.returning
                (AuthExamples.rejectingFetch FlowExamples.forbidden)
                "gitea" FlowExamples.forbidden
                (VObject [("backendName", VString "gitea");
                          ("token", VString "expired")]) 1%nat 2%nat
                eq_refl eq_refl eq_refl eq_refl eq_refl eq_refl eq_refl)
      as [st' [Hrun [_ [_ Hsoft]]]].
    exists st'. split; [exact Hrun|]. cbn in Hsoft. tauto.
  - destruct (auto_sign_in_fetch_failure
                (AuthExamples.env
                   (AuthExamples.rejectingFetch FlowExamples.serverError))
                AuthExamples.returning
                (AuthExamples.rejectingFetch FlowExamples.serverError)
                "gitea" FlowExamples.serverError
                (VObject [("backendName", VString "gitea");
                          ("token", VString "expired")]) 1%nat 2%nat
                eq_refl eq_refl eq_refl eq_refl eq_refl eq_refl eq_refl)
      as [st' [Hrun [_ [_ Hhard]]]].
    exists st'. split; [exact Hrun|]. cbn in Hhard. tauto.
Defined.

(** X17 ([signInAutomatically]).  With a cached user accepted by the
    backend and a successful [fetchFiles], the user is signed in: the [user]
    store holds the backend's user, [unauthenticated] is [false], the error
    is reset, the preferences and the location are untouched, and the
    backend saw [signIn] with the cached tokens and [auto: true], then
    [fetchFiles]. *)
Theorem auto_sign_in_success {W : Type} (E : Env W) (st : State W)
    (service : BackendService W) (configured : string) (u : Value)
    (w w' : W) :
  let userCache := readUserCache st in
  let options :=
    mkSignInOptions (prop userCache "token") (prop userCache "refreshToken")
      true in
  isObject userCache = true ->
  truthy (prop userCache "backendName") = true ->
  siteConfigBackendName st = Some configured ->
  backends E (if usesLocalBackend userCache then "local" else configured)
    = Some service ->
  signIn service options (world st) = (Returned u, w) ->
  truthy u = true ->
  fetchFiles service w = (Returned tt, w') ->
  exists st',
    signInAutomatically E st = (Returned tt, st')
    /\ unauthenticated st' = false
    /\ user st' = u
    /\ signInError st' = noError
    /\ prefs st' = prefs st
    /\ locationPath st' = locationPath st
    /\ world st' = w'
    /\ calls st' = (calls st ++ [SignInCall options; FetchFilesCall])%list.
Proof.
  intros userCache options Hobject Hname Hconfig Hbackend Hsign Hu Hfetch.
  pose proof (cached_object_has_keys _ _ Hname) as Hkeys.
  pose proof (cached_object_truthy _ Hobject) as Htruthy.
  unfold signInAutomatically, cachedUserOf. unfold bind at 1, gets at 1.
  fold userCache. unfold options in *. clearbody userCache.
  rewrite Hobject, Hkeys, Hname. cbn [andb].
  destruct (usesLocalBackend userCache); step_flow;
    rewrite ?Hconfig, Hbackend, Htruthy; step_flow; rewrite ?Htruthy;
    step_flow; rewrite Hsign; step_flow; rewrite Hu; step_flow;
    rewrite Hfetch; step_flow;
    eexists; repeat split; cbn; rewrite <- ?app_assoc; reflexivity.
Qed.

Lemma auto_sign_in_success_witness :
  exists st',
    signInAutomatically (FlowExamples.env FlowExamples.working)
      AuthExamples.returning = (Returned tt, st')
    /\ unauthenticated st' = false
    /\ calls st'
       = [SignInCall (mkSignInOptions (VString "expired") VUndefined true);
          FetchFilesCall].
Proof.
  destruct (auto_sign_in_success (FlowExamples.env FlowExamples.working)
              AuthExamples.returning FlowExamples.working "gitea"
              (VObject [("backendName", VString "gitea");
                        ("token", VString "expired")]) 1%nat 2%nat
              eq_refl eq_refl eq_refl eq_refl eq_refl eq_refl eq_refl)
    as [st' [Hrun [Hauth [_ [_ [_ [_ [_ Hcalls]]]]]]]].
  exists st'. split; [exact Hrun|]. split; [exact Hauth|exact Hcalls].
Defined.

(** *** What [logError] shows *)

Lemma logError_run {W : Type} (E : Env W) (ex : Error) (st : State W) :
  logError E ex st
  = (Returned tt,
     consoleError (message ex) (cause ex)
       (setSignInError (signInError (snd (logError E ex st))) st)).
Proof.
  unfold logError; step_flow.
  destruct (String.eqb (name ex) "NotFoundError"),
    (String.eqb (name ex) "AbortError"); reflexivity.
Qed.

(** X18 ([logError]).  When every localization is non-empty, the message
    [logError] shows is never empty.  [canRetry] is [true] exactly for a
    [NotFoundError] or an [AbortError]; for every other error the message is
    the cause's message, or [unexpected_error] when the cause is missing or
    its message is empty. *)
Theorem logError_message_never_empty {W : Type} (E : Env W) (ex : Error)
    (st : State W) :
  (forall key, localize E key <> "") ->
  let shown := signInError (snd (logError E ex st)) in
  error_message shown <> ""
  /\ canRetry shown
     = (String.eqb (name ex) "NotFoundError"
        || String.eqb (name ex) "AbortError")
  /\ (canRetry shown = false ->
      match cause ex with
      | Some c =>
          error_message shown
          = if String.eqb (cause_message c) "" then localize E "unexpected_error"
            else cause_message c
      | None => error_message shown = localize E "unexpected_error"
      end).
Proof.
  intros Hlocalized shown. subst shown. unfold logError; step_flow.
  destruct (String.eqb (name ex) "NotFoundError") eqn:Hnf,
    (String.eqb (name ex) "AbortError") eqn:Hab; cbn;
    repeat split; auto; try discriminate.
  - destruct (cause ex) as [c|]; cbn; [|apply Hlocalized].
    destruct (String.eqb (cause_message c) "") eqn:Hc; cbn;
      [apply Hlocalized|].
    intro Hempty. rewrite Hempty in Hc. discriminate.
  - intros _. destruct (cause ex) as [c|]; cbn; [|reflexivity].
    destruct (String.eqb (cause_message c) ""); reflexivity.
Qed.

Lemma logError_message_never_empty_witness :
  error_message
    (signInError
       (snd (logError (FlowExamples.env FlowExamples.working)
               (mkError "Error" "Network error" (Some (mkCause "" None)))
               AuthExamples.returning)))
  = "[unexpected_error]".
Proof.
  destruct (logError_message_never_empty
              (FlowExamples.env FlowExamples.working)
              (mkError "Error" "Network error" (Some (mkCause "" None)))
              AuthExamples.returning)
    as [_ [_ Hmessage]].
  - intros key Hempty. discriminate Hempty.
  - exact (Hmessage eq_refl).
Defined.

(** *** A visit without a cached user *)

Lemma not_signed_out (v : Value) :
  v <> VObject [] -> (isObject v && (keyCount v =? 0)%nat) = false.
Proof.
  intro Hv. destruct v as [| | | | | |props]; try reflexivity.
  destruct props; [contradiction|reflexivity].
Qed.

(** X19 ([signInAutomatically]).  A visit without a usable cached user and
    without a sign-in link in the location only selects the configured
    backend and sets [unauthenticated]: no backend call is made and nothing
    else changes, whether or not the backend exists. *)
Theorem visit_without_cache_or_link {W : Type} (E : Env W) (st : State W)
    (configured : string) :
  readUserCache st <> VObject [] ->
  cachedUserOf (readUserCache st) = VUndefined ->
  siteConfigBackendName st = Some configured ->
  encodedDataOf (locationPath st) = "" ->
  signInAutomatically E st
  = (Returned tt,
     setUnauthenticated true (setBackendName (Some configured) st)).
Proof.
  intros Hsentinel Hcached Hconfig Hlink.
  unfold signInAutomatically. unfold bind at 1, gets at 1.
  rewrite Hcached, (not_signed_out _ Hsentinel).
  change (usesLocalBackend VUndefined) with false.
  change (truthy VUndefined) with false.
  step_flow. rewrite Hconfig. step_flow.
  destruct (backends E configured); [|reflexivity].
  unfold readSignInLink. step_flow. rewrite Hlink. reflexivity.
Qed.

Lemma visit_without_cache_or_link_witness :
  signInAutomatically (FlowExamples.env FlowExamples.working)
    (FlowExamples.firstVisit "/collections/posts")
  = (Returned tt,
     setUnauthenticated true
       (setBackendName (Some "gitea")
          (FlowExamples.firstVisit "/collections/posts"))).
Proof.
  apply visit_without_cache_or_link.
  - discriminate.
  - reflexivity.
  - reflexivity.
  - reflexivity.
Defined.

(** *** Sign-in links *)

(** X20 ([signInAutomatically]).  A sign-in link is consumed: whatever the
    link holds and however the backend answers, the location is replaced by
    the empty path.  Only a link whose data is an object with a string
    [token] reaches the backend, as [signIn] with that token, no refresh
    token and [auto: true], followed by at most one [fetchFiles]; any other
    link leaves the user unauthenticated without a backend call. *)
Theorem sign_in_link_is_consumed {W : Type} (E : Env W) (st : State W)
    (service : BackendService W) (configured : string) :
  readUserCache st <> VObject [] ->
  cachedUserOf (readUserCache st) = VUndefined ->
  siteConfigBackendName st = Some configured ->
  backends E configured = Some service ->
  encodedDataOf (locationPath st) <> "" ->
  let st' := snd (signInAutomatically E st) in
  locationPath st' = ""
  /\ match decodeSignInData E (encodedDataOf (locationPath st)) with
     | Some (VObject data) =>
         match lookup "token" data with
         | VString token =>
             let options :=
               mkSignInOptions (VString token) VUndefined true in
             exists rest,
               calls st' = (calls st ++ SignInCall options :: rest)%list
               /\ (rest = [] \/ rest = [FetchFilesCall])
         | _ => calls st' = calls st /\ unauthenticated st' = true
         end
     | _ => calls st' = calls st /\ unauthenticated st' = true
     end.
Proof.
  intros Hsentinel Hcached Hconfig Hbackend Hlink st'. subst st'.
  destruct (signInAutomatically E st) as [out st'] eqn:Hrun. cbn [snd].
  revert Hrun.
  unfold signInAutomatically. unfold bind at 1, gets at 1.
  rewrite Hcached, (not_signed_out _ Hsentinel).
  change (usesLocalBackend VUndefined) with false.
  change (truthy VUndefined) with false.
  step_flow. rewrite Hconfig. step_flow. rewrite Hbackend.
  unfold readSignInLink. step_flow.
  apply String.eqb_neq in Hlink. rewrite Hlink. cbn [negb].
  destruct (decodeSignInData E (encodedDataOf (locationPath st)))
    as [data|]; [|intro H; injection H as <- <-; cbn; auto].
  destruct data as [| | | | | |data];
    try (intro H; injection H as <- <-; cbn; auto; fail).
  cbn [isObject prop andb].
  destruct (lookup "token" data) as [| | | |token| |] eqn:Htoken;
    try (intro H; injection H as <- <-; cbn; auto; fail).
  cbn [typeofString truthy lookup]. step_flow.
  change (prop (VObject [("token", VString token)]) "token")
    with (VString token).
  change (prop (VObject [("token", VString token)]) "refreshToken")
    with VUndefined.
  destruct (signIn service _ (world st)) as [[u|e|] w].
  - destruct (truthy u); cbn [negb];
      [|intro H; injection H as <- <-; cbn; split; [reflexivity|];
        exists []; auto].
    destruct (isObject (lookup "prefs" data));
      (destruct (fetchFiles service _) as [[[]|e|] w'];
       [intro H; injection H as <- <-
       |destruct (needsReauthentication e);
        [|rewrite logError_run]; intro H; injection H as <- <-
       |intro H; injection H as <- <-]);
      cbn; (split; [reflexivity|]); exists [FetchFilesCall];
      rewrite <- ?app_assoc; auto.
  - intro H; injection H as <- <-; cbn. split; [reflexivity|].
    exists []; auto.
  - intro H; injection H as <- <-; cbn. split; [reflexivity|].
    exists []; auto.
Qed.

Lemma sign_in_link_is_consumed_witness :
  let st :=
    FlowExamples.firstVisit
      "/signin/eyJ0b2tlbiI6InFyIiwicHJlZnMiOnsidGhlbWUiOiJkYXJrIn19" in
  let st' :=
    snd (signInAutomatically (FlowExamples.env FlowExamples.working) st) in
  locationPath st' = ""
  /\ exists rest,
       calls st'
       = SignInCall (mkSignInOptions (VString "qr") VUndefined true) :: rest.
Proof.
  intros st st'.
  destruct (sign_in_link_is_consumed (FlowExamples.env FlowExamples.working)
              st FlowExamples.working "gitea")
    as [Hpath Hcalls].
  - discriminate.
  - reflexivity.
  - reflexivity.
  - reflexivity.
  - discriminate.
  - split; [exact Hpath|].
    cbn in Hcalls. destruct Hcalls as [rest [Hcalls _]].
    exists rest. exact Hcalls.
Defined.

Lemma lookup_assign (key key' : string) (value : Value)
    (obj : list (string * Value)) :
  lookup key (assign key' value obj)
  = if String.eqb key' key then value else lookup key obj.
Proof.
  induction obj as [|[k v] obj IH]; cbn.
  - destruct (String.eqb key' key); reflexivity.
  - destruct (String.eqb k key') eqn:Hk; cbn.
    + apply String.eqb_eq in Hk. subst k.
      destruct (String.eqb key' key); reflexivity.
    + destruct (String.eqb k key) eqn:Hkey; [|exact IH].
      apply String.eqb_eq in Hkey. subst k.
      rewrite String.eqb_sym in Hk. now rewrite Hk.
Qed.

(** X21 ([signInAutomatically]).  Merging the preferences of a sign-in link
    into the current ones, a key of the link takes the link's value and
    every other key keeps its current value. *)
Theorem copied_prefs_override (current copied : list (string * Value))
    (key : string) :
  lookup key (mergePrefs current (VObject copied))
  = if existsb (fun kv => String.eqb (fst kv) key) copied
    then lookup key (rev copied)
    else lookup key current.
Proof.
  unfold mergePrefs. revert current.
  induction copied as [|[k v] copied IH]; intro current; [reflexivity|].
  cbn [fold_left existsb fst snd rev]. rewrite IH, lookup_assign.
  assert (Hsnoc : forall l,
             lookup key (l ++ [(k, v)])
             = if existsb (fun kv => String.eqb (fst kv) key) l
               then lookup key l
               else if String.eqb k key then v else VUndefined).
  { induction l as [|[k' v'] l IHl]; cbn; [reflexivity|].
    destruct (String.eqb k' key); [reflexivity|exact IHl]. }
  assert (Hrev : existsb (fun kv => String.eqb (fst kv) key) (rev copied)
                 = existsb (fun kv => String.eqb (fst kv) key) copied).
  { clear. induction copied as [|kv copied IHc]; [reflexivity|].
    cbn [rev existsb]. rewrite existsb_app, IHc. cbn [existsb].
    rewrite orb_false_r. apply orb_comm. }
  rewrite Hsnoc, Hrev.
  destruct (existsb (fun kv => String.eqb (fst kv) key) copied);
    [now rewrite orb_true_r|].
  rewrite orb_false_r. destruct (String.eqb k key); reflexivity.
Qed.

(** X22 ([signInAutomatically]).  After a valid sign-in link: if [signIn]
    returns a user, that user is stored and the link's preferences, if they
    are an object, are merged into the current ones, whatever [fetchFiles]
    does afterwards; if [signIn] returns nothing, the flow stops
    unauthenticated with the temporary [{ token }] user still in the [user]
    store; if [signIn] throws, the flow stops unauthenticated with the
    [user] store cleared.  Preferences are copied in the first case only. *)
Theorem sign_in_link_outcomes {W : Type} (E : Env W) (st : State W)
    (service : BackendService W) (configured token : string)
    (data : list (string * Value)) :
  readUserCache st <> VObject [] ->
  cachedUserOf (readUserCache st) = VUndefined ->
  siteConfigBackendName st = Some configured ->
  backends E configured = Some service ->
  encodedDataOf (locationPath st) <> "" ->
  decodeSignInData E (encodedDataOf (locationPath st)) = Some (VObject data) ->
  lookup "token" data = VString token ->
  let run := signInAutomatically E st in
  let st' := snd run in
  match signIn service (mkSignInOptions (VString token) VUndefined true)
          (world st) with
  | (Returned u, _) =>
      if truthy u
      then user st' = u
           /\ prefs st'
              = (if isObject (lookup "prefs" data)
                 then mergePrefs (prefs st) (lookup "prefs" data)
                 else prefs st)
      else fst run = Returned tt
           /\ unauthenticated st' = true
           /\ user st' = VObject [("token", VString token)]
           /\ prefs st' = prefs st
  | (Thrown _, _) =>
      fst run = Returned tt
      /\ unauthenticated st' = true
      /\ user st' = VUndefined
      /\ prefs st' = prefs st
  | (Pending, _) => fst run = Pending
  end.
Proof.
  intros Hsentinel Hcached Hconfig Hbackend Hlink Hdata Htoken run st'.
  subst st' run.
  destruct (signInAutomatically E st) as [out st'] eqn:Hrun. cbn [fst snd].
  revert Hrun.
  unfold signInAutomatically. unfold bind at 1, gets at 1.
  rewrite Hcached, (not_signed_out _ Hsentinel).
  change (usesLocalBackend VUndefined) with false.
  change (truthy VUndefined) with false.
  step_flow. rewrite Hconfig. step_flow. rewrite Hbackend.
  unfold readSignInLink. step_flow.
  apply String.eqb_neq in Hlink. rewrite Hlink, Hdata. cbn [negb].
  cbn [isObject prop andb]. rewrite Htoken.
  cbn [typeofString truthy lookup]. step_flow.
  change (prop (VObject [("token", VString token)]) "token")
    with (VString token).
  change (prop (VObject [("token", VString token)]) "refreshToken")
    with VUndefined.
  destruct (signIn service _ (world st)) as [[u|e|] w].
  - destruct (truthy u); cbn [negb];
      [|intro H; injection H as <- <-; cbn; auto].
    destruct (isObject (lookup "prefs" data));
      (destruct (fetchFiles service _) as [[[]|e|] w'];
       [intro H; injection H as <- <-
       |destruct (needsReauthentication e);
        [|rewrite logError_run]; intro H; injection H as <- <-
       |intro H; injection H as <- <-]);
      cbn; auto.
  - intro H; injection H as <- <-; cbn. auto.
  - intro H; injection H as <- <-; cbn. auto.
Qed.

Lemma sign_in_link_outcomes_witness :
  let st :=
    FlowExamples.firstVisit
      "/signin/eyJ0b2tlbiI6InFyIiwicHJlZnMiOnsidGhlbWUiOiJkYXJrIn19" in
  let st' :=
    snd (signInAutomatically (FlowExamples.env FlowExamples.working) st) in
  user st' = VObject [("backendName", VString "gitea");
                      ("token", VString "qr")]
  /\ prefs st' = [("theme", VString "dark")].
Proof.
  intros st st'.
  exact (sign_in_link_outcomes (FlowExamples.env FlowExamples.working) st
           FlowExamples.working "gitea" "qr"
           [("token", VString "qr");
            ("prefs", VObject [("theme", VString "dark")])]
           ltac:(discriminate) eq_refl eq_refl eq_refl ltac:(discriminate)
           eq_refl eq_refl).
Defined.

(** *** Manual sign-in *)

(** X23 ([signInManually]).  Once [signIn] has returned, [unauthenticated]
    is the negation of the returned user.  With a user, [fetchFiles] is
    called; its success resets the error, and its failure, whatever the
    status, 401 included, is shown and logged by [logError] while the user
    stays authenticated.  Without a user nothing else happens. *)
Theorem manual_sign_in_after_profile {W : Type} (E : Env W) (st : State W)
    (service : BackendService W) (selected : string) (token u : Value)
    (w : W) :
  backends E selected = Some service ->
  signIn service (mkSignInOptions token VUndefined false) (world st)
    = (Returned u, w) ->
  let run := signInManually E selected token st in
  let st' := snd run in
  backendName st' = Some selected
  /\ unauthenticated st' = negb (truthy u)
  /\ if truthy u
     then user st' = u
          /\ calls st'
             = (calls st
                ++ [SignInCall (mkSignInOptions token VUndefined false);
                    FetchFilesCall])%list
          /\ match fetchFiles service w with
             | (Returned _, w') =>
                 fst run = Returned tt /\ signInError st' = noError
                 /\ console st' = console st /\ world st' = w'
             | (Thrown ex, w') =>
                 fst run = Returned tt
                 /\ signInError st'
                    = signInError
                        (snd (logError E ex (setBackendName (Some selected) st)))
                 /\ console st' = (console st ++ [(message ex, cause ex)])%list
                 /\ world st' = w'
             | (Pending, _) => fst run = Pending
             end
     else fst run = Returned tt
          /\ user st' = user st
          /\ signInError st' = signInError st
          /\ calls st'
             = (calls st
                ++ [SignInCall (mkSignInOptions token VUndefined false)])%list.
Proof.
  intros Hbackend Hsign run st'. subst st' run.
  destruct (signInManually E selected token st) as [out st'] eqn:Hrun.
  cbn [fst snd]. revert Hrun.
  unfold signInManually. step_flow. rewrite Hbackend. step_flow.
  rewrite Hsign. step_flow.
  destruct (truthy u); cbn [negb];
    [|intro H; injection H as <- <-; cbn; repeat split].
  step_flow.
  destruct (fetchFiles service w) as [[[]|ex|] w'];
    [|rewrite logError_run|]; intro H; injection H as <- <-; cbn;
    rewrite <- ?app_assoc; repeat split.
  unfold logError; step_flow.
  destruct (String.eqb (name ex) "NotFoundError"),
    (String.eqb (name ex) "AbortError"); reflexivity.
Qed.

Lemma manual_sign_in_after_profile_witness :
  let st' :=
    snd (signInManually
           (AuthExamples.env (AuthExamples.rejectingFetch AuthExamples.unauthorized))
           "gitea" (VString "pat") AuthExamples.returning) in
  unauthenticated st' = false
  /\ signInError st' = mkSignInError "Unauthorized" false.
Proof.
  intro st'.
  destruct (manual_sign_in_after_profile
              (AuthExamples.env
                 (AuthExamples.rejectingFetch AuthExamples.unauthorized))
              AuthExamples.returning
              (AuthExamples.rejectingFetch AuthExamples.unauthorized)
              "gitea" (VString "pat")
              (VObject [("backendName", VString "gitea");
                        ("token", VString "pat")]) 1%nat eq_refl eq_refl)
    as [_ [Hauth [_ [_ [_ [Herror _]]]]]].
  split; [exact Hauth|exact Herror].
Defined.

(** *** The backend calls of a run *)

(** X24 ([signInManually]).  In every run the backend sees nothing, or
    [signIn] with the given token and [auto: false], or that [signIn]
    followed by [fetchFiles]; it sees nothing exactly when no backend is
    registered under the given name. *)
Theorem manual_sign_in_call_sequence {W : Type} (E : Env W) (st : State W)
    (selected : string) (token : Value) :
  let st' := snd (signInManually E selected token st) in
  let options := mkSignInOptions token VUndefined false in
  exists new,
    calls st' = (calls st ++ new)%list
    /\ (new = [] \/ new = [SignInCall options]
        \/ new = [SignInCall options; FetchFilesCall])
    /\ (new = [] <-> backends E selected = None).
Proof.
  intros st' options. subst st' options.
  destruct (signInManually E selected token st) as [out st'] eqn:Hrun.
  cbn [snd]. revert Hrun.
  unfold signInManually. step_flow.
  destruct (backends E selected) as [service|];
    [|intro H; injection H as <- <-; exists []; cbn;
      rewrite app_nil_r; intuition discriminate].
  step_flow.
  destruct (signIn service _ (world st)) as [[u|ex|] w]; step_flow.
  - destruct (truthy u); cbn [negb]; step_flow.
    + destruct (fetchFiles service w) as [[[]|ex|] w'];
        [|rewrite logError_run|]; intro H; injection H as <- <-;
        eexists; cbn; rewrite <- ?app_assoc;
        (split; [reflexivity|]); cbn; intuition discriminate.
    + intro H; injection H as <- <-. eexists; cbn.
      (split; [reflexivity|]); intuition discriminate.
  - rewrite logError_run. intro H; injection H as <- <-. eexists; cbn.
    (split; [reflexivity|]); intuition discriminate.
  - intro H; injection H as <- <-. eexists; cbn.
    (split; [reflexivity|]); intuition discriminate.
Qed.

Ltac split_run :=
  repeat (step_flow;
          match goal with
          | |- context [logError ?E ?ex ?st] => rewrite (logError_run E ex st)
          | |- context [match ?x with _ => _ end] =>
              lazymatch x with
              | context [match _ with _ => _ end] => fail
              | _ => destruct x eqn:?
              end
          end).

(** X25 ([signInAutomatically]).  In every run the backend sees nothing, or
    one [signIn] with [auto: true], or that [signIn] followed by one
    [fetchFiles]: files are never fetched without a preceding sign-in. *)
Theorem auto_sign_in_call_sequence {W : Type} (E : Env W) (st : State W) :
  let st' := snd (signInAutomatically E st) in
  exists new,
    calls st' = (calls st ++ new)%list
    /\ (new = []
        \/ exists options,
             opt_auto options = true
             /\ (new = [SignInCall options]
                 \/ new = [SignInCall options; FetchFilesCall])).
Proof.
  intros st'. subst st'.
  destruct (signInAutomatically E st) as [out st'] eqn:Hrun.
  cbn [snd]. revert Hrun.
  unfold signInAutomatically, readSignInLink. split_run.
  all: intro H; injection H as <- <-; cbn.
  all: first
    [ exists []; split; [now rewrite app_nil_r|now left]
    | eexists; split; [rewrite <- ?app_assoc; reflexivity|];
      right; eexists; split;
      [|first [left; reflexivity|right; reflexivity]]; reflexivity ].
Qed.

(** X26 ([signInAutomatically], [signInManually]).  The flows swallow every
    backend error.  [signInManually] never rejects, and
    [signInAutomatically] rejects only with the [TypeError] of reading the
    backend name from a missing site configuration, which needs a cache that
    does not select the local backend. *)
Theorem sign_in_flows_swallow_backend_errors {W : Type} (E : Env W)
    (st : State W) (selected : string) (token : Value) :
  match fst (signInAutomatically E st) with
  | Thrown e =>
      siteConfigBackendName st = None
      /\ e = typeError "siteConfig is undefined"
      /\ usesLocalBackend (cachedUserOf (readUserCache st)) = false
  | _ => True
  end
  /\ match fst (signInManually E selected token st) with
     | Thrown _ => False
     | _ => True
     end.
Proof.
  split.
  - destruct (signInAutomatically E st) as [out st'] eqn:Hrun.
    cbn [fst]. revert Hrun.
    unfold signInAutomatically, readSignInLink. split_run.
    all: intro H; try exact I; try discriminate H; inversion H; subst; auto.
  - destruct (signInManually E selected token st) as [out st'] eqn:Hrun.
    cbn [fst]. revert Hrun.
    unfold signInManually. split_run.
    all: intro H; try exact I; try discriminate H; inversion H; subst; auto.
Qed.

End AuthMore.

(* ================================================================== *)
(** * Properties of the collection file lookups                         *)
(* ================================================================== *)

Module CollectionFacts.
Import Js CollectionFiles.

Lemma findIndex_found {A} (p : A -> bool) (l : list A) :
  findIndex p l <> (-1)%Z ->
  exists before x after,
    l = (before ++ x :: after)%list
    /\ p x = true
    /\ forallb (fun y => negb (p y)) before = true
    /\ findIndex p l = Z.of_nat (List.length before).
Proof.
  induction l as [|x l IH]; cbn [findIndex]; [congruence|].
  destruct (p x) eqn:Hx.
  - intros _. exists [], x, l. auto.
  - destruct (findIndex p l =? -1)%Z eqn:Hi; [congruence|].
    intros _. apply Z.eqb_neq in Hi.
    destruct (IH Hi) as [before [y [after [-> [Hy [Hbefore Hindex]]]]]].
    exists (x :: before), y, after. cbn [forallb List.length app].
    rewrite Hx, Hbefore, Hindex. repeat split; auto. lia.
Qed.

Lemma findIndex_missing {A} (p : A -> bool) (l : list A) :
  findIndex p l = (-1)%Z -> forallb (fun y => negb (p y)) l = true.
Proof.
  induction l as [|x l IH]; cbn [findIndex forallb]; [reflexivity|].
  destruct (p x); [discriminate|].
  destruct (findIndex p l =? -1)%Z eqn:Hi.
  - intros _. apply Z.eqb_eq in Hi. now rewrite IH.
  - intro H. pose proof (findIndex_found p l) as Hfound.
    apply Z.eqb_neq in Hi.
    destruct (Hfound Hi) as [before [_ [_ [_ [_ [_ Hindex]]]]]]. lia.
Qed.

Lemma find_first {A} (p : A -> bool) (l : list A) (x : A) :
  find p l = Some x ->
  exists before after,
    l = (before ++ x :: after)%list
    /\ p x = true
    /\ forallb (fun y => negb (p y)) before = true.
Proof.
  induction l as [|y l IH]; cbn [find]; [discriminate|].
  destruct (p y) eqn:Hy.
  - intro H. injection H as ->. exists [], l. auto.
  - intro H. destruct (IH H) as [before [after [-> [Hx Hbefore]]]].
    exists (y :: before), after. cbn [forallb app]. rewrite Hy, Hbefore. auto.
Qed.

(** X27 ([getFileIndex]).  A result other than [-1] is the position of the
    first file with the given name in the first collection with the given
    name: both names are non-empty, the site configuration exists, no
    earlier collection has the name, the collection has files, and no
    earlier file has the name. *)
Theorem getFileIndex_first_match (siteConfig : option SiteConfig)
    (collectionName fileName : option string) :
  getFileIndex siteConfig collectionName fileName <> (-1)%Z ->
  exists config cn fn earlier c later fileList before f after,
    siteConfig = Some config
    /\ collectionName = Some cn /\ cn <> ""
    /\ fileName = Some fn /\ fn <> ""
    /\ collections config = (earlier ++ c :: later)%list
    /\ config_name c = cn
    /\ Forall (fun c' => config_name c' <> cn) earlier
    /\ config_files c = Some fileList
    /\ fileList = (before ++ f :: after)%list
    /\ config_file_name f = fn
    /\ Forall (fun f' => config_file_name f' <> fn) before
    /\ getFileIndex siteConfig collectionName fileName
       = Z.of_nat (List.length before).
Proof.
  unfold getFileIndex.
  destruct collectionName as [cn|]; [|cbn; congruence].
  destruct fileName as [fn|]; [|cbn; rewrite andb_false_r; congruence].
  cbn [truthy show].
  destruct (String.eqb cn "") eqn:Hcn; [cbn; congruence|].
  destruct (String.eqb fn "") eqn:Hfn; [cbn; congruence|].
  cbn [negb andb].
  destruct siteConfig as [config|]; [|congruence].
  destruct (find _ (collections config)) as [c|] eqn:Hfind; [|congruence].
  destruct (config_files c) as [fileList|] eqn:Hfiles; [|congruence].
  intro Hindex.
  destruct (find_first _ _ _ Hfind) as [earlier [later [Hsplit [Hc Hearlier]]]].
  destruct (findIndex_found _ _ Hindex)
    as [before [f [after [Hlist [Hf [Hbefore Hvalue]]]]]].
  exists config, cn, fn, earlier, c, later, fileList, before, f, after.
  apply String.eqb_neq in Hcn, Hfn. apply String.eqb_eq in Hc, Hf.
  repeat split; auto.
  - apply Forall_forall. intros c' Hin. rewrite forallb_forall in Hearlier.
    specialize (Hearlier c' Hin). apply negb_true_iff in Hearlier.
    now apply String.eqb_neq.
  - apply Forall_forall. intros f' Hin. rewrite forallb_forall in Hbefore.
    specialize (Hbefore f' Hin). apply negb_true_iff in Hbefore.
    now apply String.eqb_neq.
Qed.

Lemma getFileIndex_first_match_witness :
  exists c before,
    config_name c = "pages"
    /\ Forall (fun f' => config_file_name f' <> "about") before
    /\ getFileIndex (Some CollectionExamples.site) (Some "pages")
         (Some "about")
       = Z.of_nat (List.length before).
Proof.
  destruct (getFileIndex_first_match (Some CollectionExamples.site)
              (Some "pages") (Some "about"))
    as [config [cn [fn [earlier [c [later [fileList [before [f [after H]]]]]]]]]].
  - discriminate.
  - destruct H as [_ [Hcn [_ [Hfn [_ [_ [Hc [_ [_ [_ [_ [Hbefore Hindex]]]]]]]]]]]].
    injection Hcn as <-. injection Hfn as <-.
    exists c, before. auto.
Defined.

(** X28 ([getFileIndex]).  When both names are non-empty and the first
    collection with the given name has files, the result is [-1] only if
    none of its files has the given name. *)
Theorem getFileIndex_missing (siteConfig : option SiteConfig)
    (collectionName fileName : option string) (config : SiteConfig)
    (c : CollectionConfig) (fileList : list FileConfig) :
  getFileIndex siteConfig collectionName fileName = (-1)%Z ->
  siteConfig = Some config ->
  truthy collectionName = true ->
  truthy fileName = true ->
  find (fun c' => String.eqb (config_name c') (show collectionName))
    (collections config) = Some c ->
  config_files c = Some fileList ->
  Forall (fun f => config_file_name f <> show fileName) fileList.
Proof.
  unfold getFileIndex. intros Hindex -> Hcn Hfn Hfind Hfiles.
  rewrite Hcn, Hfn, Hfind, Hfiles in Hindex. cbn [andb] in Hindex.
  apply findIndex_missing in Hindex.
  apply Forall_forall. intros f Hin. rewrite forallb_forall in Hindex.
  specialize (Hindex f Hin). apply negb_true_iff in Hindex.
  now apply String.eqb_neq.
Qed.

Lemma getFileIndex_missing_witness :
  Forall (fun f => config_file_name f <> "contact")
    [mkFileConfig "home"; mkFileConfig "about"; mkFileConfig "about"].
Proof.
  exact (getFileIndex_missing (Some CollectionExamples.site) (Some "pages")
           (Some "contact") CollectionExamples.site CollectionExamples.pages
           _ eq_refl eq_refl eq_refl eq_refl eq_refl eq_refl).
Defined.

(** X29 ([getFile], [getFilesByEntry]).  The entry [getFile] returns is one
    of the entries, and one of its associated collections has the given
    name, is a file collection, and maps some key to a file with the given
    name whose full path is the entry's path for the file's default
    locale. *)
Theorem getFile_matches_default_locale (allEntries : list Entry)
    (getAssociatedCollections : Entry -> list InternalCollection)
    (collectionName fileName : string) (entry : Entry) :
  getFile allEntries getAssociatedCollections collectionName fileName
    = Some entry ->
  In entry allEntries
  /\ exists collection fileMap key file,
       In collection (getAssociatedCollections entry)
       /\ collection_name collection = collectionName
       /\ files collection = true
       /\ _fileMap collection = Some fileMap
       /\ In (key, file) fileMap
       /\ file_name file = fileName
       /\ pathOf (defaultLocale file) (locales entry) = Some (fullPath file).
Proof.
  unfold getFile. intro Hfind. apply find_some in Hfind as [Hin Hmatch].
  split; [exact Hin|].
  apply existsb_exists in Hmatch as [collection [Hassoc Hmatch]].
  apply andb_true_iff in Hmatch as [Hname Hfile].
  apply existsb_exists in Hfile as [file [Hfile Hfn]].
  unfold getFilesByEntry in Hfile.
  destruct (files collection) eqn:Hfiles; [|contradiction].
  destruct (_fileMap collection) as [fileMap|] eqn:Hmap; [|contradiction].
  apply filter_In in Hfile as [Hvalue Hpath].
  apply in_map_iff in Hvalue as [[key file'] [Hsnd Hpair]].
  cbn in Hsnd. subst file'.
  exists collection, fileMap, key, file.
  apply String.eqb_eq in Hname, Hfn. repeat split; auto.
  destruct (pathOf (defaultLocale file) (locales entry)) as [path|];
    [|discriminate].
  apply String.eqb_eq in Hpath. now subst path.
Qed.

Lemma getFile_matches_default_locale_witness :
  In CollectionExamples.aboutEntry
    [CollectionExamples.post; CollectionExamples.aboutEntry].
Proof.
  exact (proj1 (getFile_matches_default_locale
                  [CollectionExamples.post; CollectionExamples.aboutEntry]
                  CollectionExamples.associated "pages" "about"
                  CollectionExamples.aboutEntry eq_refl)).
Defined.

End CollectionFacts.
